(** * odaexport: request signing, transport, task polling and export workflow

    A shallow embedding of [ociUtils.js] (signing and the two HTTPS
    transports) and [export-da-insights.js] (status polling with backoff,
    download loop, top-level workflow and date validation).

    A text is modelled by the [string] of the bytes of its UTF-8 encoding,
    which is what goes over the wire and into a file.  [String.length] is
    therefore its byte count, while the JavaScript [.length], which counts
    UTF-16 code units, is [JsString.jsLength]; the two agree on ASCII text.
    A text is empty exactly when it has no byte, so a condition on
    [x.length] is written on the bytes.  Case conversion acts on the letters
    a-z / A-Z only. *)

From Stdlib Require Import String Ascii List ZArith Bool Arith Lia.
Import ListNotations.
Local Open Scope string_scope.
Set Warnings "-register-all".

(* ------------------------------------------------------------------ *)
(** ** JavaScript string operations used by the program *)

Module JsString.

Definition upperChar (c : ascii) : ascii :=
  let n := nat_of_ascii c in
  if (97 <=? n)%nat && (n <=? 122)%nat then ascii_of_nat (n - 32) else c.

Definition lowerChar (c : ascii) : ascii :=
  let n := nat_of_ascii c in
  if (65 <=? n)%nat && (n <=? 90)%nat then ascii_of_nat (n + 32) else c.

Fixpoint mapChars (f : ascii -> ascii) (s : string) : string :=
  match s with
  | EmptyString => EmptyString
  | String c r => String (f c) (mapChars f r)
  end.

(** [s.toUpperCase()] and [s.toLowerCase()]. *)
Definition toUpperCase : string -> string := mapChars upperChar.
Definition toLowerCase : string -> string := mapChars lowerChar.

(** [s.startsWith(p)]. *)
Definition startsWith (s p : string) : bool := String.prefix p s.

(** [s.includes(sub)]: [sub] occurs somewhere in [s]. *)
Fixpoint includes (s sub : string) : bool :=
  if String.prefix sub s then true
  else match s with
       | EmptyString => false
       | String _ r => includes r sub
       end.

Fixpoint dropChars (n : nat) (s : string) : string :=
  match n, s with
  | O, _ => s
  | S k, String _ r => dropChars k r
  | S _, EmptyString => EmptyString
  end.

(** [s.replace(pat, rep)] with a string pattern: the first occurrence only.
    The replacement texts used by the program contain no [$] pattern. *)
Fixpoint replace (s pat rep : string) : string :=
  if String.prefix pat s then rep ++ dropChars (String.length pat) s
  else match s with
       | EmptyString => EmptyString
       | String c r => String c (replace r pat rep)
       end.

Definition isSpace (c : ascii) : bool :=
  let n := nat_of_ascii c in
  (n =? 32)%nat || ((9 <=? n)%nat && (n <=? 13)%nat).

Fixpoint trimStart (s : string) : string :=
  match s with
  | String c r => if isSpace c then trimStart r else s
  | EmptyString => EmptyString
  end.

Fixpoint trimEnd (s : string) : string :=
  match s with
  | EmptyString => EmptyString
  | String c r =>
      match trimEnd r with
      | EmptyString => if isSpace c then EmptyString else String c EmptyString
      | r' => String c r'
      end
  end.

(** [s.trim()]. *)
Definition trim (s : string) : string := trimEnd (trimStart s).

(** [arr.indexOf(x) !== -1] on an array of strings. *)
Definition memberOf (x : string) (arr : list string) : bool :=
  existsb (String.eqb x) arr.

(** [arr.join(sep)]. *)
Definition join (sep : string) (arr : list string) : string :=
  String.concat sep arr.

(** The double-quote character and the line feed, as one-character strings. *)
Definition dquote : string := String (ascii_of_nat 34) EmptyString.
Definition newline : string := String (ascii_of_nat 10) EmptyString.

Definition isDigit (c : ascii) : bool :=
  let n := nat_of_ascii c in (48 <=? n)%nat && (n <=? 57)%nat.

(** The UTF-16 code units of the character that begins with byte [c] of a
    UTF-8 text: one for an ASCII byte and for the first byte of a two- or
    three-byte sequence, two (a surrogate pair) for the first byte of a
    four-byte sequence, none for a continuation byte. *)
Definition utf16Units (c : ascii) : nat :=
  let n := nat_of_ascii c in
  if (n <? 128)%nat then 1
  else if (n <? 192)%nat then 0
  else if (n <? 240)%nat then 1
  else 2.

(** [s.length]: the number of UTF-16 code units of the text. *)
Fixpoint jsLength (s : string) : nat :=
  match s with
  | EmptyString => 0
  | String c r => utf16Units c + jsLength r
  end.

Definition digitValue (c : ascii) : nat := nat_of_ascii c - 48.

Fixpoint decimalDigits (fuel n : nat) (acc : string) : string :=
  match fuel with
  | O => acc
  | S f =>
      let acc' := String (ascii_of_nat (48 + n mod 10)) acc in
      if (n <? 10)%nat then acc' else decimalDigits f (n / 10) acc'
  end.

(** [String(n)] for a non-negative integer. *)
Definition ofNat (n : nat) : string := decimalDigits (S n) n EmptyString.

End JsString.

(* ------------------------------------------------------------------ *)
(** ** Values, the runtime's built-ins and the process monad *)

Module Js.
Import JsString.

(** JavaScript values as the program handles them: parsed JSON bodies,
    strings, thrown errors.  [VError v] is [new Error(v)]. *)
Inductive value : Type :=
| VUndefined
| VNull
| VBool (b : bool)
| VNum (n : Z)
| VStr (s : string)
| VArr (items : list value)
| VObj (fields : list (string * value))
| VError (message : value).

Fixpoint lookupField (k : string) (fields : list (string * value)) : value :=
  match fields with
  | [] => VUndefined
  | (k', v) :: r => if String.eqb k k' then v else lookupField k r
  end.

(** [v.k] for the property names the program reads ([status], [filenames],
    [error], [jobId], [retryable]): [None] is the TypeError raised on
    [undefined] and [null]; a value that is not an object has none of these
    properties. *)
Definition getProp (v : value) (k : string) : option value :=
  match v with
  | VUndefined | VNull => None
  | VObj fields => Some (lookupField k fields)
  | _ => Some VUndefined
  end.

(** A header value as passed to [setHeader]: a string or a number. *)
Inductive headerValue : Type :=
| HStr (s : string)
| HNum (n : nat).

Definition headerText (v : headerValue) : string :=
  match v with
  | HStr s => s
  | HNum n => ofNat n
  end.

Definition headerFalsy (v : option headerValue) : bool :=
  match v with
  | None => true
  | Some (HStr s) => String.eqb s EmptyString
  | Some (HNum n) => (n =? 0)%nat
  end.

(** The outgoing request object ([http.ClientRequest]): headers are kept
    under their lower-cased name together with the name as written. *)
Record clientRequest : Type := mkRequest {
  method : string;
  host : string;
  path : string;
  headers : list (string * (string * headerValue))
}.

Fixpoint assocGet {A : Type} (k : string) (l : list (string * A)) : option A :=
  match l with
  | [] => None
  | (k', v) :: r => if String.eqb k k' then Some v else assocGet k r
  end.

Fixpoint assocSet {A : Type} (k : string) (v : A) (l : list (string * A))
  : list (string * A) :=
  match l with
  | [] => [(k, v)]
  | (k', v') :: r =>
      if String.eqb k k' then (k, v) :: r else (k', v') :: assocSet k v r
  end.

(** [request.getHeader(name)] and [request.setHeader(name, value)]. *)
Definition getHeader (r : clientRequest) (name : string) : option headerValue :=
  option_map snd (assocGet (toLowerCase name) (headers r)).

Definition setHeader (r : clientRequest) (name : string) (v : headerValue)
  : clientRequest :=
  mkRequest (method r) (host r) (path r)
            (assocSet (toLowerCase name) (name, v) (headers r)).

(** What the server does with one request: it answers (status line, content
    type, the body in chunks, then either [end] or an [error] event on the
    response), or the request itself fails. *)
Record response : Type := mkResponse {
  statusCode : Z;
  statusMessage : string;
  contentType : option string;
  chunks : list string;
  streamError : option value
}.

Inductive exchange : Type :=
| Responds (r : response)
| RequestError (e : value).

(** Built-ins and dependencies that are not part of the program's sources,
    and the configuration loaded by [utils.getConfigData]. *)
Record platform : Type := mkPlatform {
  (* utils.js exports *)
  DOMAIN : string;
  PRIVATE_KEY : string;
  KEY_FINGERPRINT : string;
  TENANCY_ID : string;
  AUTH_USER_ID : string;
  (* jsSHA('SHA-256','TEXT') ... getHash('B64') *)
  sha256B64 : string -> string;
  (* sshpk: the algorithm name of a private key, [None] when it cannot be
     parsed; the base64 signature of a text under a key *)
  keyAlgorithm : string -> option string;
  signatureB64 : string -> string -> string;
  (* jsprim.rfc1123(new Date()) *)
  rfc1123Now : string;
  (* JSON.parse ([None]: SyntaxError) and JSON.stringify *)
  JSON_parse : string -> option value;
  JSON_stringify : value -> string;
  (* ToString of a value that is not a string *)
  coerceToString : value -> string;
  encodeURIComponent : string -> string;
  (* os.homedir() *)
  homedir : string;
  (* fs.statSync(p).isDirectory(); [None]: statSync throws *)
  statIsDirectory : string -> option bool;
  (* fs.createWriteStream(p): [Some e] when the file cannot be opened, so
     that the stream emits [error] with [e]; [None] when it opens *)
  writeStreamError : string -> option value;
  (* whether [new Date("YYYY-MM-DD")] accepts a day past the month's end
     (up to 31) by rolling over, as V8 does *)
  dateRollsOver : bool;
  (* the n-th HTTPS exchange of the run *)
  server : nat -> exchange
}.

(** ToString, as applied by template literals. *)
Definition ToString (P : platform) (v : value) : string :=
  match v with
  | VStr s => s
  | _ => coerceToString P v
  end.

(** Observable effects, in the order they happen. *)
Inductive event : Type :=
| Log (v : value)                                   (* console.log *)
| LogError (v : value)                              (* console.error *)
| Sleep (ms : Z)                                    (* wait between attempts *)
| Sent (r : clientRequest) (body : option string)   (* request.end([body]) *)
| FileCreate (file : string)                        (* fs.createWriteStream *)
| FileWrite (file : string) (chunk : string)        (* stream.write(chunk) *)
| FileEnd (file : string).                          (* stream.end() *)

Record world : Type := mkWorld {
  DEBUG : bool;
  requests : nat;
  trace : list event
}.

(** How a computation ends: a value, a rejection / thrown error, or
    [process.exit(code)], which nothing catches. *)
Inductive outcome (A : Type) : Type :=
| Resolved (a : A)
| Rejected (e : value)
| Exited (code : Z).
Arguments Resolved {A} a.
Arguments Rejected {A} e.
Arguments Exited {A} code.

Definition M (A : Type) : Type := world -> outcome A * world.

Definition ret {A : Type} (a : A) : M A := fun w => (Resolved a, w).

Definition bind {A B : Type} (c : M A) (k : A -> M B) : M B :=
  fun w =>
    match c w with
    | (Resolved a, w') => k a w'
    | (Rejected e, w') => (Rejected e, w')
    | (Exited code, w') => (Exited code, w')
    end.

Definition throw {A : Type} (e : value) : M A := fun w => (Rejected e, w).

(** [try { c } catch (e) { handler(e) }]. *)
Definition tryCatch {A : Type} (c : M A) (handler : value -> M A) : M A :=
  fun w =>
    match c w with
    | (Rejected e, w') => handler e w'
    | r => r
    end.

Definition emit (e : event) : M unit :=
  fun w => (Resolved tt, mkWorld (DEBUG w) (requests w) (trace w ++ [e])).

Definition processExit {A : Type} (code : Z) : M A :=
  fun w => (Exited code, w).

Definition getDEBUG : M bool := fun w => (Resolved (DEBUG w), w).

Definition setDEBUG (b : bool) : M unit :=
  fun w => (Resolved tt, mkWorld b (requests w) (trace w)).

(** The exchange that answers the next request; the request counts as
    issued. *)
Definition nextExchange (P : platform) : M exchange :=
  fun w => (Resolved (server P (requests w)),
            mkWorld (DEBUG w) (S (requests w)) (trace w)).

(** A thrown TypeError. *)
Definition typeError (what : string) : value :=
  VError (VStr ("TypeError: " ++ what)).

End Js.

Declare Scope js_scope.
Delimit Scope js_scope with js.
Notation "x <- c ;; k" := (Js.bind c (fun x => k))
  (at level 61, c at next level, right associativity) : js_scope.
Notation "c ;;; k" := (Js.bind c (fun _ => k))
  (at level 61, right associativity) : js_scope.

(* ------------------------------------------------------------------ *)
(** ** ociUtils.js: sign and send a request *)

Module OciUtils.
Import JsString Js.
Local Open Scope js_scope.

(** The [options] object handed to [https.request]. *)
Record requestOptions : Type := mkOptions {
  opt_host : string;
  opt_path : string;
  opt_method : option string;
  opt_headers : list (string * string)
}.

(** The [options] object handed to [sign]. *)
Record signOptions : Type := mkSignOptions {
  privateKey : string;
  keyFingerprint : string;
  tenancyId : string;
  userId : string;
  body : option string
}.

(** How a synchronous call ends. *)
Inductive completion : Type :=
| Returned
| Threw (e : value).

(** [https.request(options, callback)]: the request object as Node builds
    it.  The method is upper-cased and defaults to GET; the given headers are
    set, and a Host header is added from [options.host] when there is none. *)
Definition httpsRequest (o : requestOptions) : clientRequest :=
  let m := match opt_method o with
           | Some m => if String.eqb m EmptyString then "GET" else toUpperCase m
           | None => "GET"
           end in
  let r0 := mkRequest m (opt_host o) (opt_path o) [] in
  let r1 := fold_left (fun r kv => setHeader r (fst kv) (HStr (snd kv)))
                      (opt_headers o) r0 in
  if negb (String.eqb (opt_host o) EmptyString) && headerFalsy (getHeader r1 "host")
  then setHeader r1 "Host" (HStr (opt_host o))
  else r1.

Section Signer.
Context (P : platform).

(** The text that is signed: one line per listed header, in the listed
    order, joined by line feeds.  [inl h]: header [h] is missing or empty. *)
Fixpoint stringToSign (request : clientRequest) (hs : list string)
  : string + string :=
  match hs with
  | [] => inr EmptyString
  | h0 :: rest =>
      let h := toLowerCase h0 in
      let line :=
        if String.eqb h "(request-target)"
        then Some ("(request-target): " ++ toLowerCase (method request)
                   ++ " " ++ path request)
        else match getHeader request h with
             | None => None
             | Some v =>
                 if String.eqb (headerText v) EmptyString then None
                 else Some (h ++ ": " ++ headerText v)
             end in
      match line with
      | None => inl h
      | Some l =>
          match stringToSign request rest with
          | inl missing => inl missing
          | inr t =>
              inr (l ++ match rest with [] => EmptyString | _ => newline end ++ t)
          end
      end
  end.

(** The parameters of the [Authorization] value, and the value in the
    scheme's standard form. *)
Definition authorizationParams (keyId algorithm : string) (hs : list string)
           (signature : string) : string :=
  "keyId=" ++ dquote ++ keyId ++ dquote
  ++ ",algorithm=" ++ dquote ++ algorithm ++ dquote
  ++ ",headers=" ++ dquote ++ join " " hs ++ dquote
  ++ ",signature=" ++ dquote ++ signature ++ dquote.

Definition authorizationValue (keyId algorithm : string) (hs : list string)
           (signature : string) : string :=
  "Signature " ++ authorizationParams keyId algorithm hs signature.

(** Modelled from the spec: [httpSignature.sign(request, {key, keyId,
    headers})] belongs to the http-signature package, which is not among the
    sources.  As the spec has it (4.1, steps 4 and 5), the listed headers
    are signed with the private key, each as [name: value], joined by line
    feeds, in the listed order, and [Authorization] is set to the scheme's
    standard form.  The package also fills in a [Date] header when the
    request has none, and throws when the key cannot be parsed or a listed
    header is missing or empty; the model has both. *)
Definition httpSignature_sign (request : clientRequest) (key keyId : string)
           (hs : list string) : clientRequest * completion :=
  let request1 :=
    if headerFalsy (getHeader request "Date")
    then setHeader request "Date" (HStr (rfc1123Now P))
    else request in
  match keyAlgorithm P key with
  | None => (request1, Threw (VError (VStr "KeyParseError")))
  | Some algorithm =>
      match stringToSign request1 hs with
      | inl missing =>
          (request1,
           Threw (VError (VStr (missing ++ " was not in the request"))))
      | inr text =>
          (setHeader request1 "Authorization"
             (HStr (authorizationValue keyId algorithm hs
                                       (signatureB64 P key text))),
           Returned)
      end
  end.

Definition methodsThatRequireExtraHeaders : list string :=
  ["POST"; "PUT"; "PATCH"].

(** [options.body || ''] *)
Definition bodyOrEmpty (b : option string) : string :=
  match b with
  | Some s => s
  | None => EmptyString
  end.

(** [methodsThatRequireExtraHeaders.indexOf(request.method.toUpperCase())
    !== -1] *)
Definition requiresExtraHeaders (request : clientRequest) : bool :=
  memberOf (toUpperCase (method request)) methodsThatRequireExtraHeaders.

(** The local [headersToSign] of [sign] at the call of
    [httpSignature.sign]. *)
Definition headersToSign (request : clientRequest) : list string :=
  let headersToSign := ["host"; "date"; "(request-target)"] in
  if requiresExtraHeaders request
  then headersToSign ++ ["content-type"; "content-length"; "x-content-sha256"]
  else headersToSign.

(** The attribute that [sign] puts behind the scheme name: [version="1",]. *)
Definition versionMarker : string :=
  "version=" ++ dquote ++ "1" ++ dquote ++ ",".

(** [sign(request, options)].  Both objects are mutated in place: the result
    is their state when [sign] returns or throws. *)
Definition sign (request : clientRequest) (options : signOptions)
  : clientRequest * signOptions * completion :=
  let apiKeyId :=
    tenancyId options ++ "/" ++ userId options ++ "/" ++ keyFingerprint options in
  let '(request1, options1) :=
    if requiresExtraHeaders request
    then
      let body1 := bodyOrEmpty (body options) in
      let options1 :=
        mkSignOptions (privateKey options) (keyFingerprint options)
                      (tenancyId options) (userId options) (Some body1) in
      let r := setHeader request "Content-Length" (HNum (jsLength body1)) in
      let r := setHeader r "x-content-sha256" (HStr (sha256B64 P body1)) in
      (r, options1)
    else (request, options) in
  match httpSignature_sign request1 (privateKey options1) apiKeyId
                           (headersToSign request) with
  | (request2, Threw e) => (request2, options1, Threw e)
  | (request2, Returned) =>
      match getHeader request2 "Authorization" with
      | Some (HStr a) =>
          let newAuthHeaderValue :=
            replace a "Signature " ("Signature " ++ versionMarker) in
          (setHeader request2 "Authorization" (HStr newAuthHeaderValue),
           options1, Returned)
      | _ =>
          (request2, options1,
           Threw (typeError "getHeader(...).replace is not a function"))
      end
  end.

End Signer.

Section Transport.
Context (P : platform).

Definition isTruthy (b : option string) : bool :=
  match b with
  | Some s => negb (String.eqb s EmptyString)
  | None => false
  end.

Definition isJson (r : response) : bool :=
  match contentType r with
  | Some t => String.eqb t "application/json"
  | None => false
  end.

(** An exception thrown inside an event handler is caught by nobody: Node
    prints it and the process ends with status 1. *)
Definition uncaught {A : Type} (e : value) : M A :=
  emit (LogError e) ;;; processExit 1.

Definition propOrThrow (v : value) (k : string) : M value :=
  match getProp v k with
  | Some x => ret x
  | None => throw (typeError ("cannot read property " ++ k))
  end.

(** The body of the [end] handler after the stream is closed: how the
    promise is settled from the status code, the content type and the
    accumulated [responseBody]. *)
Definition settle (r : response) (responseBody : string) : M value :=
  if (statusCode r <? 300)%Z then
    if isJson r then
      match JSON_parse P responseBody with
      | Some v => ret v
      | None => uncaught (VError (VStr "SyntaxError"))
      end
    else ret (VStr responseBody)
  else
    if isJson r then
      match JSON_parse P responseBody with
      | Some errorResponse =>
          match getProp errorResponse "status", getProp errorResponse "title",
                getProp errorResponse "detail" with
          | Some st, Some ti, Some de =>
              throw (VError (VStr (ToString P st ++ ": " ++ ToString P ti
                                   ++ ": " ++ ToString P de)))
          | _, _, _ => uncaught (typeError "cannot read property status")
          end
      | None => uncaught (VError (VStr "SyntaxError"))
      end
    else
      throw (VError (VStr (ToString P (VNum (statusCode r)) ++ ": "
                           ++ statusMessage r))).

Definition utilsSignOptions (b : option string) : signOptions :=
  mkSignOptions (PRIVATE_KEY P) (KEY_FINGERPRINT P) (TENANCY_ID P)
                (AUTH_USER_ID P) b.

(** [promisifiedSendRequest(options, body)] *)
Definition promisifiedSendRequest (options : requestOptions)
           (body : option string) : M value :=
  let request := httpsRequest options in
  let signOptions := utilsSignOptions (if isTruthy body then body else None) in
  match sign P request signOptions with
  | (_, _, Threw e) => throw e
  | (request', _, Returned) =>
      emit (Sent request' (if isTruthy body then body else None)) ;;;
      x <- nextExchange P ;;
      match x with
      | RequestError e => throw (VError e)
      | Responds response =>
          let responseBody := fold_left append (chunks response) EmptyString in
          match streamError response with
          | Some e => throw (VError e)
          | None => settle response responseBody
          end
      end
  end.

(** The [data] handler of [promisifiedWriteZipResponse], run for each chunk
    in turn; the result is the accumulated [responseBody]. *)
Fixpoint onData (outFile : string) (cs : list string) (responseBody : string)
  : M string :=
  match cs with
  | [] => ret responseBody
  | chunk :: rest =>
      emit (FileWrite outFile chunk) ;;;
      onData outFile rest (responseBody ++ chunk)
  end.

(** [promisifiedWriteZipResponse(options, outFile)].  The write stream is
    created when the response begins.  The program puts no [error] listener
    on it: when the file cannot be opened, the stream's [error] event is an
    exception that nobody catches, and the process ends with status 1; the
    model lets this happen before the first chunk is handled, so that
    nothing is written. *)
Definition promisifiedWriteZipResponse (options : requestOptions)
           (outFile : string) : M value :=
  let request := httpsRequest options in
  let signOptions := utilsSignOptions None in
  match sign P request signOptions with
  | (_, _, Threw e) => throw e
  | (request', _, Returned) =>
      emit (Sent request' None) ;;;
      x <- nextExchange P ;;
      match x with
      | RequestError e => throw (VError e)
      | Responds response =>
          match writeStreamError P outFile with
          | Some e => uncaught e
          | None =>
              emit (FileCreate outFile) ;;;
              responseBody <- onData outFile (chunks response) EmptyString ;;
              match streamError response with
              | Some e => throw (VError e)
              | None =>
                  emit (FileEnd outFile) ;;;
                  settle response responseBody
              end
          end
      end
  end.

End Transport.

End OciUtils.

(* ------------------------------------------------------------------ *)
(** ** export-da-insights.js: start the export, poll, download *)

Module ExportDaInsights.
Import JsString Js OciUtils.
Local Open Scope js_scope.

(** The [EXPORTDAINSIGHTS] constants. *)
Definition basePath : string := "/api/v1".
Definition maxStatusRetries : nat := 20.
Definition activeStatuses : string := "SUBMITTED IN_PROGRESS".
Definition taskType : string := "EXPORT".
Definition insightsDataExport : bool := true.
Definition maxFileLength : string := "100000000".

(** [debug(message)] *)
Definition debug (message : string) : M unit :=
  d <- getDEBUG ;;
  if d then emit (Log (VStr message)) else ret tt.

(** [failureCallback(error)]: print and leave with status 1. *)
Definition failureCallback {A : Type} (error : value) : M A :=
  emit (LogError error) ;;; processExit 1.

(** *** The retry helper *)

Record attemptContext : Type := mkContext {
  attemptNum : nat;
  attemptsRemaining : nat;
  aborted : bool
}.

Record attemptOptions : Type := mkAttemptOptions {
  delay : Z;
  factor : Z;
  maxAttempts : nat;
  maxDelay : Z;
  handleError : value -> attemptContext -> M attemptContext
}.

(** The wait before attempt [attemptNum + 1]: [delay * factor ^ (attemptNum
    - 1)], at most [maxDelay]. *)
Definition calculateDelay (attemptNum : nat) (o : attemptOptions) : Z :=
  if (delay o =? 0)%Z then 0%Z
  else if (factor o =? 0)%Z then delay o
  else
    let d := (delay o * factor o ^ Z.of_nat (attemptNum - 1))%Z in
    if (maxDelay o =? 0)%Z then d else Z.min d (maxDelay o).

(** Modelled from the spec: [retry(attemptFunc, options)] of the
    @lifeomic/attempt dependency, which is not among the sources.  An attempt
    that rejects is handed to [handleError] together with the context (the
    number of the attempt, counted from 0, and the attempts that remain);
    unless the context was aborted or no attempt remains, the helper waits
    [calculateDelay] and tries again.  [remaining] is the attempt budget
    still unused, [maxAttempts] at first; the helper's unbounded mode
    ([maxAttempts = 0]) is not used by the program and not modelled. *)
Fixpoint makeAttempt (attemptFunc : attemptContext -> M value)
         (o : attemptOptions) (remaining num : nat) : M value :=
  match remaining with
  | O => throw (VError (VStr "no attempt budget"))
  | S rest =>
      let context := mkContext num rest false in
      tryCatch (attemptFunc context)
        (fun err =>
           context' <- handleError o err context ;;
           if aborted context' || (attemptsRemaining context' =? 0)%nat
           then throw err
           else
             let d := calculateDelay (S num) o in
             (if (d =? 0)%Z then ret tt else emit (Sleep d)) ;;;
             makeAttempt attemptFunc o rest (S num))
  end.

Definition retry (attemptFunc : attemptContext -> M value)
           (o : attemptOptions) : M value :=
  makeAttempt attemptFunc o (maxAttempts o) 0.

Section Workflow.
Context (P : platform).

(** *** Status polling *)

(** [getExportTask(exportId)] *)
Definition getExportTask (exportId : value) : M value :=
  let options :=
    mkOptions (DOMAIN P)
      (basePath ++ "/bots/insights/dataExports/"
       ++ encodeURIComponent P (ToString P exportId))
      None [] in
  debug ("getExportTask: GET https://" ++ opt_host options ++ opt_path options) ;;;
  promisifiedSendRequest P options None.

(** Whether [rejectIfRequestActive] takes a status for an active one:
    [EXPORTDAINSIGHTS.activeStatuses.includes(status.toUpperCase())]. *)
Definition isActiveStatus (status : string) : bool :=
  includes activeStatuses (toUpperCase status).

(** [rejectIfRequestActive(exportId)].  The [catch] sees what is thrown or
    awaited inside the [try]; the rejected promise that is returned for an
    active task passes it by. *)
Definition rejectIfRequestActive (exportId : value) : M value :=
  r <- tryCatch
         (result <- getExportTask exportId ;;
          status <- propOrThrow result "status" ;;
          debug ("rejectIfRequestActive: " ++ ToString P status) ;;;
          match status with
          | VStr s =>
              if isActiveStatus s
              then ret (inl (VError result))
              else ret (inr result)
          | _ => throw (typeError "result.status.toUpperCase is not a function")
          end)
         (fun error => failureCallback error) ;;
  match r with
  | inl rejection => throw rejection
  | inr result => ret result
  end.

(** [err.retryable === false] *)
Definition retryableIsFalse (err : value) : option bool :=
  match getProp err "retryable" with
  | Some (VBool false) => Some true
  | Some _ => Some false
  | None => None
  end.

Definition stillRunningMessage (exportId : value) : string :=
  "Export process is still running." ++ newline
  ++ "You will have to download the exported data for request ID "
  ++ ToString P exportId ++ " at a later time.".

(** The [options] of [waitForTaskCompletion]. *)
Definition pollOptions (exportId : value) : attemptOptions :=
  mkAttemptOptions 200 3 maxStatusRetries 60000
    (fun err context =>
       (if (attemptsRemaining context <? 1)%nat
        then failureCallback (VStr (stillRunningMessage exportId))
        else ret tt) ;;;
       match retryableIsFalse err with
       | Some true =>
           ret (mkContext (attemptNum context) (attemptsRemaining context) true)
       | Some false => ret context
       | None => throw (typeError "cannot read property retryable")
       end).

(** [waitForTaskCompletion(exportId)] *)
Definition waitForTaskCompletion (exportId : value) : M value :=
  debug "waitForTaskCompletion" ;;;
  tryCatch
    (retry (fun context => rejectIfRequestActive exportId) (pollOptions exportId))
    (fun error => failureCallback error).

(** *** Starting the export *)

Definition queryParm (name : string) (v : option string) : string :=
  if isTruthy v
  then "&" ++ name ++ "=" ++ encodeURIComponent P (bodyOrEmpty v)
  else EmptyString.

(** [startExportTask(id, taskName, beginDate, endDate)] *)
Definition startExportTask (id : string) (taskName beginDate endDate : option string)
  : M value :=
  let body :=
    VObj [("name", match taskName with Some n => VStr n | None => VUndefined end);
          ("taskType", VStr taskType);
          ("insightsDataExport", VBool insightsDataExport)] in
  let sinceQueryParm := queryParm "since" beginDate in
  let untilQueryParm := queryParm "until" endDate in
  let headers := [("Content-Type", "application/json")] in
  let options :=
    mkOptions (DOMAIN P)
      (basePath ++ "/bots/insights/dataExports?botId=" ++ encodeURIComponent P id
       ++ "&maxFileLength=" ++ encodeURIComponent P maxFileLength
       ++ sinceQueryParm ++ untilQueryParm)
      (Some "POST") headers in
  debug ("startExportTask: POST http://" ++ opt_host options ++ opt_path options) ;;;
  debug ("Headers: "
         ++ JSON_stringify P (VObj (map (fun kv => (fst kv, VStr (snd kv))) headers))) ;;;
  debug ("Body: " ++ JSON_stringify P body) ;;;
  promisifiedSendRequest P options (Some (JSON_stringify P body)).

(** *** Downloading *)

(** A [for] loop whose body may [return]. *)
Inductive loopStep (A : Type) : Type :=
| Continue
| Return (a : A).
Arguments Continue {A}.
Arguments Return {A} a.

(** [for (i = from; i < from + count; i++) body(i)]; [None] when the loop
    runs to its end. *)
Fixpoint forLoop {A : Type} (count from : nat) (body : nat -> M (loopStep A))
  : M (option A) :=
  match count with
  | O => ret None
  | S k =>
      s <- body from ;;
      match s with
      | Return a => ret (Some a)
      | Continue => forLoop k (S from) body
      end
  end.

(** The elements [v[0] .. v[v.length - 1]] of a value; [None] is the
    TypeError of reading [length] from [undefined] or [null]. *)
Definition elementsOf (v : value) : option (list value) :=
  match v with
  | VUndefined | VNull => None
  | VArr items => Some items
  | VStr s =>
      Some (map (fun c => VStr (String c EmptyString)) (list_ascii_of_string s))
  | _ => Some []
  end.

(** [writeExportedData(exportId, outDir, fileNames)] *)
Definition writeExportedData (exportId : value) (outDir : string)
           (fileNames : value) : M value :=
  match elementsOf fileNames with
  | None => throw (typeError "cannot read property length")
  | Some items =>
      r <- forLoop (List.length items) 0
             (fun i =>
                let name := nth i items VUndefined in
                let options :=
                  mkOptions (DOMAIN P)
                    (basePath ++ "/bots/insights/dataExports/"
                     ++ encodeURIComponent P (ToString P exportId)
                     ++ "/files/" ++ encodeURIComponent P (ToString P name))
                    None [] in
                debug ("writeExportedData: GET http://" ++ opt_host options
                       ++ opt_path options) ;;;
                emit (Log (VStr ("Downloading " ++ trim outDir ++ "/"
                                 ++ ToString P name))) ;;;
                v <- promisifiedWriteZipResponse P options
                       (trim outDir ++ "/" ++ ToString P name) ;;
                ret (Return v)) ;;
      match r with
      | Some v => ret v
      | None => ret VUndefined
      end
  end.

(** *** Date validation *)

Definition charIn (lo hi c : ascii) : bool :=
  (nat_of_ascii lo <=? nat_of_ascii c)%nat && (nat_of_ascii c <=? nat_of_ascii hi)%nat.

(** [/^\d\d\d\d-[0-1]\d-[0-3]\d$/.test(date)] *)
Definition matchesDatePattern (date : string) : bool :=
  match list_ascii_of_string date with
  | [y1; y2; y3; y4; s1; m1; m2; s2; d1; d2] =>
      isDigit y1 && isDigit y2 && isDigit y3 && isDigit y4
      && Ascii.eqb s1 "-" && charIn "0" "1" m1 && isDigit m2
      && Ascii.eqb s2 "-" && charIn "0" "3" d1 && isDigit d2
  | _ => false
  end.

Definition isLeapYear (y : nat) : bool :=
  ((y mod 4 =? 0) && negb (y mod 100 =? 0) || (y mod 400 =? 0))%nat.

Definition daysInMonth (y m : nat) : nat :=
  match m with
  | 2 => if isLeapYear y then 29 else 28
  | 4 | 6 | 9 | 11 => 30
  | _ => 31
  end.

(** Whether [new Date(date).getTime()] is NaN, for a [date] that matches the
    pattern: the month must be 01-12 and the day 01 up to the month's last
    day (up to 31 where the engine rolls over). *)
Definition dateIsNaN (date : string) : bool :=
  match list_ascii_of_string date with
  | [y1; y2; y3; y4; _; m1; m2; _; d1; d2] =>
      let year := 1000 * digitValue y1 + 100 * digitValue y2
                  + 10 * digitValue y3 + digitValue y4 in
      let month := 10 * digitValue m1 + digitValue m2 in
      let day := 10 * digitValue d1 + digitValue d2 in
      let lastDay := if dateRollsOver P then 31 else daysInMonth year month in
      negb ((1 <=? month) && (month <=? 12) && (1 <=? day) && (day <=? lastDay))%nat
  | _ => true
  end.

(** [isDateValid(type, date)]; [date = None] is [undefined]. *)
Definition isDateValid (type : string) (date : option string) : M bool :=
  match date with
  | None => ret true
  | Some date =>
      if (String.length date =? 0)%nat then ret true
      else if negb (matchesDatePattern date) then
        emit (Log (VStr ("The " ++ type ++ " date " ++ date
                         ++ " is not in the format YYYY-MM-DD."))) ;;;
        ret false
      else if dateIsNaN date then
        emit (Log (VStr ("The " ++ type ++ " date " ++ date
                         ++ " is not a valid date."))) ;;;
        ret false
      else ret true
  end.

(** *** Main *)

(** The script arguments; [None] is a property that is not there. *)
Record parameters : Type := mkParameters {
  p_id : string;
  p_taskname : option string;
  p_begindate : option string;
  p_enddate : option string;
  p_outpath : string;
  p_debug : option bool
}.

(** The [switch (finalStatus.toUpperCase())] of [run]. *)
Definition dispatch (ps : parameters) (zipFilePath : string)
           (exportJobId taskResource filenames : value) (finalStatus : string)
  : M unit :=
  let selector := toUpperCase finalStatus in
  if String.eqb selector "EXPORT_SUCCEEDED" then
    tryCatch
      (writeExportedData exportJobId zipFilePath filenames ;;; ret tt)
      (fun error =>
         emit (Log (VStr "Can't download the insights ZIP files. The reported error was:")) ;;;
         failureCallback error) ;;;
    emit (Log (VStr ("The export is done. The files are in the " ++ zipFilePath
                     ++ " directory.")))
  else if String.eqb selector "EXPORT_FAILED" then
    e <- propOrThrow taskResource "error" ;;
    emit (Log e)
  else if String.eqb selector "NO_DATA" then
    emit (Log (VStr "There isn't any data to export.")) ;;;
    match p_begindate ps, p_enddate ps with
    | None, None => ret tt
    | _, _ => emit (Log (VStr "Try a different date range."))
    end
  else
    emit (Log (VStr ("The export task is still running. You'll have to download the file later. The export task ID = "
                     ++ ToString P exportJobId))).

(** [run(parameters)] *)
Definition run (ps : parameters) : M unit :=
  tryCatch
    (setDEBUG (match p_debug ps with Some b => b | None => false end) ;;;
     let zipFilePath :=
       if startsWith (p_outpath ps) "~/"
       then replace (p_outpath ps) "~" (homedir P)
       else p_outpath ps in
     notDir <- match statIsDirectory P (trim zipFilePath) with
               | Some true => ret false
               | Some false =>
                   emit (Log (VStr (zipFilePath ++ " is not a directory."))) ;;;
                   ret true
               | None =>
                   emit (Log (VStr (zipFilePath ++ " doesn't exist."))) ;;;
                   ret true
               end ;;
     beginOk <- isDateValid "begin" (p_begindate ps) ;;
     endOk <- isDateValid "end" (p_enddate ps) ;;
     let errorsFound := notDir || negb beginOk || negb endOk in
     (if errorsFound
      then failureCallback
             (VStr "One or more arguments are invalid. Correct the values and try again.")
      else ret tt) ;;;
     response <- startExportTask (p_id ps) (p_taskname ps)
                   (p_begindate ps) (p_enddate ps) ;;
     exportJobId <- propOrThrow response "jobId" ;;
     debug ("Export ID: " ++ ToString P exportJobId) ;;;
     emit (Log (VStr ("The export job " ++ ToString P exportJobId
                      ++ " has started." ++ newline
                      ++ "Waiting for the job to finish..."))) ;;;
     taskResource <- waitForTaskCompletion exportJobId ;;
     finalStatus <- propOrThrow taskResource "status" ;;
     filenames <- propOrThrow taskResource "filenames" ;;
     match finalStatus with
     | VStr s =>
         debug ("run() final export task status: " ++ toUpperCase s) ;;;
         emit (Log finalStatus) ;;;
         dispatch ps zipFilePath exportJobId taskResource filenames s
     | _ => throw (typeError "finalStatus.toUpperCase is not a function")
     end)
    (fun err => failureCallback err).

End Workflow.

End ExportDaInsights.

(* ------------------------------------------------------------------ *)
(** ** Observations on traces, and a small concrete platform *)

Module Observe.
Import JsString Js OciUtils ExportDaInsights.

(** The waits of a trace, in order. *)
Fixpoint sleepsOf (tr : list event) : list Z :=
  match tr with
  | [] => []
  | Sleep ms :: r => ms :: sleepsOf r
  | _ :: r => sleepsOf r
  end.

(** The paths of the requests sent, in order. *)
Fixpoint sentPaths (tr : list event) : list string :=
  match tr with
  | [] => []
  | Sent r _ :: rest => path r :: sentPaths rest
  | _ :: rest => sentPaths rest
  end.

(** The files opened for writing, in order. *)
Fixpoint filesCreated (tr : list event) : list string :=
  match tr with
  | [] => []
  | FileCreate f :: r => f :: filesCreated r
  | _ :: r => filesCreated r
  end.

(** What has been written to [file] so far. *)
Fixpoint fileContent (file : string) (tr : list event) (acc : string) : string :=
  match tr with
  | [] => acc
  | FileCreate f :: r =>
      fileContent file r (if String.eqb f file then EmptyString else acc)
  | FileWrite f chunk :: r =>
      fileContent file r (if String.eqb f file then acc ++ chunk else acc)
  | _ :: r => fileContent file r acc
  end.

(** The world after further events. *)
Definition addEvents (w : world) (evs : list event) : world :=
  mkWorld (DEBUG w) (requests w) (trace w ++ evs).

(** The request object a status fetch builds for [exportId]. *)
Definition statusRequest (P : platform) (exportId : value) : clientRequest :=
  httpsRequest
    (mkOptions (DOMAIN P)
       (basePath ++ "/bots/insights/dataExports/"
        ++ encodeURIComponent P (ToString P exportId))
       None []).

(** The request and the options as [sign] has them when it calls
    [httpSignature.sign]. *)
Definition prepared (P : platform) (request : clientRequest)
           (options : signOptions) : clientRequest * signOptions :=
  if requiresExtraHeaders request then
    let body1 := bodyOrEmpty (body options) in
    (setHeader (setHeader request "Content-Length" (HNum (jsLength body1)))
               "x-content-sha256" (HStr (sha256B64 P body1)),
     mkSignOptions (privateKey options) (keyFingerprint options)
                   (tenancyId options) (userId options) (Some body1))
  else (request, options).

(** [xs] occurs in [l] in this order, other elements allowed in between. *)
Fixpoint inOrder (xs l : list string) : bool :=
  match xs, l with
  | [], _ => true
  | _ :: _, [] => false
  | x :: xs', y :: l' =>
      if String.eqb x y then inOrder xs' l' else inOrder xs l'
  end.

(** The attempt that [waitForTaskCompletion] hands to the retry helper. *)
Definition pollFunc (P : platform) (exportId : value)
  : attemptContext -> M value :=
  fun _ => rejectIfRequestActive P exportId.

(** The exchange answers a status fetch with a task resource whose status
    the poller takes for active: a response below 300 of content type
    [application/json] that ends normally and parses to an object with an
    active [status] string. *)
Definition observesActive (P : platform) (x : exchange) : bool :=
  match x with
  | Responds r =>
      match streamError r with
      | Some _ => false
      | None =>
          (statusCode r <? 300)%Z && isJson r
          && match JSON_parse P (fold_left append (chunks r) EmptyString) with
             | Some result =>
                 match getProp result "status" with
                 | Some (VStr s) => isActiveStatus s
                 | _ => false
                 end
             | None => false
             end
      end
  | RequestError _ => false
  end.

End Observe.

Module Demo.
Import JsString Js OciUtils ExportDaInsights.

(** A stand-in for [JSON.parse] that knows a few bodies: [JOB] is the answer
    to the start request, [DONE] a finished task with two files, and
    [status=S] a task resource whose status is [S]. *)
Definition demoParse (s : string) : option value :=
  if String.eqb s "JOB" then Some (VObj [("jobId", VStr "job1")])
  else if String.eqb s "DONE" then
    Some (VObj [("status", VStr "EXPORT_SUCCEEDED");
                ("filenames", VArr [VStr "a.zip"; VStr "b.zip"])])
  else if String.prefix "status=" s then
    Some (VObj [("status", VStr (dropChars 7 s))])
  else None.

Definition demoPlatform (srv : nat -> exchange) : platform :=
  mkPlatform "oda.example.com" "KEY" "aa:bb" "ocid1.tenancy" "ocid1.user"
    (fun b => "sha256:" ++ b) (fun _ => Some "rsa-sha256") (fun _ _ => "c2ln")
    "Mon, 02 Nov 2026 00:00:00 GMT"
    demoParse (fun _ => "{}") (fun _ => "?") (fun s => s) "/home/user"
    (fun _ => Some true) (fun _ => None) true srv.

Definition okResponse (ct : string) (cs : list string) : exchange :=
  Responds (mkResponse 200 "OK" (Some ct) cs None).

Definition freshWorld : world := mkWorld false 0 [].

(** A run in which the task is active twice, then succeeded with the files
    [a.zip] and [b.zip]; every later request is answered with ZIP data. *)
Definition succeedingServer (n : nat) : exchange :=
  match n with
  | 0 => okResponse "application/json" ["JOB"]
  | 1 | 2 => okResponse "application/json" ["status=IN_"; "PROGRESS"]
  | 3 => okResponse "application/json" ["DONE"]
  | _ => okResponse "application/zip" ["PK"; "zz"]
  end.

Definition demoParameters : parameters :=
  mkParameters "bot1" (Some "nightly") (Some "2024-01-31") None "/tmp/out"
               (Some false).

Definition postRequest : clientRequest :=
  httpsRequest (mkOptions "oda.example.com" "/api/v1/bots"
                          (Some "POST") [("Content-Type", "application/json")]).

Definition getRequest : clientRequest :=
  httpsRequest (mkOptions "oda.example.com" "/api/v1/bots" None []).

Definition demoSignOptions (b : option string) : signOptions :=
  mkSignOptions "KEY" "aa:bb" "ocid1.tenancy" "ocid1.user" b.

(** A POST request without a [Content-Type] header. *)
Definition untypedPostRequest : clientRequest :=
  httpsRequest (mkOptions "oda.example.com" "/api/v1/bots" (Some "POST") []).

(** The letter e with an acute accent: two bytes in UTF-8, one UTF-16 code
    unit. *)
Definition eAcute : string :=
  String (ascii_of_nat 195) (String (ascii_of_nat 169) EmptyString).

(** The body of the start request for a task named with that letter, as
    [JSON.stringify] writes it. *)
Definition accentedBody : string :=
  "{" ++ dquote ++ "name" ++ dquote ++ ":" ++ dquote ++ eAcute ++ dquote
  ++ "," ++ dquote ++ "taskType" ++ dquote ++ ":" ++ dquote ++ "EXPORT" ++ dquote
  ++ "," ++ dquote ++ "insightsDataExport" ++ dquote ++ ":true}".

(** The download of [a.zip] as [writeExportedData] asks for it, and the
    state of the process when it is the fifth request. *)
Definition downloadOptions : requestOptions :=
  mkOptions "oda.example.com"
            "/api/v1/bots/insights/dataExports/job1/files/a.zip" None [].

Definition worldBeforeDownload : world := mkWorld false 4 [].

(** A server that always reports the task as in progress. *)
Definition busyServer (n : nat) : exchange :=
  okResponse "application/json" ["status=IN_PROGRESS"].

End Demo.

(* ------------------------------------------------------------------ *)
(** ** utils.js: the configuration loader *)

Module Utils.
Import JsString Js OciUtils.

(** What the loader needs from the host: [path.isAbsolute], [require]
    ([inl m]: it throws an error with message [m]) and
    [fs.readFileSync(p, 'ascii')] ([None]: it throws). *)
Record host : Type := mkHost {
  isAbsolute : string -> bool;
  requireModule : string -> string + value;
  readFileSync : string -> option string
}.

(** The module's [exports], as far as [getConfigData] assigns them. *)
Record utilsExports : Type := mkExports {
  x_PRIVATE_KEY : value;
  x_DOMAIN : value;
  x_TENANCY_ID : value;
  x_AUTH_USER_ID : value;
  x_KEY_FINGERPRINT : value
}.

(** The exports of the freshly loaded module. *)
Definition noExports : utilsExports :=
  mkExports VUndefined VUndefined VUndefined VUndefined VUndefined.

(** Whether a value counts as true in a condition. *)
Definition truthy (v : value) : bool :=
  match v with
  | VUndefined | VNull => false
  | VBool b => b
  | VNum n => negb (n =? 0)%Z
  | VStr s => negb (String.eqb s EmptyString)
  | VArr _ | VObj _ | VError _ => true
  end.

(** [(s.indexOf('~/') === 0) ? s.replace('~', os.homedir()) : s] *)
Definition expandHome (home s : string) : string :=
  if startsWith s "~/" then replace s "~" home else s.

Section Loader.
Context (P : platform) (H : host).

(** The two statements that settle [privateKeyPath] and load the key:
    the result is the new [PRIVATE_KEY] ([None]: it is not assigned), or
    the error thrown. *)
Definition loadPrivateKey (configFile : string) (privateKeyPath : value)
  : value + option value :=
  let invalid :=
    VError (VStr ("Invalid privateKeyPath in " ++ configFile ++ ".")) in
  match privateKeyPath with
  | VStr s =>
      if String.eqb s EmptyString then inr None
      else
        match readFileSync H (expandHome (homedir P) s) with
        | Some text => inr (Some (VStr text))
        | None => inl invalid
        end
  | VArr (VStr first :: _) =>
      if String.eqb first "~/"
      then inl (typeError "privateKeyPath.replace is not a function")
      else inl invalid
  | VArr _ => inl invalid
  | VUndefined | VNull => inr None
  | VBool false => inr None
  | VNum n =>
      if (n =? 0)%Z then inr None
      else inl (typeError "privateKeyPath.indexOf is not a function")
  | VBool true | VObj _ | VError _ =>
      inl (typeError "privateKeyPath.indexOf is not a function")
  end.

(** [getConfigData(configFile)]: the exports afterwards, the argument
    lists of its [console.log] calls, and how it ends. *)
Definition getConfigData (configFile : string) (exports : utilsExports)
  : utilsExports * list (list value) * completion :=
  let configFilePath := expandHome (homedir P) configFile in
  if negb (isAbsolute H (trim configFilePath)) then
    (exports, [],
     Threw (VError (VStr ("Can't access config file " ++ configFile
                          ++ " because the path isn't an absolute path."))))
  else
    match requireModule H configFilePath with
    | inl message =>
        (exports,
         [[VStr ("There's a problem with the config file " ++ configFile ++ ": ");
           VStr message]],
         Threw (VError (VStr message)))
    | inr configData =>
        match getProp configData "privateKeyPath" with
        | None =>
            (exports, [], Threw (typeError "cannot read property privateKeyPath"))
        | Some privateKeyPath =>
            match loadPrivateKey configFile privateKeyPath with
            | inl e => (exports, [], Threw e)
            | inr key =>
                let exports' :=
                  mkExports
                    (match key with Some k => k | None => x_PRIVATE_KEY exports end)
                    (lookupField "domain" (match configData with
                                           | VObj fields => fields
                                           | _ => []
                                           end))
                    (lookupField "tenancyId" (match configData with
                                              | VObj fields => fields
                                              | _ => []
                                              end))
                    (lookupField "userId" (match configData with
                                           | VObj fields => fields
                                           | _ => []
                                           end))
                    (lookupField "fingerprint" (match configData with
                                                | VObj fields => fields
                                                | _ => []
                                                end)) in
                if negb (truthy (x_DOMAIN exports'))
                   || negb (truthy (x_TENANCY_ID exports'))
                   || negb (truthy (x_AUTH_USER_ID exports'))
                   || negb (truthy (x_KEY_FINGERPRINT exports'))
                   || negb (truthy (x_PRIVATE_KEY exports'))
                then
                  (exports', [],
                   Threw (VError (VStr ("Missing configuration data from "
                                        ++ configFile ++ "."))))
                else (exports', [], Returned)
            end
        end
    end.

End Loader.

End Utils.

(* ------------------------------------------------------------------ *)
(** ** scriptArgs.js: the script arguments and the prompts for missing ones *)

Module ScriptArgs.
Import JsString Js OciUtils ExportDaInsights Utils.

(** An entry of [argvOptions]. *)
Record argvOption : Type := mkArgvOption {
  a_name : string;
  a_short : option string;
  a_type : string;
  a_description : string;
  a_example : option string
}.

(** The [argvOptions] of [getScriptArguments]. *)
Definition argvOptions : list argvOption :=
  [mkArgvOption "id" (Some "i") "string"
     "ID of the digital assistant from which to get the data." None;
   mkArgvOption "taskname" (Some "t") "string"
     "Your name for the export task. Defaults to a generated task name." None;
   mkArgvOption "begindate" (Some "b") "string"
     "(Optional) The begin date for the data to export, inclusive. Format: yyyy-mm-dd. Defaults to the earliest date for the requested data."
     (Some "--begindate = YYYY-MM-DD");
   mkArgvOption "enddate" (Some "e") "string"
     "(Optional) The end date for the data to export, inclusive. Format: yyyy-mm-dd. Defaults to today."
     (Some "--enddate = YYYY-MM-DD");
   mkArgvOption "outpath" (Some "o") "string"
     "The full pathname of the directory to store the downloaded ZIP files in."
     None;
   mkArgvOption "configpath" (Some "c") "string"
     "The full path to your OCI configuration file." None;
   mkArgvOption "debug" None "boolean" "(Optional) Print debug messages."
     (Some "--debug")].

(** What a [validate] function returns: [true], or the text to show. *)
Inductive validation : Type :=
| Accepted
| Refused (message : string).

(** A question for the prompt. *)
Record question : Type := mkQuestion {
  q_name : string;
  q_type : string;
  q_message : string;
  q_validate : option (string -> validation)
}.

Section Prompts.
Context (P : platform) (H : host).

(** The [validate] of the [id] question. *)
Definition validateId (value : string) : validation :=
  if negb (String.length value =? 0)%nat then Accepted
  else Refused "Please enter the digital assistant's ID.".

(** The [validate] of the [outpath] question. *)
Definition validateOutpath (value : string) : validation :=
  if negb (String.length value =? 0)%nat then
    let opath := expandHome (homedir P) value in
    match statIsDirectory P (trim opath) with
    | Some true => Accepted
    | Some false => Refused (value ++ " is not a directory.")
    | None => Refused (value ++ " doesn't exist.")
    end
  else Refused "Please enter the full path of the directory to put the ZIP files in.".

(** The [validate] of the [configpath] question. *)
Definition validateConfigpath (value : string) : validation :=
  if negb (String.length value =? 0)%nat then
    let cpath := expandHome (homedir P) value in
    if negb (isAbsolute H (trim cpath))
    then Refused "Please enter the file's absolute path."
    else
      match statIsDirectory P (trim cpath) with
      | Some true => Refused (value ++ " is not a file.")
      | Some false => Accepted
      | None => Refused (value ++ " doesn't exist.")
      end
  else Refused "Please enter the config file's full path".

(** The [validate] of the [begindate] question. *)
Definition validateBegindate (value : string) : validation :=
  if negb (String.length value =? 0)%nat then
    if negb (matchesDatePattern value) then
      Refused ("Please use the format YYYY-MM-DD. "
               ++ "You can omit the date to default to the earliest date.")
    else if dateIsNaN P value then
      Refused ("Please enter a valid date in the format YYYY-MM-DD. "
               ++ "You can omit the date to default to the earliest date.")
    else Accepted
  else Accepted.

(** [/^\d\d\d\d-[0-1]\d-[1-3]\d$/.test(value)], the pattern of the
    [enddate] question. *)
Definition matchesEndDatePattern (value : string) : bool :=
  match list_ascii_of_string value with
  | [y1; y2; y3; y4; s1; m1; m2; s2; d1; d2] =>
      isDigit y1 && isDigit y2 && isDigit y3 && isDigit y4
      && Ascii.eqb s1 "-" && charIn "0" "1" m1 && isDigit m2
      && Ascii.eqb s2 "-" && charIn "1" "3" d1 && isDigit d2
  | _ => false
  end.

(** The [validate] of the [enddate] question. *)
Definition validateEnddate (value : string) : validation :=
  if negb (String.length value =? 0)%nat then
    if negb (matchesEndDatePattern value) then
      Refused ("Please use the format YYYY-MM-DD. "
               ++ "You can omit the date to default to today.")
    else if dateIsNaN P value then
      Refused ("Please enter a valid date in the format YYYY-MM-DD. "
               ++ "You can omit the date to default to today.")
    else Accepted
  else Accepted.

(** The [switch] of [getPromptQuestions]: the question pushed for an
    argument name, if any. *)
Definition questionFor (name : string) : option question :=
  if String.eqb name "id" then
    Some (mkQuestion "id" "input" "Enter the digital assistant's ID:"
                     (Some validateId))
  else if String.eqb name "taskname" then
    Some (mkQuestion "taskname" "input"
                     "(Optional) Enter a name to identify the export task:" None)
  else if String.eqb name "outpath" then
    Some (mkQuestion "outpath" "input"
                     "Where should the ZIP files go (full directory path)?"
                     (Some validateOutpath))
  else if String.eqb name "configpath" then
    Some (mkQuestion "configpath" "input" "Enter the full OCI config file path:"
                     (Some validateConfigpath))
  else if String.eqb name "begindate" then
    Some (mkQuestion "begindate" "input"
                     "(Optional) Enter the begin date in the format YYYY-MM-DD. Defaults to the earliest date:"
                     (Some validateBegindate))
  else if String.eqb name "enddate" then
    Some (mkQuestion "enddate" "input"
                     "(Optional) Enter the end date in the format YYYY-MM-DD. Defaults to the earliest date:"
                     (Some validateEnddate))
  else None.

(** [inputArgs[name] === undefined] *)
Definition isUndefined (v : value) : bool :=
  match v with
  | VUndefined => true
  | _ => false
  end.

(** [getPromptQuestions(argvOptions, inputArgs)]; [inputArgs] is an object,
    given by its properties. *)
Fixpoint getPromptQuestions (argvOptions : list argvOption)
         (inputArgs : list (string * value)) : list question :=
  match argvOptions with
  | [] => []
  | o :: rest =>
      let questions := getPromptQuestions rest inputArgs in
      if isUndefined (lookupField (a_name o) inputArgs) then
        match questionFor (a_name o) with
        | Some q => q :: questions
        | None => questions
        end
      else questions
  end.

End Prompts.

End ScriptArgs.

(* ------------------------------------------------------------------ *)
(** ** Vocabulary for the properties of the workflow *)

Module Behaviour.
Import JsString Js OciUtils ExportDaInsights Utils ScriptArgs.

(** A state of the process to evaluate a computation in when only its
    outcome matters. *)
Definition anyWorld : world := mkWorld false 0 [].

(** How the promise of a request that was sent is settled by the exchange
    that answers it: the outcome of the [error] handlers and of the [end]
    handler of the two transports. *)
Definition answered (P : platform) (x : exchange) : outcome value :=
  match x with
  | RequestError e => Rejected (VError e)
  | Responds r =>
      match streamError r with
      | Some e => Rejected (VError e)
      | None =>
          fst (settle P r (fold_left append (chunks r) EmptyString) anyWorld)
      end
  end.

(** The events of a list that are neither requests nor waits nor file
    operations. *)
Fixpoint onlyConsole (evs : list event) : bool :=
  match evs with
  | [] => true
  | (Log _ | LogError _) :: r => onlyConsole r
  | _ => false
  end.

(** The directory check of [run] on [parameters.outpath]. *)
Definition directoryOk (P : platform) (outpath : string) : bool :=
  match statIsDirectory P (trim (expandHome (homedir P) outpath)) with
  | Some true => true
  | _ => false
  end.

(** Whether [isDateValid] lets a date pass. *)
Definition dateOk (P : platform) (date : option string) : bool :=
  match date with
  | None => true
  | Some d =>
      (String.length d =? 0)%nat
      || (matchesDatePattern d && negb (dateIsNaN P d))
  end.

(** The request object that [writeExportedData] builds for one file. *)
Definition downloadRequest (P : platform) (exportId name : value)
  : clientRequest :=
  httpsRequest
    (mkOptions (DOMAIN P)
       (basePath ++ "/bots/insights/dataExports/"
        ++ encodeURIComponent P (ToString P exportId)
        ++ "/files/" ++ encodeURIComponent P (ToString P name))
       None []).

(** The first [n] waits of the poller's schedule. *)
Definition firstWaits (P : platform) (exportId : value) (n : nat) : list Z :=
  map (fun k => calculateDelay k (pollOptions P exportId)) (seq 1 n).

(** The month and the day that a text of the shape YYYY-MM-DD names. *)
Definition monthOf (date : string) : nat :=
  match list_ascii_of_string date with
  | [_; _; _; _; _; m1; m2; _; _; _] => 10 * digitValue m1 + digitValue m2
  | _ => 0
  end.

Definition dayOf (date : string) : nat :=
  match list_ascii_of_string date with
  | [_; _; _; _; _; _; _; _; d1; d2] => 10 * digitValue d1 + digitValue d2
  | _ => 0
  end.

(** [path.isAbsolute] as POSIX has it, a key file and a configuration for
    the examples. *)
Definition posixHost (config : value) : host :=
  mkHost (fun p => String.prefix "/" p)
         (fun p => if String.eqb p "/etc/oda/config.json" then inr config
                   else inl ("Cannot find module '" ++ p ++ "'"))
         (fun p => if String.eqb p "/home/user/key.pem" then Some "PEM" else None).

Definition fullConfig : value :=
  VObj [("domain", VStr "oda.example.com");
        ("tenancyId", VStr "ocid1.tenancy");
        ("userId", VStr "ocid1.user");
        ("fingerprint", VStr "aa:bb");
        ("privateKeyPath", VStr "~/key.pem")].

(** A platform whose disk holds the directory [/tmp/out] and the file
    [/etc/oda/config.json], and nothing else. *)
Definition diskPlatform : platform :=
  let D := Demo.demoPlatform Demo.succeedingServer in
  mkPlatform (DOMAIN D) (PRIVATE_KEY D) (KEY_FINGERPRINT D) (TENANCY_ID D)
    (AUTH_USER_ID D) (sha256B64 D) (keyAlgorithm D) (signatureB64 D)
    (rfc1123Now D) (JSON_parse D) (JSON_stringify D) (coerceToString D)
    (encodeURIComponent D) (homedir D)
    (fun p => if String.eqb p "/tmp/out" then Some true
              else if String.eqb p "/etc/oda/config.json" then Some false
              else None)
    (writeStreamError D) (dateRollsOver D) (server D).

(** A platform on which no file can be opened for writing. *)
Definition readOnlyPlatform : platform :=
  let D := Demo.demoPlatform Demo.succeedingServer in
  mkPlatform (DOMAIN D) (PRIVATE_KEY D) (KEY_FINGERPRINT D) (TENANCY_ID D)
    (AUTH_USER_ID D) (sha256B64 D) (keyAlgorithm D) (signatureB64 D)
    (rfc1123Now D) (JSON_parse D) (JSON_stringify D) (coerceToString D)
    (encodeURIComponent D) (homedir D) (statIsDirectory D)
    (fun _ => Some (VError (VStr "EACCES: permission denied")))
    (dateRollsOver D) (server D).

Local Open Scope js_scope.

(** Servers for the examples: one whose answers fail in three ways, one
    that shows an active task and then breaks, and one whose task ends
    with NO_DATA after one fetch that shows it active. *)
Definition brokenServer (n : nat) : exchange :=
  match n with
  | 0 => RequestError (VStr "ECONNRESET")
  | 1 => Responds (mkResponse 200 "OK" (Some "application/zip") ["PK"]
                              (Some (VStr "aborted")))
  | _ => Responds (mkResponse 404 "Not Found" (Some "text/plain")
                              ["no such file"] None)
  end.

Definition flakyServer (n : nat) : exchange :=
  match n with
  | 0 => Demo.okResponse "application/json" ["status=SUBMITTED"]
  | _ => RequestError (VStr "ECONNRESET")
  end.

Definition noDataServer (n : nat) : exchange :=
  match n with
  | 0 => Demo.okResponse "application/json" ["JOB"]
  | 1 => Demo.okResponse "application/json" ["status=IN_PROGRESS"]
  | _ => Demo.okResponse "application/json" ["status=NO_DATA"]
  end.

(** What [run] does once its arguments have passed validation: the rest of
    its [try] block, from the call of [startExportTask] on. *)
Definition exportAndDispatch (P : platform) (ps : parameters)
           (zipFilePath : string) : M unit :=
  response <- startExportTask P (p_id ps) (p_taskname ps)
                (p_begindate ps) (p_enddate ps) ;;
  exportJobId <- propOrThrow response "jobId" ;;
  debug ("Export ID: " ++ ToString P exportJobId) ;;;
  emit (Log (VStr ("The export job " ++ ToString P exportJobId
                   ++ " has started." ++ newline
                   ++ "Waiting for the job to finish..."))) ;;;
  taskResource <- waitForTaskCompletion P exportJobId ;;
  finalStatus <- propOrThrow taskResource "status" ;;
  filenames <- propOrThrow taskResource "filenames" ;;
  match finalStatus with
  | VStr s =>
      debug ("run() final export task status: " ++ toUpperCase s) ;;;
      emit (Log finalStatus) ;;;
      dispatch P ps zipFilePath exportJobId taskResource filenames s
  | _ => throw (typeError "finalStatus.toUpperCase is not a function")
  end.

(** The texts that [run] prints when it refuses its arguments, when a
    download fails and when the export is done. *)
Definition invalidArguments : string :=
  "One or more arguments are invalid. Correct the values and try again.".

(** [(parameters.debug === undefined) ? false : parameters.debug] *)
Definition debugFlag (ps : parameters) : bool :=
  match p_debug ps with Some b => b | None => false end.

(** The body and the request object of [startExportTask], as handed to
    [sign]. *)
Definition startBody (P : platform) (ps : parameters) : option string :=
  let text :=
    JSON_stringify P
      (VObj [("name", match p_taskname ps with
                      | Some n => VStr n
                      | None => VUndefined
                      end);
             ("taskType", VStr taskType);
             ("insightsDataExport", VBool insightsDataExport)]) in
  if isTruthy (Some text) then Some text else None.

Definition startRequest (P : platform) (ps : parameters) : clientRequest :=
  httpsRequest
    (mkOptions (DOMAIN P)
       (basePath ++ "/bots/insights/dataExports?botId="
        ++ encodeURIComponent P (p_id ps)
        ++ "&maxFileLength=" ++ encodeURIComponent P maxFileLength
        ++ queryParm P "since" (p_begindate ps)
        ++ queryParm P "until" (p_enddate ps))
       (Some "POST") [("Content-Type", "application/json")]).

Definition downloadFailed : string :=
  "Can't download the insights ZIP files. The reported error was:".

Definition exportDone (zipFilePath : string) : string :=
  "The export is done. The files are in the " ++ zipFilePath ++ " directory.".

(** What [console.log] printed, in order. *)
Fixpoint logged (evs : list event) : list value :=
  match evs with
  | [] => []
  | Log v :: r => v :: logged r
  | _ :: r => logged r
  end.

(** The argument names for which [getPromptQuestions] has a question. *)
Definition promptable : list string :=
  ["id"; "taskname"; "outpath"; "configpath"; "begindate"; "enddate"].

(** A configuration that names no key file, and the error for missing
    configuration data. *)
Definition keylessConfig : value :=
  VObj [("domain", VStr "oda.example.com");
        ("tenancyId", VStr "ocid1.tenancy");
        ("userId", VStr "ocid1.user");
        ("fingerprint", VStr "aa:bb")].

(** A configuration that names a key file but no domain. *)
Definition domainlessConfig : value :=
  VObj [("tenancyId", VStr "ocid1.tenancy");
        ("userId", VStr "ocid1.user");
        ("fingerprint", VStr "aa:bb");
        ("privateKeyPath", VStr "~/key.pem")].

Definition missingData (configFile : string) : value :=
  VError (VStr ("Missing configuration data from " ++ configFile ++ ".")).

End Behaviour.

(* ------------------------------------------------------------------ *)
(** ** Facts about strings and headers *)

Ltac splits := repeat match goal with |- _ /\ _ => split end.

Section StringFacts.
Import JsString.

Lemma upperChar_idem (c : ascii) : upperChar (upperChar c) = upperChar c.
Proof.
  destruct c as [[] [] [] [] [] [] [] []]; reflexivity.
Qed.

Lemma toUpperCase_idem (s : string) : toUpperCase (toUpperCase s) = toUpperCase s.
Proof.
  unfold toUpperCase.
  induction s as [|c r IH]; simpl.
  - reflexivity.
  - now rewrite upperChar_idem, IH.
Qed.

Lemma prefix_append (p r : string) : String.prefix p (p ++ r) = true.
Proof.
  induction p as [|c p IH]; simpl.
  - now destruct r.
  - destruct (ascii_dec c c) as [_|n]; [exact IH | now elim n].
Qed.

Lemma dropChars_append (p r : string) : dropChars (String.length p) (p ++ r) = r.
Proof.
  induction p as [|c p IH]; simpl; [reflexivity | exact IH].
Qed.

Lemma replace_prefix (p r rep : string) : replace (p ++ r) p rep = rep ++ r.
Proof.
  destruct p as [|c p].
  - simpl. destruct r; reflexivity.
  - cbn [append replace].
    change (String c (p ++ r)) with (String c p ++ r).
    now rewrite prefix_append, dropChars_append.
Qed.

Lemma append_assoc (a b c : string) : (a ++ b) ++ c = a ++ (b ++ c).
Proof.
  induction a as [|x a IH]; simpl; [reflexivity | now rewrite IH].
Qed.

Lemma append_empty_r (a : string) : a ++ EmptyString = a.
Proof.
  induction a as [|x a IH]; simpl; [reflexivity | now rewrite IH].
Qed.

End StringFacts.

Section HeaderFacts.
Import JsString Js.

Lemma assocGet_assocSet_same {A : Type} (k : string) (v : A) l :
  assocGet k (assocSet k v l) = Some v.
Proof.
  induction l as [|[k' v'] l IH]; simpl.
  - now rewrite String.eqb_refl.
  - destruct (String.eqb k k') eqn:E; simpl.
    + now rewrite String.eqb_refl.
    + now rewrite E.
Qed.

Lemma assocGet_assocSet_other {A : Type} (k k0 : string) (v : A) l :
  String.eqb k k0 = false ->
  assocGet k (assocSet k0 v l) = assocGet k l.
Proof.
  intros Hne.
  induction l as [|[k' v'] l IH]; simpl.
  - now rewrite Hne.
  - destruct (String.eqb k0 k') eqn:E; simpl.
    + apply String.eqb_eq in E. subst k'. now rewrite Hne.
    + destruct (String.eqb k k'); [reflexivity | exact IH].
Qed.

Lemma getHeader_setHeader_same r name name' v :
  toLowerCase name = toLowerCase name' ->
  getHeader (setHeader r name' v) name = Some v.
Proof.
  intros E. unfold getHeader, setHeader; simpl.
  now rewrite E, assocGet_assocSet_same.
Qed.

Lemma getHeader_setHeader_other r name name' v :
  String.eqb (toLowerCase name) (toLowerCase name') = false ->
  getHeader (setHeader r name' v) name = getHeader r name.
Proof.
  intros E. unfold getHeader, setHeader; simpl.
  now rewrite assocGet_assocSet_other.
Qed.

End HeaderFacts.

(* ------------------------------------------------------------------ *)
(** ** The signer *)

Section SignerFacts.
Import JsString Js OciUtils Observe.
Context (P : platform).

(** What [httpSignature.sign] leaves behind: fields other than the headers
    are untouched, only [Date] and [Authorization] may change, and on return
    [Authorization] holds the standard form. *)
Lemma httpSignature_sign_effect request key keyId hs :
  let '(request', c) := httpSignature_sign P request key keyId hs in
  method request' = method request
  /\ host request' = host request
  /\ path request' = path request
  /\ (forall name,
        String.eqb (toLowerCase name) "date" = false ->
        String.eqb (toLowerCase name) "authorization" = false ->
        getHeader request' name = getHeader request name)
  /\ (c = Returned ->
      exists algorithm signature,
        getHeader request' "Authorization"
        = Some (HStr (authorizationValue keyId algorithm hs signature))).
Proof.
  unfold httpSignature_sign.
  set (request1 := if headerFalsy (getHeader request "Date") then _ else _).
  assert (H1 : method request1 = method request /\ host request1 = host request
               /\ path request1 = path request
               /\ forall name, String.eqb (toLowerCase name) "date" = false ->
                               getHeader request1 name = getHeader request name).
  { subst request1. destruct (headerFalsy _); simpl; splits; auto.
    intros name Hd. now apply getHeader_setHeader_other. }
  destruct H1 as (Hm & Hh & Hp & Hf).
  destruct (keyAlgorithm P key) as [algorithm|].
  - destruct (stringToSign request1 hs) as [missing|text].
    + splits; auto. discriminate.
    + simpl. splits; auto.
      * intros name Hd Ha. rewrite getHeader_setHeader_other by exact Ha. auto.
      * intros _. exists algorithm, (signatureB64 P key text).
        now apply getHeader_setHeader_same.
  - splits; auto. discriminate.
Qed.

Lemma sign_unfold request options :
  sign P request options =
  let '(request1, options1) := prepared P request options in
  match httpSignature_sign P request1 (privateKey options1)
          (tenancyId options ++ "/" ++ userId options ++ "/" ++ keyFingerprint options)
          (headersToSign request) with
  | (request2, Threw e) => (request2, options1, Threw e)
  | (request2, Returned) =>
      match getHeader request2 "Authorization" with
      | Some (HStr a) =>
          (setHeader request2 "Authorization"
             (HStr (replace a "Signature " ("Signature " ++ versionMarker))),
           options1, Returned)
      | _ => (request2, options1,
              Threw (typeError "getHeader(...).replace is not a function"))
      end
  end.
Proof.
  unfold sign, prepared.
  destruct (requiresExtraHeaders request); reflexivity.
Qed.

Lemma prepared_fields request options :
  method (fst (prepared P request options)) = method request
  /\ host (fst (prepared P request options)) = host request
  /\ path (fst (prepared P request options)) = path request.
Proof.
  unfold prepared. destruct (requiresExtraHeaders request); simpl; auto.
Qed.

(** The overall effect of [sign]: the options are as prepared, the request
    keeps its method, host and path, no header but [Date] and
    [Authorization] differs from the prepared request's, and on return
    [Authorization] is the standard form with the version attribute put
    directly behind the scheme name. *)
Lemma sign_effect request options :
  let '(request', options', c) := sign P request options in
  options' = snd (prepared P request options)
  /\ method request' = method request
  /\ host request' = host request
  /\ path request' = path request
  /\ (forall name,
        String.eqb (toLowerCase name) "date" = false ->
        String.eqb (toLowerCase name) "authorization" = false ->
        getHeader request' name = getHeader (fst (prepared P request options)) name)
  /\ (c = Returned ->
      exists algorithm signature,
        getHeader request' "Authorization"
        = Some (HStr ("Signature " ++ versionMarker
                      ++ authorizationParams
                           (tenancyId options ++ "/" ++ userId options ++ "/"
                            ++ keyFingerprint options)
                           algorithm (headersToSign request) signature))).
Proof.
  rewrite sign_unfold.
  destruct (prepared_fields request options) as (Pm & Ph & Pp).
  destruct (prepared P request options) as [request1 options1].
  cbn [fst snd] in *.
  pose proof (httpSignature_sign_effect request1 (privateKey options1)
    (tenancyId options ++ "/" ++ userId options ++ "/" ++ keyFingerprint options)
    (headersToSign request)) as H.
  destruct (httpSignature_sign P request1 _ _ _) as [request2 c].
  destruct H as (Hm & Hh & Hp & Hf & Ha).
  destruct c as [|e].
  - destruct (Ha eq_refl) as (algorithm & signature & Hauth).
    rewrite Hauth.
    splits; try (simpl; congruence).
    + intros name Hd Hz. rewrite getHeader_setHeader_other by exact Hz. auto.
    + intros _. exists algorithm, signature.
      unfold authorizationValue.
      rewrite replace_prefix, append_assoc.
      now apply getHeader_setHeader_same.
  - splits; try congruence; auto.
Qed.

(** The two headers that the signing package touches: [Date] is filled in
    when the request has none, and [Authorization] is left alone when the
    package throws. *)
Lemma httpSignature_sign_headers request key keyId hs :
  let '(request', c) := httpSignature_sign P request key keyId hs in
  getHeader request' "Date"
  = (if headerFalsy (getHeader request "Date")
     then Some (HStr (rfc1123Now P))
     else getHeader request "Date")
  /\ (forall e, c = Threw e ->
                getHeader request' "Authorization"
                = getHeader request "Authorization").
Proof.
  unfold httpSignature_sign.
  set (request1 := if headerFalsy (getHeader request "Date") then _ else _).
  assert (H1 : getHeader request1 "Date"
               = (if headerFalsy (getHeader request "Date")
                  then Some (HStr (rfc1123Now P))
                  else getHeader request "Date")
               /\ getHeader request1 "Authorization"
                  = getHeader request "Authorization").
  { subst request1. destruct (headerFalsy _); split; try reflexivity.
    - now apply getHeader_setHeader_same.
    - now apply getHeader_setHeader_other. }
  destruct H1 as (Hd & Ha).
  destruct (keyAlgorithm P key) as [algorithm|].
  - destruct (stringToSign request1 hs) as [missing|text].
    + split; [exact Hd | intros e _; exact Ha].
    + split; [|discriminate].
      rewrite getHeader_setHeader_other by reflexivity. exact Hd.
  - split; [exact Hd | intros e _; exact Ha].
Qed.

Lemma sign_headers request options :
  let '(request', options', c) := sign P request options in
  getHeader request' "Date"
  = (if headerFalsy (getHeader request "Date")
     then Some (HStr (rfc1123Now P))
     else getHeader request "Date")
  /\ (forall e, c = Threw e ->
                getHeader request' "Authorization"
                = getHeader request "Authorization").
Proof.
  rewrite sign_unfold.
  assert (Hp : getHeader (fst (prepared P request options)) "Date"
               = getHeader request "Date"
               /\ getHeader (fst (prepared P request options)) "Authorization"
                  = getHeader request "Authorization").
  { unfold prepared. destruct (requiresExtraHeaders request); cbn [fst];
      [|split; reflexivity].
    split; rewrite !getHeader_setHeader_other by reflexivity; reflexivity. }
  destruct Hp as (Hpd & Hpa).
  destruct (prepared P request options) as [request1 options1].
  cbn [fst] in Hpd, Hpa.
  pose proof (httpSignature_sign_headers request1 (privateKey options1)
    (tenancyId options ++ "/" ++ userId options ++ "/" ++ keyFingerprint options)
    (headersToSign request)) as H.
  pose proof (httpSignature_sign_effect request1 (privateKey options1)
    (tenancyId options ++ "/" ++ userId options ++ "/" ++ keyFingerprint options)
    (headersToSign request)) as H'.
  destruct (httpSignature_sign P request1 _ _ _) as [request2 c].
  destruct H as (Hd & Ha). destruct H' as (_ & _ & _ & _ & Hr).
  rewrite Hpd in Hd. 
  destruct c as [|e].
  - destruct (Hr eq_refl) as (algorithm & signature & Hauth).
    rewrite Hauth. split; [|discriminate].
    rewrite getHeader_setHeader_other by reflexivity. exact Hd.
  - split; [exact Hd|]. intros e' _. rewrite (Ha e eq_refl). exact Hpa.
Qed.

Lemma requiresExtraHeaders_of_method request :
  In (method request) methodsThatRequireExtraHeaders ->
  requiresExtraHeaders request = true.
Proof.
  unfold requiresExtraHeaders, methodsThatRequireExtraHeaders.
  intros [E | [E | [E | []]]]; rewrite <- E; reflexivity.
Qed.

End SignerFacts.

Section SignerClaims.
Import JsString Js OciUtils Observe.

(** C4, as amended.  For a request whose method is POST, PUT or PATCH the
    list of headers that [sign] hands to the signing package is [host],
    [date], [(request-target)] followed by [content-type], [content-length],
    [x-content-sha256], in this order; and when [sign] returns, the
    [Authorization] header names exactly this list in its [headers]
    parameter. *)
Theorem sign_extra_headers_listed (P : platform) (request : clientRequest)
        (options : signOptions) :
  In (method request) methodsThatRequireExtraHeaders ->
  headersToSign request
  = ["host"; "date"; "(request-target)";
     "content-type"; "content-length"; "x-content-sha256"]
  /\ (forall request' options',
        sign P request options = (request', options', Returned) ->
        exists algorithm signature,
          getHeader request' "Authorization"
          = Some (HStr ("Signature " ++ versionMarker
                        ++ authorizationParams
                             (tenancyId options ++ "/" ++ userId options ++ "/"
                              ++ keyFingerprint options)
                             algorithm
                             ["host"; "date"; "(request-target)";
                              "content-type"; "content-length"; "x-content-sha256"]
                             signature))).
Proof.
  intros Hm.
  assert (Hl : headersToSign request
               = ["host"; "date"; "(request-target)";
                  "content-type"; "content-length"; "x-content-sha256"]).
  { unfold headersToSign. now rewrite (requiresExtraHeaders_of_method request Hm). }
  split; [exact Hl|].
  intros request' options' Hs.
  pose proof (sign_effect P request options) as H.
  rewrite Hs in H.
  destruct H as (_ & _ & _ & _ & _ & Ha).
  rewrite Hl in Ha. now apply Ha.
Qed.

Lemma sign_extra_headers_listed_witness :
  In (method Demo.postRequest) methodsThatRequireExtraHeaders
  /\ headersToSign Demo.postRequest
     = ["host"; "date"; "(request-target)";
        "content-type"; "content-length"; "x-content-sha256"].
Proof.
  assert (Hm : In (method Demo.postRequest) methodsThatRequireExtraHeaders)
    by (simpl; auto).
  split; [exact Hm|].
  exact (proj1 (sign_extra_headers_listed
                  (Demo.demoPlatform Demo.succeedingServer)
                  Demo.postRequest (Demo.demoSignOptions None) Hm)).
Defined.

(** C4, as stated, fails: for a POST request the listed headers are not the
    base three followed by [content-length], [x-content-sha256],
    [content-type]; these three do not even occur in that relative order,
    since [content-type] comes first. *)
Lemma headersToSign_claimed_order_fails :
  In (method Demo.postRequest) methodsThatRequireExtraHeaders
  /\ headersToSign Demo.postRequest
     <> ["host"; "date"; "(request-target)";
         "content-length"; "x-content-sha256"; "content-type"]
  /\ inOrder ["content-length"; "x-content-sha256"; "content-type"]
             (headersToSign Demo.postRequest) = false.
Proof.
  splits.
  - simpl; auto.
  - discriminate.
  - reflexivity.
Qed.

(** C5.  [sign] sets [Content-Length] to [options.body.length], the number
    of UTF-16 code units of the body, which is not its byte count once the
    body holds a character outside ASCII.  For the body of the start
    request of a task named with the letter e with an acute accent, [sign]
    returns with [Content-Length] 58, while the body that is sent has 59
    bytes.  An absent body gives 0, as the claim has it. *)
Theorem sign_content_length_miscounts :
  let P := Demo.demoPlatform Demo.succeedingServer in
  let '(request', _, c) :=
    sign P Demo.postRequest (Demo.demoSignOptions (Some Demo.accentedBody)) in
  c = Returned
  /\ getHeader request' "Content-Length" = Some (HNum 58)
  /\ String.length Demo.accentedBody = 59
  /\ getHeader (fst (fst (sign P Demo.postRequest (Demo.demoSignOptions None))))
               "Content-Length"
     = Some (HNum 0).
Proof.
  vm_compute. splits; reflexivity.
Qed.

(** C6.  Whenever [sign] returns, the [Authorization] header is the text
    [Signature ] directly followed by [version="1",]. *)
Theorem sign_authorization_version (P : platform) (request request' : clientRequest)
        (options options' : signOptions) :
  sign P request options = (request', options', Returned) ->
  exists rest,
    getHeader request' "Authorization"
    = Some (HStr ("Signature " ++ "version=" ++ dquote ++ "1" ++ dquote ++ ","
                  ++ rest)).
Proof.
  intros Hs.
  pose proof (sign_effect P request options) as H.
  rewrite Hs in H.
  destruct H as (_ & _ & _ & _ & _ & Ha).
  destruct (Ha eq_refl) as (algorithm & signature & Hh).
  eexists. rewrite Hh. unfold versionMarker.
  rewrite !append_assoc. reflexivity.
Qed.

Lemma sign_authorization_version_witness :
  exists rest,
    getHeader (fst (fst (sign (Demo.demoPlatform Demo.succeedingServer)
                              Demo.getRequest (Demo.demoSignOptions None))))
              "Authorization"
    = Some (HStr ("Signature " ++ "version=" ++ dquote ++ "1" ++ dquote ++ ","
                  ++ rest)).
Proof.
  apply (sign_authorization_version
           (Demo.demoPlatform Demo.succeedingServer) Demo.getRequest _
           (Demo.demoSignOptions None)
           (snd (fst (sign (Demo.demoPlatform Demo.succeedingServer)
                           Demo.getRequest (Demo.demoSignOptions None))))).
  reflexivity.
Defined.

(** C9, as amended.  [sign] leaves the request's method, host and path and
    the credentials as they were.  For POST, PUT and PATCH it sets
    [Content-Length] to the [.length] of the body and [x-content-sha256] to
    its digest, and the body of the options becomes the text that was
    measured, so that an absent body becomes the empty string; for other
    methods the two headers and the body stay.  The [Date] header is filled
    in when the request has none.  [Authorization] is set when [sign]
    returns and is as before when it throws.  Every other header is as
    before. *)
Theorem sign_frame (P : platform) (request : clientRequest) (options : signOptions) :
  let '(request', options', c) := sign P request options in
  (method request' = method request
   /\ host request' = host request
   /\ path request' = path request
   /\ privateKey options' = privateKey options
   /\ keyFingerprint options' = keyFingerprint options
   /\ tenancyId options' = tenancyId options
   /\ userId options' = userId options)
  /\ body options'
     = (if memberOf (toUpperCase (method request)) ["POST"; "PUT"; "PATCH"]
        then Some (bodyOrEmpty (body options))
        else body options)
  /\ (if memberOf (toUpperCase (method request)) ["POST"; "PUT"; "PATCH"]
      then getHeader request' "Content-Length"
           = Some (HNum (jsLength (bodyOrEmpty (body options))))
           /\ getHeader request' "x-content-sha256"
              = Some (HStr (sha256B64 P (bodyOrEmpty (body options))))
      else getHeader request' "Content-Length" = getHeader request "Content-Length"
           /\ getHeader request' "x-content-sha256"
              = getHeader request "x-content-sha256")
  /\ getHeader request' "Date"
     = (if headerFalsy (getHeader request "Date")
        then Some (HStr (rfc1123Now P))
        else getHeader request "Date")
  /\ match c with
     | Returned => exists a, getHeader request' "Authorization" = Some (HStr a)
     | Threw _ =>
         getHeader request' "Authorization" = getHeader request "Authorization"
     end
  /\ (forall name,
        String.eqb (toLowerCase name) "authorization" = false ->
        String.eqb (toLowerCase name) "date" = false ->
        String.eqb (toLowerCase name) "content-length" = false ->
        String.eqb (toLowerCase name) "x-content-sha256" = false ->
        getHeader request' name = getHeader request name).
Proof.
  change (memberOf (toUpperCase (method request)) ["POST"; "PUT"; "PATCH"])
    with (requiresExtraHeaders request).
  pose proof (sign_effect P request options) as H.
  pose proof (sign_headers P request options) as H'.
  destruct (sign P request options) as [[request' options'] c].
  destruct H as (Ho & Hm & Hh & Hp & Hf & Ha).
  destruct H' as (Hd & Ht).
  assert (Hauth : match c with
                  | Returned =>
                      exists a, getHeader request' "Authorization" = Some (HStr a)
                  | Threw _ =>
                      getHeader request' "Authorization"
                      = getHeader request "Authorization"
                  end).
  { destruct c as [|e].
    - destruct (Ha eq_refl) as (algorithm & signature & E). eauto.
    - exact (Ht e eq_refl). }
  unfold prepared in Ho, Hf.
  destruct (requiresExtraHeaders request); cbn [fst snd] in Ho, Hf; subst options'.
  - splits; auto.
    + rewrite Hf by reflexivity.
      rewrite getHeader_setHeader_other by reflexivity.
      now apply getHeader_setHeader_same.
    + rewrite Hf by reflexivity. now apply getHeader_setHeader_same.
    + intros name N1 N2 N3 N4. rewrite Hf by assumption.
      rewrite getHeader_setHeader_other by exact N4.
      now rewrite getHeader_setHeader_other by exact N3.
  - splits; auto.
Qed.

(** C9, as stated, fails in three ways.  A GET request without a [Date]
    header has one after [sign], a header that is none of the three the
    claim names.  For a POST request without a [Content-Type] header [sign]
    throws and no [Authorization] header is added.  And for a POST request
    the body of the options, absent before, is the empty string after. *)
Lemma sign_frame_claim_fails :
  let P := Demo.demoPlatform Demo.succeedingServer in
  (getHeader Demo.getRequest "Date" = None
   /\ getHeader (fst (fst (sign P Demo.getRequest (Demo.demoSignOptions None))))
                "Date"
      = Some (HStr (rfc1123Now P)))
  /\ (snd (sign P Demo.untypedPostRequest (Demo.demoSignOptions None))
      = Threw (VError (VStr "content-type was not in the request"))
      /\ getHeader (fst (fst (sign P Demo.untypedPostRequest
                                   (Demo.demoSignOptions None))))
                   "Authorization"
         = None)
  /\ (body (Demo.demoSignOptions None) = None
      /\ body (snd (fst (sign P Demo.postRequest (Demo.demoSignOptions None))))
         = Some EmptyString).
Proof.
  vm_compute. splits; reflexivity.
Qed.

End SignerClaims.

(* ------------------------------------------------------------------ *)
(** ** Date validation and status handling *)

Section WorkflowClaims.
Import JsString Js OciUtils ExportDaInsights Observe.

(** C8.  [isDateValid] rejects [2024-13-01]: the text has the shape
    YYYY-MM-DD but month 13 makes it no date.  It rejects [20240101], which
    has not the shape.  It accepts [2024-01-31].  This holds for either
    treatment of days past a month's end, for both the begin and the end
    date, in every state of the process. *)
Theorem isDateValid_examples (P : platform) (type : string) (w : world) :
  (matchesDatePattern "2024-13-01" = true
   /\ dateIsNaN P "2024-13-01" = true
   /\ fst (isDateValid P type (Some "2024-13-01") w) = Resolved false)
  /\ (matchesDatePattern "20240101" = false
      /\ fst (isDateValid P type (Some "20240101") w) = Resolved false)
  /\ fst (isDateValid P type (Some "2024-01-31") w) = Resolved true.
Proof.
  splits; try reflexivity.
  unfold isDateValid, dateIsNaN. cbn -[Nat.leb].
  destruct (dateRollsOver P); reflexivity.
Qed.

(** C10.  The poller's classification of a status and the orchestrator's
    choice of branch depend on the status only through its upper-cased
    form: a status and its upper-cased form are classified alike, and the
    [switch] of [run] does the same for both. *)
Theorem status_handling_ignores_case (P : platform) (s : string) :
  isActiveStatus s = isActiveStatus (toUpperCase s)
  /\ (forall ps zipFilePath exportJobId taskResource filenames,
        dispatch P ps zipFilePath exportJobId taskResource filenames s
        = dispatch P ps zipFilePath exportJobId taskResource filenames
                   (toUpperCase s)).
Proof.
  split.
  - unfold isActiveStatus. now rewrite toUpperCase_idem.
  - intros. unfold dispatch. now rewrite toUpperCase_idem.
Qed.

(** C2, evaluated where the code departs from it.  The status [IN] is
    neither SUBMITTED nor IN_PROGRESS, yet the poller takes it for active,
    because it occurs inside the text [SUBMITTED IN_PROGRESS]: a fetch that
    observes it is rejected for a retry and does not resolve with the task
    resource.  The empty status and [PROGRESS] fare the same. *)
Theorem partial_status_is_taken_for_active :
  let P := Demo.demoPlatform
             (fun _ => Demo.okResponse "application/json" ["status=IN"]) in
  toUpperCase "IN" <> "SUBMITTED"
  /\ toUpperCase "IN" <> "IN_PROGRESS"
  /\ isActiveStatus "IN" = true
  /\ isActiveStatus EmptyString = true
  /\ isActiveStatus "PROGRESS" = true
  /\ fst (rejectIfRequestActive P (VStr "job1") Demo.freshWorld)
     = Rejected (VError (VObj [("status", VStr "IN")])).
Proof.
  cbv zeta. splits; try discriminate; reflexivity.
Qed.

(** C1, evaluated where the code departs from it.  The task ends as
    EXPORT_SUCCEEDED with the files [a.zip] and [b.zip], and every download
    would succeed.  The run ends normally and reports the export as done,
    but only [a.zip] was requested and written; [b.zip] was never asked
    for. *)
Theorem only_first_file_is_downloaded :
  let P := Demo.demoPlatform Demo.succeedingServer in
  let '(result, w) := run P Demo.demoParameters Demo.freshWorld in
  result = Resolved tt
  /\ sentPaths (trace w)
     = ["/api/v1/bots/insights/dataExports?botId=bot1&maxFileLength=100000000&since=2024-01-31";
        "/api/v1/bots/insights/dataExports/job1";
        "/api/v1/bots/insights/dataExports/job1";
        "/api/v1/bots/insights/dataExports/job1";
        "/api/v1/bots/insights/dataExports/job1/files/a.zip"]
  /\ filesCreated (trace w) = ["/tmp/out/a.zip"]
  /\ fileContent "/tmp/out/a.zip" (trace w) EmptyString = "PKzz"
  /\ last (trace w) (Log VNull)
     = Log (VStr "The export is done. The files are in the /tmp/out directory.").
Proof.
  vm_compute. splits; reflexivity.
Qed.

End WorkflowClaims.

(* ------------------------------------------------------------------ *)
(** ** The file transport *)

Section TransportFacts.
Import JsString Js OciUtils Observe.
Context (P : platform).

Lemma concat_cons (c : string) (cs : list string) :
  String.concat EmptyString (c :: cs) = c ++ String.concat EmptyString cs.
Proof.
  destruct cs as [|d cs]; simpl.
  - now rewrite append_empty_r.
  - reflexivity.
Qed.

Lemma onData_run outFile cs : forall responseBody w,
  onData outFile cs responseBody w
  = (Resolved (responseBody ++ String.concat EmptyString cs),
     addEvents w (map (FileWrite outFile) cs)).
Proof.
  induction cs as [|c cs IH]; intros responseBody w.
  - simpl. unfold ret, addEvents.
    rewrite append_empty_r, app_nil_r. now destruct w.
  - cbn [onData]. unfold bind at 1. unfold emit at 1.
    rewrite IH. unfold addEvents. cbn [DEBUG requests trace map].
    rewrite concat_cons, append_assoc, <- app_assoc. reflexivity.
Qed.

Lemma fileContent_app file a : forall b acc,
  fileContent file (a ++ b) acc = fileContent file b (fileContent file a acc).
Proof.
  induction a as [|e a IH]; intros b acc; simpl; [reflexivity|].
  destruct e; apply IH.
Qed.

Lemma fileContent_writes file cs : forall acc,
  fileContent file (map (FileWrite file) cs) acc
  = acc ++ String.concat EmptyString cs.
Proof.
  induction cs as [|c cs IH]; intros acc.
  - simpl. now rewrite append_empty_r.
  - cbn [map fileContent]. rewrite String.eqb_refl, IH, concat_cons.
    now rewrite append_assoc.
Qed.

End TransportFacts.

Section TransportClaims.
Import JsString Js OciUtils Observe.




End TransportClaims.

(* ------------------------------------------------------------------ *)
(** ** The poller *)

Section PollerFacts.
Import JsString Js OciUtils ExportDaInsights Observe.
Context (P : platform) (exportId : value).

Lemma addEvents_nil w : addEvents w [] = w.
Proof. unfold addEvents. rewrite app_nil_r. now destruct w. Qed.

Lemma debug_run message w :
  debug message w
  = (Resolved tt, addEvents w (if DEBUG w then [Log (VStr message)] else [])).
Proof.
  unfold debug, bind, getDEBUG.
  destruct (DEBUG w) eqn:E.
  - reflexivity.
  - unfold ret. now rewrite addEvents_nil.
Qed.

Lemma sleepsOf_app a b : sleepsOf (a ++ b) = (sleepsOf a ++ sleepsOf b)%list.
Proof.
  induction a as [|e a IH]; simpl; [reflexivity|].
  destruct e; simpl; now rewrite IH.
Qed.

Lemma sentPaths_app a b : sentPaths (a ++ b) = (sentPaths a ++ sentPaths b)%list.
Proof.
  induction a as [|e a IH]; simpl; [reflexivity|].
  destruct e; simpl; now rewrite IH.
Qed.

Hypothesis signs :
  snd (sign P (statusRequest P exportId) (utilsSignOptions P None)) = Returned.

Lemma active_attempt w :
  observesActive P (server P (requests w)) = true ->
  exists result evs,
    rejectIfRequestActive P exportId w
    = (Rejected (VError result),
       mkWorld (DEBUG w) (S (requests w)) (trace w ++ evs))
    /\ sleepsOf evs = []
    /\ List.length (sentPaths evs) = 1.
Proof.
  intros Hact.
  unfold observesActive in Hact.
  destruct (server P (requests w)) as [r|e] eqn:Hx; [|discriminate].
  destruct (streamError r) eqn:He; [discriminate|].
  apply andb_prop in Hact. destruct Hact as [Hact Hst].
  apply andb_prop in Hact. destruct Hact as [Hcode Hjson].
  destruct (JSON_parse P (fold_left append (chunks r) EmptyString))
    as [result|] eqn:Hparse; [|discriminate].
  destruct (getProp result "status") as [status|] eqn:Hprop; [|discriminate].
  destruct status as [| | | |s| | |]; try discriminate.
  unfold rejectIfRequestActive, getExportTask.
  unfold bind at 1. unfold tryCatch at 1.
  unfold bind at 1. unfold bind at 1. rewrite debug_run.
  unfold promisifiedSendRequest. cbn [isTruthy].
  fold (statusRequest P exportId).
  destruct (sign P (statusRequest P exportId) (utilsSignOptions P None))
    as [[request' options'] c] eqn:Hs.
  cbn [snd] in signs. subst c.
  unfold bind at 1. unfold emit at 1.
  unfold bind at 1. unfold nextExchange at 1. cbn [requests DEBUG trace addEvents].
  rewrite Hx, He. unfold settle. rewrite Hcode, Hjson, Hparse.
  unfold ret at 1. unfold bind at 1. unfold propOrThrow. rewrite Hprop.
  unfold ret at 1. unfold bind at 1. rewrite debug_run.
  cbn [requests DEBUG trace addEvents]. rewrite Hst.
  unfold ret at 1. unfold throw.
  eexists result, _. splits.
  - unfold addEvents. cbn [requests DEBUG trace].
    rewrite <- !app_assoc. reflexivity.
  - rewrite !sleepsOf_app. destruct (DEBUG w); reflexivity.
  - rewrite !sentPaths_app, !length_app. destruct (DEBUG w); reflexivity.
Qed.

Lemma calculateDelay_poll k :
  calculateDelay k (pollOptions P exportId)
  = Z.min (200 * 3 ^ Z.of_nat (k - 1)) 60000.
Proof. reflexivity. Qed.

Lemma calculateDelay_poll_pos k :
  (calculateDelay k (pollOptions P exportId) =? 0)%Z = false.
Proof.
  rewrite calculateDelay_poll. apply Z.eqb_neq.
  assert (0 < 3 ^ Z.of_nat (k - 1))%Z by (apply Z.pow_pos_nonneg; lia).
  lia.
Qed.

Lemma last_snoc {A : Type} (l : list A) (x d : A) : last (l ++ [x]) d = x.
Proof.
  induction l as [|a l IH]; [reflexivity|].
  simpl. destruct (l ++ [x])%list eqn:E; [now destruct l | exact IH].
Qed.

Lemma makeAttempt_step attemptFunc o rest num :
  makeAttempt attemptFunc o (S rest) num
  = tryCatch (attemptFunc (mkContext num rest false))
      (fun err =>
         Js.bind (handleError o err (mkContext num rest false))
           (fun context' =>
              if aborted context' || (attemptsRemaining context' =? 0)%nat
              then throw err
              else
                Js.bind
                  (if (calculateDelay (S num) o =? 0)%Z then ret tt
                   else emit (Sleep (calculateDelay (S num) o)))
                  (fun _ => makeAttempt attemptFunc o rest (S num)))).
Proof. reflexivity. Qed.

Lemma makeAttempt_all_active : forall remaining num w,
  (forall i, i < S remaining ->
             observesActive P (server P (requests w + i)) = true) ->
  exists evs,
    makeAttempt (pollFunc P exportId) (pollOptions P exportId) (S remaining) num w
    = (Exited 1, mkWorld (DEBUG w) (requests w + S remaining) (trace w ++ evs))
    /\ List.length (sentPaths evs) = S remaining
    /\ sleepsOf evs
       = map (fun k => calculateDelay k (pollOptions P exportId))
             (seq (S num) remaining)
    /\ exists before,
         evs = (before ++ [LogError (VStr (stillRunningMessage P exportId))])%list.
Proof.
  induction remaining as [|remaining IH]; intros num w Hact.
  - destruct (active_attempt w) as (result & evs & Hrun & Hsl & Hsent).
    { specialize (Hact 0). rewrite Nat.add_0_r in Hact. apply Hact. lia. }
    rewrite makeAttempt_step. unfold tryCatch, pollFunc. rewrite Hrun.
    cbn [handleError pollOptions attemptsRemaining Nat.ltb Nat.leb].
    unfold bind at 1. unfold bind at 1. unfold failureCallback.
    unfold bind, emit, processExit. cbn [DEBUG requests trace].
    exists (evs ++ [LogError (VStr (stillRunningMessage P exportId))])%list.
    splits.
    + rewrite app_assoc, Nat.add_1_r. reflexivity.
    + rewrite sentPaths_app, length_app, Hsent. reflexivity.
    + rewrite sleepsOf_app, Hsl. reflexivity.
    + now exists evs.
  - destruct (active_attempt w) as (result & evs & Hrun & Hsl & Hsent).
    { specialize (Hact 0). rewrite Nat.add_0_r in Hact. apply Hact. lia. }
    set (w1 := mkWorld (DEBUG w) (S (requests w)) (trace w ++ evs)) in *.
    set (d := calculateDelay (S num) (pollOptions P exportId)).
    destruct (IH (S num) (addEvents w1 [Sleep d])) as (evs' & Hrec & Hsent' & Hsl' & before & Hlast).
    { intros i Hi. cbn [addEvents w1 requests].
      replace (S (requests w) + i) with (requests w + S i) by lia.
      apply Hact. lia. }
    rewrite makeAttempt_step. unfold tryCatch at 1. unfold pollFunc at 1. rewrite Hrun.
    fold w1.
    cbn [handleError pollOptions attemptsRemaining Nat.ltb Nat.leb].
    unfold bind at 1. unfold bind at 1. unfold ret at 1.
    cbn [retryableIsFalse getProp]. unfold ret at 1.
    cbn [aborted attemptsRemaining Nat.eqb orb].
    fold (pollOptions P exportId). fold d.
    unfold bind at 1.
    replace (d =? 0)%Z with false by (symmetry; apply calculateDelay_poll_pos).
    change (emit (Sleep d) w1) with (Resolved tt, addEvents w1 [Sleep d]).
    cbv iota beta.
    rewrite Hrec.
    exists (evs ++ Sleep d :: evs')%list. splits.
    + unfold addEvents, w1. cbn [DEBUG requests trace].
      f_equal. f_equal; [lia|].
      rewrite <- !app_assoc. reflexivity.
    + rewrite sentPaths_app, length_app, Hsent. cbn [sentPaths].
      rewrite Hsent'. reflexivity.
    + rewrite sleepsOf_app, Hsl. cbn [sleepsOf app seq map].
      rewrite Hsl'. reflexivity.
    + exists (evs ++ Sleep d :: before)%list.
      rewrite Hlast, <- app_assoc. reflexivity.
Qed.

End PollerFacts.

Section PollerClaims.
Import JsString Js OciUtils ExportDaInsights Observe.

(** C3.  The poller's options are a first delay of 200, a factor of 3, a
    ceiling of 60000 and 20 attempts: the first wait is 200 and every later
    wait is three times the one before, capped at 60000.  If signing the
    status request succeeds and each of the next 20 exchanges shows an
    active task, [waitForTaskCompletion] ends the process with status 1:
    exactly 20 requests are sent, with the 19 waits of the schedule between
    them, and the last thing the process does is print, with
    [console.error], the message that the export is still running, which
    names the task identifier as the request ID. *)
Theorem waitForTaskCompletion_gives_up (P : platform) (exportId : value)
        (w : world) :
  snd (sign P (statusRequest P exportId) (utilsSignOptions P None)) = Returned ->
  (forall i, i < 20 -> observesActive P (server P (requests w + i)) = true) ->
  let o := pollOptions P exportId in
  (delay o = 200%Z /\ factor o = 3%Z /\ maxDelay o = 60000%Z /\ maxAttempts o = 20)
  /\ calculateDelay 1 o = 200%Z
  /\ (forall k, 1 <= k ->
                calculateDelay (S k) o = Z.min (3 * calculateDelay k o) 60000)
  /\ let '(result, w') := waitForTaskCompletion P exportId w in
     result = Exited 1
     /\ requests w' = requests w + 20
     /\ exists evs before,
          trace w' = (trace w ++ evs)%list
          /\ List.length (sentPaths evs) = 20
          /\ sleepsOf evs
             = [200; 600; 1800; 5400; 16200; 48600; 60000; 60000; 60000; 60000;
                60000; 60000; 60000; 60000; 60000; 60000; 60000; 60000; 60000]%Z
          /\ evs
             = (before
                ++ [LogError
                      (VStr ("Export process is still running." ++ newline
                             ++ "You will have to download the exported data"
                             ++ " for request ID " ++ ToString P exportId
                             ++ " at a later time."))])%list.
Proof.
  intros Hsigns Hact. cbv zeta. splits; try reflexivity.
  - intros k Hk. rewrite !calculateDelay_poll.
    replace (Z.of_nat (S k - 1)) with (Z.succ (Z.of_nat (k - 1))) by lia.
    rewrite Z.pow_succ_r by lia.
    assert (0 < 3 ^ Z.of_nat (k - 1))%Z by (apply Z.pow_pos_nonneg; lia).
    lia.
  - unfold waitForTaskCompletion. unfold bind at 1. rewrite debug_run.
    set (w0 := addEvents w _).
    destruct (makeAttempt_all_active P exportId Hsigns 19 0 w0)
      as (evs & Hrun & Hsent & Hsl & before & Hlast).
    { intros i Hi. apply Hact. exact Hi. }
    unfold tryCatch, retry.
    change (maxAttempts (pollOptions P exportId)) with 20.
    fold (pollFunc P exportId). rewrite Hrun.
    splits; try reflexivity.
    subst w0.
    exists ((if DEBUG w then [Log (VStr "waitForTaskCompletion")] else []) ++ evs)%list,
           ((if DEBUG w then [Log (VStr "waitForTaskCompletion")] else []) ++ before)%list.
    unfold addEvents. cbn [trace]. splits.
    + now rewrite app_assoc.
    + rewrite sentPaths_app, length_app, Hsent. now destruct (DEBUG w).
    + rewrite sleepsOf_app, Hsl. now destruct (DEBUG w).
    + rewrite Hlast. now rewrite app_assoc.
Qed.

Lemma waitForTaskCompletion_gives_up_witness :
  fst (waitForTaskCompletion (Demo.demoPlatform Demo.busyServer) (VStr "job1")
                             Demo.freshWorld)
  = Exited 1.
Proof.
  pose proof (waitForTaskCompletion_gives_up
                (Demo.demoPlatform Demo.busyServer) (VStr "job1")
                Demo.freshWorld eq_refl (fun i _ => eq_refl)) as H.
  cbv zeta in H. destruct H as (_ & _ & _ & H).
  destruct (waitForTaskCompletion _ _ _) as [result w'].
  exact (proj1 H).
Defined.

End PollerClaims.

(* ------------------------------------------------------------------ *)
(** ** Further properties of the workflow *)

Section Further.
Import JsString Js OciUtils ExportDaInsights Observe.

Lemma prefix_exists (p s : string) :
  String.prefix p s = true <-> exists r, s = p ++ r.
Proof.
  split.
  - revert s. induction p as [|c p IH]; intros s H.
    + now exists s.
    + destruct s as [|d s]; [discriminate|].
      simpl in H. destruct (ascii_dec c d) as [E|]; [|discriminate].
      subst d. destruct (IH s H) as (r & ->). now exists r.
  - intros (r & ->). apply prefix_append.
Qed.

Lemma includes_unfold (s sub : string) :
  includes s sub
  = if String.prefix sub s then true
    else match s with
         | EmptyString => false
         | String _ r => includes r sub
         end.
Proof. destruct s; reflexivity. Qed.

(** [s.includes(sub)] holds exactly when [sub] occurs in [s]. *)
Lemma includes_occurs (s sub : string) :
  includes s sub = true <-> exists a b, s = a ++ sub ++ b.
Proof.
  split.
  - induction s as [|c s IH]; cbn [includes]; intros H.
    + destruct (String.prefix sub EmptyString) eqn:E; [|discriminate].
      apply prefix_exists in E. destruct E as (r & E).
      now exists EmptyString, r.
    + destruct (String.prefix sub (String c s)) eqn:E.
      * apply prefix_exists in E. destruct E as (r & E).
        now exists EmptyString, r.
      * destruct (IH H) as (a & b & ->). now exists (String c a), b.
  - intros (a & b & ->).
    induction a as [|c a IH]; cbn [append].
    + now rewrite includes_unfold, prefix_append.
    + rewrite includes_unfold.
      destruct (String.prefix sub (String c (a ++ sub ++ b))); [reflexivity | exact IH].
Qed.

(** The poller's rule: a status is taken for active exactly when its
    upper-cased form occurs somewhere in the text [SUBMITTED IN_PROGRESS];
    SUBMITTED and IN_PROGRESS, in any letter case, are active, and the
    statuses EXPORT_SUCCEEDED, EXPORT_FAILED and NO_DATA are not. *)
Theorem isActiveStatus_rule (s : string) :
  (isActiveStatus s = true
   <-> exists a b, activeStatuses = a ++ toUpperCase s ++ b)
  /\ isActiveStatus "submitted" = true
  /\ isActiveStatus "In_Progress" = true
  /\ isActiveStatus "EXPORT_SUCCEEDED" = false
  /\ isActiveStatus "EXPORT_FAILED" = false
  /\ isActiveStatus "NO_DATA" = false.
Proof.
  splits; try reflexivity.
  unfold isActiveStatus. apply includes_occurs.
Qed.

(** [writeExportedData] looks at the first file name only: whatever follows
    it in the list has no effect on what the function does. *)
Theorem writeExportedData_ignores_rest (P : platform) (exportId : value)
        (outDir : string) (name : value) (others : list value) (w : world) :
  writeExportedData P exportId outDir (VArr (name :: others)) w
  = writeExportedData P exportId outDir (VArr [name]) w.
Proof.
  unfold writeExportedData. cbn [elementsOf List.length forLoop nth].
  unfold bind.
  repeat match goal with
         | |- context [match ?x with _ => _ end] =>
             match x with
             | debug _ _ => destruct x as [[[] | |] ?]
             | emit _ _ => destruct x as [[[] | |] ?]
             | promisifiedWriteZipResponse _ _ _ _ => destruct x as [[? | |] ?]
             end
         end; reflexivity.
Qed.

(** For a request whose method is GET or DELETE the headers handed to the
    signing package are exactly [host], [date], [(request-target)], and
    [sign] touches neither [Content-Length] nor [x-content-sha256]. *)
Theorem sign_base_headers_only (P : platform) (request : clientRequest)
        (options : signOptions) :
  In (method request) ["GET"; "DELETE"] ->
  headersToSign request = ["host"; "date"; "(request-target)"]
  /\ getHeader (fst (fst (sign P request options))) "Content-Length"
     = getHeader request "Content-Length"
  /\ getHeader (fst (fst (sign P request options))) "x-content-sha256"
     = getHeader request "x-content-sha256".
Proof.
  intros Hm.
  assert (Hx : requiresExtraHeaders request = false).
  { unfold requiresExtraHeaders.
    destruct Hm as [E | [E | []]]; rewrite <- E; reflexivity. }
  pose proof (sign_effect P request options) as H.
  destruct (sign P request options) as [[request' options'] c].
  destruct H as (_ & _ & _ & _ & Hf & _).
  unfold prepared in Hf. rewrite Hx in Hf. cbn [fst] in *.
  unfold headersToSign. rewrite Hx.
  splits; [reflexivity | |]; apply Hf; reflexivity.
Qed.

Lemma sign_base_headers_only_witness :
  headersToSign Demo.getRequest = ["host"; "date"; "(request-target)"].
Proof.
  apply (sign_base_headers_only (Demo.demoPlatform Demo.succeedingServer)
           Demo.getRequest (Demo.demoSignOptions None)).
  simpl; auto.
Defined.

(** When the task ends as NO_DATA, [run]'s switch prints the hint to try
    another date range exactly when the parameters have a [begindate] or an
    [enddate] property, whatever its value.  In particular the hint is
    printed for a begin date that is there but empty, for which
    [startExportTask] sends no [since] parameter. *)
Theorem dispatch_no_data (P : platform) (ps : parameters) (zipFilePath : string)
        (exportJobId taskResource filenames : value) (w : world) :
  dispatch P ps zipFilePath exportJobId taskResource filenames "NO_DATA" w
  = (Resolved tt,
     addEvents w
       (Log (VStr "There isn't any data to export.")
        :: match p_begindate ps, p_enddate ps with
           | None, None => []
           | _, _ => [Log (VStr "Try a different date range.")]
           end))
  /\ dispatch P (mkParameters (p_id ps) (p_taskname ps) (Some EmptyString) None
                              (p_outpath ps) (p_debug ps))
              zipFilePath exportJobId taskResource filenames "NO_DATA" w
     = (Resolved tt,
        addEvents w [Log (VStr "There isn't any data to export.");
                     Log (VStr "Try a different date range.")])
  /\ queryParm P "since" (Some EmptyString) = EmptyString.
Proof.
  unfold dispatch.
  change (toUpperCase "NO_DATA") with "NO_DATA".
  change (String.eqb "NO_DATA" "EXPORT_SUCCEEDED") with false.
  change (String.eqb "NO_DATA" "EXPORT_FAILED") with false.
  change (String.eqb "NO_DATA" "NO_DATA") with true.
  cbv iota. unfold bind, emit, ret, addEvents.
  splits.
  - destruct (p_begindate ps), (p_enddate ps); cbn [DEBUG requests trace];
      rewrite <- ?app_assoc; reflexivity.
  - cbn [p_begindate p_enddate DEBUG requests trace].
    rewrite <- ?app_assoc. reflexivity.
  - reflexivity.
Qed.

End Further.

(* ------------------------------------------------------------------ *)
(** * Behaviour of the transports, the poller, the run, the prompts and
      the configuration loader *)

Section TransportBehaviour.
Import JsString Js OciUtils ExportDaInsights Observe Behaviour Utils ScriptArgs.
Context (P : platform).

Lemma fold_left_append_concat (cs : list string) : forall acc,
  fold_left append cs acc = acc ++ String.concat EmptyString cs.
Proof.
  induction cs as [|c cs IH]; intros acc.
  - simpl. now rewrite append_empty_r.
  - cbn [fold_left]. rewrite IH, concat_cons, append_assoc. reflexivity.
Qed.

(** The [end] handler settles the promise the same way in every state, and
    adds at most the report of an exception nobody catches. *)
Lemma settle_run (r : response) (responseBody : string) (w : world) :
  exists evs,
    settle P r responseBody w
    = (fst (settle P r responseBody anyWorld), addEvents w evs)
    /\ onlyConsole evs = true
    /\ ((forall c, fst (settle P r responseBody anyWorld) <> Exited c) -> evs = []).
Proof.
  unfold settle.
  assert (Hret : forall v, exists evs,
             ret v w = (fst (@ret value v anyWorld), addEvents w evs)
             /\ onlyConsole evs = true
             /\ ((forall c, fst (@ret value v anyWorld) <> Exited c) -> evs = [])).
  { intros v. exists []. rewrite addEvents_nil. auto. }
  assert (Hthrow : forall e, exists evs,
             throw e w = (fst (@throw value e anyWorld), addEvents w evs)
             /\ onlyConsole evs = true
             /\ ((forall c, fst (@throw value e anyWorld) <> Exited c) -> evs = [])).
  { intros e. exists []. rewrite addEvents_nil. auto. }
  assert (Hunc : forall e, exists evs,
             uncaught e w = (fst (@uncaught value e anyWorld), addEvents w evs)
             /\ onlyConsole evs = true
             /\ ((forall c, fst (@uncaught value e anyWorld) <> Exited c) -> evs = [])).
  { intros e. exists [LogError e]. splits; try reflexivity.
    intros Hc. now elim (Hc 1%Z). }
  destruct (statusCode r <? 300)%Z, (isJson r);
    repeat match goal with
           | |- context [match ?x with _ => _ end] => destruct x
           end; auto.
Qed.

Lemma sendRequest_run (options : requestOptions) (body : option string)
      (w : world) request' options' :
  sign P (httpsRequest options)
       (utilsSignOptions P (if isTruthy body then body else None))
  = (request', options', Returned) ->
  exists evs,
    promisifiedSendRequest P options body w
    = (answered P (server P (requests w)),
       mkWorld (DEBUG w) (S (requests w))
               (trace w ++ Sent request' (if isTruthy body then body else None)
                        :: evs))
    /\ onlyConsole evs = true
    /\ ((forall c, answered P (server P (requests w)) <> Exited c) -> evs = []).
Proof.
  intros Hs. unfold promisifiedSendRequest. rewrite Hs.
  unfold bind at 1. unfold emit at 1.
  unfold bind at 1. unfold nextExchange at 1. cbn [requests DEBUG trace].
  unfold answered.
  destruct (server P (requests w)) as [r|e].
  - destruct (streamError r) as [e|].
    + exists []. unfold throw. splits; auto.
    + destruct (settle_run r (fold_left append (chunks r) EmptyString)
                  (mkWorld (DEBUG w) (S (requests w))
                     (trace w ++ [Sent request' (if isTruthy body then body else None)])))
        as (evs & Hrun & Hq & He).
      exists evs. rewrite Hrun. unfold addEvents. cbn [DEBUG requests trace].
      rewrite <- app_assoc. splits; auto.
  - exists []. unfold throw. splits; auto.
Qed.

Lemma writeZip_run (options : requestOptions) (outFile : string)
      (w : world) request' options' :
  sign P (httpsRequest options) (utilsSignOptions P None)
  = (request', options', Returned) ->
  writeStreamError P outFile = None ->
  match server P (requests w) with
  | RequestError e =>
      promisifiedWriteZipResponse P options outFile w
      = (Rejected (VError e),
         mkWorld (DEBUG w) (S (requests w)) (trace w ++ [Sent request' None]))
  | Responds r =>
      match streamError r with
      | Some e =>
          promisifiedWriteZipResponse P options outFile w
          = (Rejected (VError e),
             mkWorld (DEBUG w) (S (requests w))
                     (trace w ++ [Sent request' None; FileCreate outFile]
                      ++ map (FileWrite outFile) (chunks r)))
      | None =>
          exists evs,
            promisifiedWriteZipResponse P options outFile w
            = (answered P (Responds r),
               mkWorld (DEBUG w) (S (requests w))
                       (trace w ++ [Sent request' None; FileCreate outFile]
                        ++ map (FileWrite outFile) (chunks r)
                        ++ [FileEnd outFile] ++ evs))
            /\ onlyConsole evs = true
            /\ ((forall c, answered P (Responds r) <> Exited c) -> evs = [])
      end
  end.
Proof.
  intros Hs Hopens.
  assert (Hstart : promisifiedWriteZipResponse P options outFile w
            = match server P (requests w) with
              | RequestError e =>
                  (Rejected (VError e),
                   mkWorld (DEBUG w) (S (requests w))
                           (trace w ++ [Sent request' None]))
              | Responds r =>
                  Js.bind (emit (FileCreate outFile))
                    (fun _ =>
                       Js.bind (onData outFile (chunks r) EmptyString)
                         (fun responseBody =>
                            match streamError r with
                            | Some e => throw (VError e)
                            | None =>
                                Js.bind (emit (FileEnd outFile))
                                        (fun _ => settle P r responseBody)
                            end))
                    (mkWorld (DEBUG w) (S (requests w))
                             (trace w ++ [Sent request' None]))
              end).
  { unfold promisifiedWriteZipResponse. rewrite Hs.
    unfold bind at 1. unfold emit at 1.
    unfold bind at 1. unfold nextExchange at 1. cbn [requests DEBUG trace].
    destruct (server P (requests w)); [rewrite Hopens|]; reflexivity. }
  destruct (server P (requests w)) as [r|e]; [|exact Hstart].
  unfold bind at 1 in Hstart. unfold emit at 1 in Hstart.
  cbn [requests DEBUG trace] in Hstart.
  unfold bind at 1 in Hstart. rewrite onData_run in Hstart.
  cbn [append] in Hstart. unfold addEvents in Hstart.
  cbn [requests DEBUG trace] in Hstart.
  unfold answered.
  destruct (streamError r) as [e|].
  - rewrite Hstart. unfold throw. rewrite <- !app_assoc. reflexivity.
  - unfold bind at 1 in Hstart. unfold emit at 1 in Hstart.
    cbn [requests DEBUG trace] in Hstart.
    rewrite fold_left_append_concat. cbn [append].
    match type of Hstart with
    | context [settle P r ?b ?w0] =>
        destruct (settle_run r b w0) as (evs & Hrun & Hq & He)
    end.
    exists evs. rewrite Hstart, Hrun. unfold addEvents. cbn [DEBUG requests trace].
    rewrite <- !app_assoc. splits; auto.
Qed.

Lemma settle_error_status (r : response) (responseBody : string) (w : world) :
  (300 <= statusCode r)%Z ->
  (forall v, fst (settle P r responseBody w) <> Resolved v)
  /\ (isJson r = false ->
      fst (settle P r responseBody w)
      = Rejected (VError (VStr (ToString P (VNum (statusCode r)) ++ ": "
                                ++ statusMessage r)))).
Proof.
  intros Hc. apply Z.ltb_ge in Hc. unfold settle. rewrite Hc.
  split.
  - intros v.
    destruct (isJson r);
      repeat match goal with
             | |- context [match ?x with _ => _ end] => destruct x
             end; discriminate.
  - intros Hj. rewrite Hj. reflexivity.
Qed.

End TransportBehaviour.

Section TransportExtras.
Import JsString Js OciUtils ExportDaInsights Observe Behaviour Utils ScriptArgs.

(** [promisifiedSendRequest] touches no file and sends at most one
    request.  When [sign] throws, nothing is sent and the promise is
    rejected with what was thrown.  Otherwise exactly the signed request is
    sent, with the caller's body (an empty body is sent as none), the
    promise is settled by the exchange that answers it, and for POST, PUT
    and PATCH the [Content-Length] header is the [.length] of the body that
    is sent (its UTF-16 code units) and the digest header is the digest of
    that body. *)
Theorem promisifiedSendRequest_sends_what_it_signed (P : platform)
        (options : requestOptions) (body : option string) (w : world) :
  let sent := if isTruthy body then body else None in
  let '(request', _, c) :=
    sign P (httpsRequest options) (utilsSignOptions P sent) in
  let '(result, w') := promisifiedSendRequest P options body w in
  match c with
  | Threw e => result = Rejected e /\ w' = w
  | Returned =>
      result = answered P (server P (requests w))
      /\ (exists evs,
            w' = mkWorld (DEBUG w) (S (requests w))
                         (trace w ++ Sent request' sent :: evs)
            /\ onlyConsole evs = true)
      /\ (requiresExtraHeaders (httpsRequest options) = true ->
          getHeader request' "Content-Length"
          = Some (HNum (jsLength (bodyOrEmpty sent)))
          /\ getHeader request' "x-content-sha256"
             = Some (HStr (sha256B64 P (bodyOrEmpty sent))))
  end.
Proof.
  cbv zeta.
  pose proof (sign_effect P (httpsRequest options)
                (utilsSignOptions P (if isTruthy body then body else None))) as He.
  destruct (sign P (httpsRequest options) _) as [[request' options'] c] eqn:Hs.
  destruct c as [|e].
  - destruct (sendRequest_run P options body w request' options' Hs)
      as (evs & Hrun & Hq & _).
    rewrite Hrun. splits.
    + reflexivity.
    + now exists evs.
    + intros Hx. destruct He as (_ & _ & _ & _ & Hf & _).
      unfold prepared in Hf. rewrite Hx in Hf. cbn [fst] in Hf.
      split.
      * rewrite Hf by reflexivity.
        rewrite getHeader_setHeader_other by reflexivity.
        now apply getHeader_setHeader_same.
      * rewrite Hf by reflexivity. now apply getHeader_setHeader_same.
  - unfold promisifiedSendRequest. rewrite Hs. unfold throw. auto.
Qed.

(** When the download request itself fails, [promisifiedWriteZipResponse]
    rejects without creating the file.  When the destination file can be
    opened and the response breaks off with an [error] event, it rejects
    after the file was created and the chunks received so far were written,
    and the file stream is never ended. *)
Theorem promisifiedWriteZipResponse_broken_download (P : platform)
        (options : requestOptions) (outFile : string) (w : world)
        (request' : clientRequest) (options' : signOptions) :
  sign P (httpsRequest options) (utilsSignOptions P None)
  = (request', options', Returned) ->
  let '(result, w') := promisifiedWriteZipResponse P options outFile w in
  (forall e, server P (requests w) = RequestError e ->
             result = Rejected (VError e)
             /\ trace w' = (trace w ++ [Sent request' None])%list)
  /\ (forall r e, writeStreamError P outFile = None ->
                  server P (requests w) = Responds r ->
                  streamError r = Some e ->
                  result = Rejected (VError e)
                  /\ exists evs,
                       trace w' = (trace w ++ evs)%list
                       /\ evs = (Sent request' None :: FileCreate outFile
                                 :: map (FileWrite outFile) (chunks r))%list
                       /\ ~ In (FileEnd outFile) evs).
Proof.
  intros Hs.
  destruct (promisifiedWriteZipResponse P options outFile w) as [result w']
    eqn:Hrun.
  split.
  - intros e Hx.
    unfold promisifiedWriteZipResponse in Hrun. rewrite Hs in Hrun.
    unfold Js.bind at 1 in Hrun. unfold emit at 1 in Hrun.
    unfold Js.bind at 1 in Hrun. unfold nextExchange at 1 in Hrun.
    cbn [requests DEBUG trace] in Hrun.
    rewrite Hx in Hrun. inversion Hrun. split; reflexivity.
  - intros r e Hopens Hx He.
    pose proof (writeZip_run P options outFile w request' options' Hs Hopens)
      as H.
    rewrite Hx, He, Hrun in H. inversion H. split; [reflexivity|].
    eexists. splits; [reflexivity | reflexivity |].
    intros [Hin | [Hin | Hin]]; try discriminate.
    apply in_map_iff in Hin. destruct Hin as (c & Hc & _). discriminate.
Qed.

Lemma promisifiedWriteZipResponse_broken_download_witness :
  let P := Demo.demoPlatform brokenServer in
  fst (promisifiedWriteZipResponse P Demo.downloadOptions "/tmp/out/a.zip"
                                   (mkWorld false 1 []))
  = Rejected (VError (VStr "aborted")).
Proof.
  cbv zeta.
  pose proof (promisifiedWriteZipResponse_broken_download
                (Demo.demoPlatform brokenServer) Demo.downloadOptions
                "/tmp/out/a.zip" (mkWorld false 1 []) _ _ eq_refl) as H.
  destruct (promisifiedWriteZipResponse _ _ _ _) as [result w'].
  destruct H as (_ & H).
  exact (proj1 (H _ _ eq_refl eq_refl eq_refl)).
Defined.

(** When the destination file can be opened and the download is answered
    with a status code of 300 or more, [promisifiedWriteZipResponse] never
    resolves, yet the body of the error response has been written to the
    destination file and the file stream ended; unless the content type is [application/json] the promise is
    rejected with the status code and the status message. *)
Theorem promisifiedWriteZipResponse_error_status (P : platform)
        (options : requestOptions) (outFile : string) (w : world)
        (r : response) (request' : clientRequest) (options' : signOptions) :
  sign P (httpsRequest options) (utilsSignOptions P None)
  = (request', options', Returned) ->
  writeStreamError P outFile = None ->
  server P (requests w) = Responds r ->
  streamError r = None ->
  (300 <= statusCode r)%Z ->
  let '(result, w') := promisifiedWriteZipResponse P options outFile w in
  (forall v, result <> Resolved v)
  /\ (isJson r = false ->
      result = Rejected (VError (VStr (ToString P (VNum (statusCode r)) ++ ": "
                                       ++ statusMessage r))))
  /\ (exists tail,
        trace w' = (trace w ++ [Sent request' None; FileCreate outFile]
                    ++ map (FileWrite outFile) (chunks r)
                    ++ [FileEnd outFile] ++ tail)%list
        /\ onlyConsole tail = true)
  /\ fileContent outFile (trace w') EmptyString
     = String.concat EmptyString (chunks r).
Proof.
  intros Hs Hopens Hx He Hc.
  pose proof (writeZip_run P options outFile w request' options' Hs Hopens)
    as H.
  rewrite Hx, He in H. destruct H as (evs & Hrun & Hq & _).
  rewrite Hrun. unfold answered. rewrite He.
  destruct (settle_error_status P r (fold_left append (chunks r) EmptyString)
              anyWorld Hc) as (Hnr & Hnj).
  cbn [trace]. splits; auto.
  - now exists evs.
  - rewrite fileContent_app. cbn [app fileContent].
    rewrite String.eqb_refl, fileContent_app, fileContent_writes.
    cbn [app fileContent append].
    clear -Hq. induction evs as [|ev evs IH]; [reflexivity|].
    destruct ev; try discriminate; simpl in *; auto.
Qed.

Lemma promisifiedWriteZipResponse_error_status_witness :
  let P := Demo.demoPlatform brokenServer in
  fileContent "/tmp/out/a.zip"
    (trace (snd (promisifiedWriteZipResponse P Demo.downloadOptions
                   "/tmp/out/a.zip" (mkWorld false 2 []))))
    EmptyString
  = "no such file".
Proof.
  cbv zeta.
  pose proof (promisifiedWriteZipResponse_error_status
                (Demo.demoPlatform brokenServer) Demo.downloadOptions
                "/tmp/out/a.zip" (mkWorld false 2 []) _ _ _
                eq_refl eq_refl eq_refl eq_refl) as H.
  destruct (promisifiedWriteZipResponse _ _ _ _) as [result w'].
  assert (Hc : (300 <= 404)%Z) by lia.
  destruct (H Hc) as (_ & _ & _ & Hf).
  exact Hf.
Defined.

End TransportExtras.

Section PollerBehaviour.
Import JsString Js OciUtils ExportDaInsights Observe Behaviour Utils ScriptArgs.
Context (P : platform) (exportId : value).

Lemma filesCreated_app a b :
  filesCreated (a ++ b) = (filesCreated a ++ filesCreated b)%list.
Proof.
  induction a as [|e a IH]; simpl; [reflexivity|].
  destruct e; simpl; now rewrite IH.
Qed.

Lemma onlyConsole_quiet (evs : list event) :
  onlyConsole evs = true ->
  sleepsOf evs = [] /\ sentPaths evs = [] /\ filesCreated evs = [].
Proof.
  induction evs as [|e evs IH]; [auto|].
  destruct e; try discriminate; simpl; auto.
Qed.

Hypothesis signs :
  snd (sign P (statusRequest P exportId) (utilsSignOptions P None)) = Returned.

(** A status fetch, from the answer it gets. *)
Lemma getExportTask_run (w : world) :
  exists evs,
    getExportTask P exportId w
    = (answered P (server P (requests w)),
       mkWorld (DEBUG w) (S (requests w)) (trace w ++ evs))
    /\ sleepsOf evs = []
    /\ List.length (sentPaths evs) = 1
    /\ filesCreated evs = [].
Proof.
  unfold getExportTask. unfold bind. rewrite debug_run.
  fold (statusRequest P exportId).
  destruct (sign P (statusRequest P exportId) (utilsSignOptions P None))
    as [[request' options'] c] eqn:Hs.
  cbn [snd] in signs. subst c.
  match goal with
  | |- context [promisifiedSendRequest P ?o None ?w0] =>
      destruct (sendRequest_run P o None w0 request' options' Hs)
        as (evs & Hrun & Hq & _)
  end.
  rewrite Hrun. unfold addEvents. cbn [DEBUG requests trace isTruthy].
  destruct (onlyConsole_quiet evs Hq) as (Q1 & Q2 & Q3).
  eexists. splits.
  - rewrite <- app_assoc. reflexivity.
  - rewrite sleepsOf_app. cbn [sleepsOf]. rewrite Q1. now destruct (DEBUG w).
  - rewrite sentPaths_app, length_app. cbn [sentPaths]. rewrite Q2.
    now destruct (DEBUG w).
  - rewrite filesCreated_app. cbn [filesCreated]. rewrite Q3.
    now destruct (DEBUG w).
Qed.

Lemma observesActive_answered (x : exchange) :
  observesActive P x = true ->
  exists result s,
    answered P x = Resolved result
    /\ getProp result "status" = Some (VStr s)
    /\ isActiveStatus s = true.
Proof.
  unfold observesActive, answered.
  destruct x as [r|e]; [|discriminate].
  destruct (streamError r); [discriminate|].
  intros Hact.
  apply andb_prop in Hact. destruct Hact as [Hact Hst].
  apply andb_prop in Hact. destruct Hact as [Hcode Hjson].
  unfold settle. rewrite Hcode, Hjson.
  destruct (JSON_parse P (fold_left append (chunks r) EmptyString))
    as [result|]; [|discriminate].
  destruct (getProp result "status") as [status|] eqn:Hp; [|discriminate].
  destruct status; try discriminate.
  now exists result, s.
Qed.

Lemma active_fetch (w : world) :
  observesActive P (server P (requests w)) = true ->
  exists result evs,
    rejectIfRequestActive P exportId w
    = (Rejected (VError result),
       mkWorld (DEBUG w) (S (requests w)) (trace w ++ evs))
    /\ sleepsOf evs = []
    /\ List.length (sentPaths evs) = 1
    /\ filesCreated evs = [].
Proof.
  intros Hact.
  destruct (observesActive_answered _ Hact) as (result & s & Ha & Hp & Hs).
  destruct (getExportTask_run w) as (evs & Hrun & Q1 & Q2 & Q3).
  unfold rejectIfRequestActive.
  unfold bind at 1. unfold tryCatch at 1. unfold bind at 1.
  rewrite Hrun, Ha. unfold propOrThrow. rewrite Hp.
  unfold ret at 1. unfold bind at 1. unfold bind at 1. rewrite debug_run.
  rewrite Hs. unfold ret, throw. unfold addEvents. cbn [DEBUG requests trace].
  exists result. eexists. splits.
  - rewrite <- app_assoc. reflexivity.
  - rewrite sleepsOf_app, Q1. now destruct (DEBUG w).
  - rewrite sentPaths_app, length_app, Q2. now destruct (DEBUG w).
  - rewrite filesCreated_app, Q3. now destruct (DEBUG w).
Qed.

Lemma terminal_attempt (w : world) (task : value) (s : string) :
  answered P (server P (requests w)) = Resolved task ->
  getProp task "status" = Some (VStr s) ->
  isActiveStatus s = false ->
  exists evs,
    rejectIfRequestActive P exportId w
    = (Resolved task, mkWorld (DEBUG w) (S (requests w)) (trace w ++ evs))
    /\ sleepsOf evs = []
    /\ List.length (sentPaths evs) = 1
    /\ filesCreated evs = [].
Proof.
  intros Ha Hp Hs.
  destruct (getExportTask_run w) as (evs & Hrun & Q1 & Q2 & Q3).
  unfold rejectIfRequestActive.
  unfold bind at 1. unfold tryCatch at 1. unfold bind at 1.
  rewrite Hrun, Ha. unfold propOrThrow. rewrite Hp.
  unfold ret at 1. unfold bind at 1. unfold bind at 1. rewrite debug_run.
  rewrite Hs. unfold ret. unfold addEvents. cbn [DEBUG requests trace].
  eexists. splits.
  - rewrite <- app_assoc. reflexivity.
  - rewrite sleepsOf_app, Q1. now destruct (DEBUG w).
  - rewrite sentPaths_app, length_app, Q2. now destruct (DEBUG w).
  - rewrite filesCreated_app, Q3. now destruct (DEBUG w).
Qed.

Lemma failed_attempt (w : world) (e : value) :
  answered P (server P (requests w)) = Rejected e ->
  exists evs,
    rejectIfRequestActive P exportId w
    = (Exited 1,
       mkWorld (DEBUG w) (S (requests w)) (trace w ++ evs ++ [LogError e]))
    /\ sleepsOf evs = []
    /\ List.length (sentPaths evs) = 1
    /\ filesCreated evs = [].
Proof.
  intros Ha.
  destruct (getExportTask_run w) as (evs & Hrun & Q1 & Q2 & Q3).
  unfold rejectIfRequestActive.
  unfold bind at 1. unfold tryCatch at 1. unfold bind at 1.
  rewrite Hrun, Ha. unfold failureCallback, bind, emit, processExit.
  cbn [DEBUG requests trace].
  exists evs. rewrite <- app_assoc. splits; auto.
Qed.

Lemma makeAttempt_after_active : forall k extra num w,
  (forall i, i < k -> observesActive P (server P (requests w + i)) = true) ->
  exists evs,
    makeAttempt (pollFunc P exportId) (pollOptions P exportId) (k + S extra) num w
    = makeAttempt (pollFunc P exportId) (pollOptions P exportId) (S extra) (num + k)
        (mkWorld (DEBUG w) (requests w + k) (trace w ++ evs))
    /\ List.length (sentPaths evs) = k
    /\ sleepsOf evs
       = map (fun j => calculateDelay j (pollOptions P exportId)) (seq (S num) k)
    /\ filesCreated evs = [].
Proof.
  induction k as [|k IH]; intros extra num w Hact.
  - exists []. rewrite !Nat.add_0_r, app_nil_r. destruct w. auto.
  - destruct (active_fetch w) as (result & evs & Hrun & Hsl & Hsent & Hfc).
    { specialize (Hact 0). rewrite Nat.add_0_r in Hact. apply Hact. lia. }
    set (w1 := mkWorld (DEBUG w) (S (requests w)) (trace w ++ evs)) in *.
    set (d := calculateDelay (S num) (pollOptions P exportId)).
    destruct (IH extra (S num) (addEvents w1 [Sleep d]))
      as (evs' & Hrec & Hsent' & Hsl' & Hfc').
    { intros i Hi. cbn [addEvents w1 requests].
      replace (S (requests w) + i) with (requests w + S i) by lia.
      apply Hact. lia. }
    cbn [Nat.add]. rewrite makeAttempt_step.
    unfold tryCatch at 1. unfold pollFunc at 1. rewrite Hrun. fold w1.
    cbn [handleError pollOptions attemptsRemaining].
    replace (k + S extra <? 1)%nat with false
      by (symmetry; apply Nat.ltb_ge; lia).
    unfold bind at 1. unfold bind at 1. unfold ret at 1.
    cbn [retryableIsFalse getProp]. unfold ret at 1.
    cbn [aborted attemptsRemaining orb].
    replace (k + S extra =? 0)%nat with false
      by (symmetry; apply Nat.eqb_neq; lia).
    fold (pollOptions P exportId). fold d.
    unfold bind at 1.
    replace (d =? 0)%Z with false by (symmetry; apply calculateDelay_poll_pos).
    change (emit (Sleep d) w1) with (Resolved tt, addEvents w1 [Sleep d]).
    cbv iota beta. rewrite Hrec.
    exists (evs ++ Sleep d :: evs')%list. splits.
    + unfold addEvents, w1. cbn [DEBUG requests trace].
      replace (S (requests w) + k) with (requests w + S k) by lia.
      replace (S num + k) with (num + S k) by lia.
      rewrite <- !app_assoc. reflexivity.
    + rewrite sentPaths_app, length_app, Hsent. cbn [sentPaths].
      rewrite Hsent'. reflexivity.
    + rewrite sleepsOf_app, Hsl. cbn [sleepsOf app seq map].
      rewrite Hsl'. reflexivity.
    + rewrite filesCreated_app, Hfc. cbn [filesCreated app]. exact Hfc'.
Qed.

Lemma firstWaits_seq (k : nat) :
  firstWaits P exportId k
  = map (fun j => calculateDelay j (pollOptions P exportId)) (seq 1 k).
Proof. reflexivity. Qed.

Lemma waitForTaskCompletion_after_active (k : nat) (w : world) :
  k < 20 ->
  (forall i, i < k -> observesActive P (server P (requests w + i)) = true) ->
  exists evs,
    waitForTaskCompletion P exportId w
    = tryCatch
        (makeAttempt (pollFunc P exportId) (pollOptions P exportId)
                     (S (19 - k)) k)
        (fun error => failureCallback error)
        (mkWorld (DEBUG w) (requests w + k) (trace w ++ evs))
    /\ List.length (sentPaths evs) = k
    /\ sleepsOf evs = firstWaits P exportId k
    /\ filesCreated evs = [].
Proof.
  intros Hk Hact.
  unfold waitForTaskCompletion. unfold bind at 1. rewrite debug_run.
  set (w0 := addEvents w _).
  destruct (makeAttempt_after_active k (19 - k) 0 w0) as (evs & Hrun & Hsent & Hsl & Hfc).
  { intros i Hi. apply Hact. exact Hi. }
  unfold tryCatch, retry.
  change (maxAttempts (pollOptions P exportId)) with 20.
  fold (pollFunc P exportId).
  replace 20 with (k + S (19 - k)) by lia.
  rewrite Hrun. subst w0. unfold addEvents. cbn [DEBUG requests trace Nat.add].
  exists ((if DEBUG w then [Log (VStr "waitForTaskCompletion")] else []) ++ evs)%list.
  splits.
  - rewrite app_assoc. reflexivity.
  - rewrite sentPaths_app, length_app, Hsent. now destruct (DEBUG w).
  - rewrite sleepsOf_app, Hsl. now destruct (DEBUG w).
  - rewrite filesCreated_app, Hfc. now destruct (DEBUG w).
Qed.

End PollerBehaviour.

Section PollerExtras.
Import JsString Js OciUtils ExportDaInsights Observe Behaviour Utils ScriptArgs.

(** After [k] fetches that show an active task, [k] below 20, a fetch that
    resolves with a task resource whose status is not taken for active
    ends the polling: [waitForTaskCompletion] resolves with that task
    resource after exactly [k + 1] requests and the first [k] waits of the
    schedule. *)
Theorem waitForTaskCompletion_resolves (P : platform) (exportId : value)
        (k : nat) (w : world) (task : value) (s : string) :
  snd (sign P (statusRequest P exportId) (utilsSignOptions P None)) = Returned ->
  k < 20 ->
  (forall i, i < k -> observesActive P (server P (requests w + i)) = true) ->
  answered P (server P (requests w + k)) = Resolved task ->
  getProp task "status" = Some (VStr s) ->
  isActiveStatus s = false ->
  let '(result, w') := waitForTaskCompletion P exportId w in
  result = Resolved task
  /\ requests w' = requests w + S k
  /\ exists evs,
       trace w' = (trace w ++ evs)%list
       /\ List.length (sentPaths evs) = S k
       /\ sleepsOf evs = firstWaits P exportId k
       /\ filesCreated evs = [].
Proof.
  intros Hsigns Hk Hact Ha Hp Hs.
  destruct (waitForTaskCompletion_after_active P exportId Hsigns k w Hk Hact)
    as (evs & Hrun & Hsent & Hsl & Hfc).
  rewrite Hrun. clear Hrun.
  set (wk := mkWorld (DEBUG w) (requests w + k) (trace w ++ evs)).
  destruct (terminal_attempt P exportId Hsigns wk task s Ha Hp Hs)
    as (evs' & Hrun & Q1 & Q2 & Q3).
  rewrite makeAttempt_step. unfold tryCatch. unfold pollFunc at 1.
  rewrite Hrun. cbn [DEBUG requests trace wk]. splits.
  - reflexivity.
  - lia.
  - exists (evs ++ evs')%list. splits.
    + now rewrite app_assoc.
    + rewrite sentPaths_app, length_app, Hsent, Q2. lia.
    + rewrite sleepsOf_app, Hsl, Q1. now rewrite app_nil_r.
    + now rewrite filesCreated_app, Hfc, Q3.
Qed.

Lemma waitForTaskCompletion_resolves_witness :
  fst (waitForTaskCompletion (Demo.demoPlatform Demo.succeedingServer)
                             (VStr "job1") (mkWorld false 1 []))
  = Resolved (VObj [("status", VStr "EXPORT_SUCCEEDED");
                    ("filenames", VArr [VStr "a.zip"; VStr "b.zip"])]).
Proof.
  assert (Hact : forall i, i < 2 ->
            observesActive (Demo.demoPlatform Demo.succeedingServer)
              (server (Demo.demoPlatform Demo.succeedingServer)
                      (requests (mkWorld false 1 []) + i)) = true).
  { intros i Hi. destruct i as [|[|i]]; [reflexivity | reflexivity | lia]. }
  assert (Hk : 2 < 20) by lia.
  pose proof (waitForTaskCompletion_resolves
                (Demo.demoPlatform Demo.succeedingServer) (VStr "job1") 2
                (mkWorld false 1 []) _ "EXPORT_SUCCEEDED"
                eq_refl Hk Hact eq_refl eq_refl eq_refl) as H.
  destruct (waitForTaskCompletion _ _ _) as [result w'].
  exact (proj1 H).
Defined.

(** A status fetch that fails is not retried.  After [k] fetches that show
    an active task, [k] below 20, a fetch whose promise is rejected (the
    request or the response breaks, or the status code is 300 or more) ends
    the process with status 1 at once: [k + 1] requests were sent, no wait
    follows the failure, and the error is the last thing printed. *)
Theorem waitForTaskCompletion_fetch_failure_is_fatal (P : platform)
        (exportId : value) (k : nat) (w : world) (e : value) :
  snd (sign P (statusRequest P exportId) (utilsSignOptions P None)) = Returned ->
  k < 20 ->
  (forall i, i < k -> observesActive P (server P (requests w + i)) = true) ->
  answered P (server P (requests w + k)) = Rejected e ->
  let '(result, w') := waitForTaskCompletion P exportId w in
  result = Exited 1
  /\ requests w' = requests w + S k
  /\ exists evs,
       trace w' = (trace w ++ evs ++ [LogError e])%list
       /\ List.length (sentPaths evs) = S k
       /\ sleepsOf evs = firstWaits P exportId k
       /\ filesCreated evs = [].
Proof.
  intros Hsigns Hk Hact Ha.
  destruct (waitForTaskCompletion_after_active P exportId Hsigns k w Hk Hact)
    as (evs & Hrun & Hsent & Hsl & Hfc).
  rewrite Hrun. clear Hrun.
  set (wk := mkWorld (DEBUG w) (requests w + k) (trace w ++ evs)).
  destruct (failed_attempt P exportId Hsigns wk e Ha) as (evs' & Hrun & Q1 & Q2 & Q3).
  rewrite makeAttempt_step. unfold tryCatch. unfold pollFunc at 1.
  rewrite Hrun. cbn [DEBUG requests trace wk]. splits.
  - reflexivity.
  - lia.
  - exists (evs ++ evs')%list. splits.
    + now rewrite <- !app_assoc.
    + rewrite sentPaths_app, length_app, Hsent, Q2. lia.
    + rewrite sleepsOf_app, Hsl, Q1. now rewrite app_nil_r.
    + now rewrite filesCreated_app, Hfc, Q3.
Qed.

Lemma waitForTaskCompletion_fetch_failure_is_fatal_witness :
  fst (waitForTaskCompletion (Demo.demoPlatform flakyServer) (VStr "job1")
                             Demo.freshWorld)
  = Exited 1.
Proof.
  assert (Hact : forall i, i < 1 ->
            observesActive (Demo.demoPlatform flakyServer)
              (server (Demo.demoPlatform flakyServer)
                      (requests Demo.freshWorld + i)) = true).
  { intros i Hi. destruct i as [|i]; [reflexivity | lia]. }
  assert (Hk : 1 < 20) by lia.
  pose proof (waitForTaskCompletion_fetch_failure_is_fatal
                (Demo.demoPlatform flakyServer) (VStr "job1") 1
                Demo.freshWorld _ eq_refl Hk Hact eq_refl) as H.
  destruct (waitForTaskCompletion _ _ _) as [result w'].
  exact (proj1 H).
Defined.

End PollerExtras.

Section RunBehaviour.
Import JsString Js OciUtils ExportDaInsights Observe Behaviour Utils ScriptArgs.
Context (P : platform).

Lemma isDateValid_run (type : string) (date : option string) (w : world) :
  exists evs,
    isDateValid P type date w = (Resolved (dateOk P date), addEvents w evs)
    /\ onlyConsole evs = true
    /\ (dateOk P date = true -> evs = []).
Proof.
  unfold isDateValid, dateOk.
  destruct date as [d|].
  - destruct (String.length d =? 0)%nat.
    + exists []. rewrite addEvents_nil. auto.
    + cbn [orb]. destruct (matchesDatePattern d); cbn [negb andb].
      * destruct (dateIsNaN P d); cbn [negb].
        -- eexists [_]. unfold Js.bind, emit, ret, addEvents.
           splits; [reflexivity | reflexivity | discriminate].
        -- exists []. rewrite addEvents_nil. auto.
      * eexists [_]. unfold Js.bind, emit, ret, addEvents.
        splits; [reflexivity | reflexivity | discriminate].
  - exists []. rewrite addEvents_nil. auto.
Qed.

Lemma onlyConsole_app (a b : list event) :
  onlyConsole (a ++ b) = onlyConsole a && onlyConsole b.
Proof.
  induction a as [|e a IH]; [reflexivity|].
  destruct e; simpl; auto.
Qed.

Lemma run_validation (ps : parameters) (w : world) :
  exists evs,
    onlyConsole evs = true
    /\ run P ps w
       = if directoryOk P (p_outpath ps) && dateOk P (p_begindate ps)
            && dateOk P (p_enddate ps)
         then tryCatch
                (exportAndDispatch P ps (expandHome (homedir P) (p_outpath ps)))
                (fun err => failureCallback err)
                (mkWorld (debugFlag ps) (requests w) (trace w))
         else (Exited 1,
               mkWorld (debugFlag ps) (requests w)
                       (trace w ++ evs ++ [LogError (VStr invalidArguments)])).
Proof.
  unfold run, directoryOk.
  fold (debugFlag ps).
  change (if startsWith (p_outpath ps) "~/"
          then replace (p_outpath ps) "~" (homedir P)
          else p_outpath ps)
    with (expandHome (homedir P) (p_outpath ps)).
  set (zip := expandHome (homedir P) (p_outpath ps)).
  set (w0 := mkWorld (debugFlag ps) (requests w) (trace w)).
  unfold tryCatch at 1. unfold Js.bind at 1. unfold setDEBUG at 1. fold w0.
  unfold Js.bind at 1.
  assert (Hdir : exists evs1,
             onlyConsole evs1 = true
             /\ (match statIsDirectory P (trim zip) with
                 | Some true => ret false
                 | Some false =>
                     Js.bind (emit (Log (VStr (zip ++ " is not a directory."))))
                             (fun _ => ret true)
                 | None =>
                     Js.bind (emit (Log (VStr (zip ++ " doesn't exist."))))
                             (fun _ => ret true)
                 end) w0
                = (Resolved (negb match statIsDirectory P (trim zip) with
                                  | Some true => true
                                  | _ => false
                                  end),
                   addEvents w0 evs1)
             /\ (match statIsDirectory P (trim zip) with
                 | Some true => true
                 | _ => false
                 end = true -> evs1 = [])).
  { destruct (statIsDirectory P (trim zip)) as [[]|].
    - exists []. rewrite addEvents_nil. auto.
    - exists [Log (VStr (zip ++ " is not a directory."))].
      splits; [reflexivity | reflexivity | discriminate].
    - exists [Log (VStr (zip ++ " doesn't exist."))].
      splits; [reflexivity | reflexivity | discriminate]. }
  destruct Hdir as (evs1 & Q1 & Hdir & E1). rewrite Hdir. clear Hdir.
  set (dirOk := match statIsDirectory P (trim zip) with
                | Some true => true
                | _ => false
                end) in *.
  destruct (isDateValid_run "begin" (p_begindate ps) (addEvents w0 evs1))
    as (evs2 & Hb & Q2 & E2).
  unfold Js.bind at 1. rewrite Hb. clear Hb.
  destruct (isDateValid_run "end" (p_enddate ps)
              (addEvents (addEvents w0 evs1) evs2))
    as (evs3 & He & Q3 & E3).
  unfold Js.bind at 1. rewrite He. clear He.
  exists (evs1 ++ evs2 ++ evs3)%list.
  split; [now rewrite !onlyConsole_app, Q1, Q2, Q3|].
  destruct dirOk, (dateOk P (p_begindate ps)), (dateOk P (p_enddate ps));
    cbn [negb orb andb];
    try (unfold Js.bind at 1, failureCallback, Js.bind, emit, processExit;
         unfold addEvents, w0; cbn [DEBUG requests trace];
         rewrite <- !app_assoc; reflexivity).
  rewrite (E1 eq_refl), (E2 eq_refl), (E3 eq_refl).
  rewrite !addEvents_nil. unfold Js.bind at 1. unfold ret at 1.
  reflexivity.
Qed.

End RunBehaviour.

Section DispatchBehaviour.
Import JsString Js OciUtils ExportDaInsights Observe Behaviour Utils ScriptArgs.
Context (P : platform).

Lemma startExportTask_run (ps : parameters) (w : world) :
  snd (sign P (startRequest P ps) (utilsSignOptions P (startBody P ps)))
  = Returned ->
  exists evs,
    startExportTask P (p_id ps) (p_taskname ps) (p_begindate ps) (p_enddate ps) w
    = (answered P (server P (requests w)),
       mkWorld (DEBUG w) (S (requests w)) (trace w ++ evs))
    /\ sleepsOf evs = []
    /\ List.length (sentPaths evs) = 1
    /\ filesCreated evs = [].
Proof.
  intros Hsigns.
  unfold startExportTask.
  unfold Js.bind at 1. rewrite debug_run.
  unfold Js.bind at 1. rewrite debug_run.
  unfold Js.bind at 1. rewrite debug_run.
  fold (startRequest P ps) in Hsigns.
  destruct (sign P (startRequest P ps) (utilsSignOptions P (startBody P ps)))
    as [[request' options'] c] eqn:Hs.
  cbn [snd] in Hsigns. subst c.
  match goal with
  | |- context [promisifiedSendRequest P ?o ?b ?w0] =>
      destruct (sendRequest_run P o b w0 request' options' Hs)
        as (evs & Hrun & Hq & _)
  end.
  rewrite Hrun. unfold addEvents. cbn [DEBUG requests trace].
  destruct (onlyConsole_quiet evs Hq) as (Q1 & Q2 & Q3).
  eexists. splits.
  - rewrite <- !app_assoc. reflexivity.
  - rewrite !sleepsOf_app. cbn [sleepsOf]. rewrite Q1.
    now destruct (DEBUG w).
  - rewrite !sentPaths_app, !length_app. cbn [sentPaths]. rewrite Q2.
    now destruct (DEBUG w).
  - rewrite !filesCreated_app. cbn [filesCreated]. rewrite Q3.
    now destruct (DEBUG w).
Qed.

End DispatchBehaviour.

Section EndToEnd.
Import JsString Js OciUtils ExportDaInsights Observe Behaviour Utils ScriptArgs.
Context (P : platform).

Lemma waitForTaskCompletion_resolves_run (exportId : value) (k : nat)
      (w : world) (task : value) (s : string) :
  snd (sign P (statusRequest P exportId) (utilsSignOptions P None)) = Returned ->
  k < 20 ->
  (forall i, i < k -> observesActive P (server P (requests w + i)) = true) ->
  answered P (server P (requests w + k)) = Resolved task ->
  getProp task "status" = Some (VStr s) ->
  isActiveStatus s = false ->
  exists evs,
    waitForTaskCompletion P exportId w
    = (Resolved task,
       mkWorld (DEBUG w) (requests w + S k) (trace w ++ evs))
    /\ List.length (sentPaths evs) = S k
    /\ sleepsOf evs = firstWaits P exportId k
    /\ filesCreated evs = [].
Proof.
  intros Hsigns Hk Hact Ha Hp Hs.
  destruct (waitForTaskCompletion_after_active P exportId Hsigns k w Hk Hact)
    as (evs & Hrun & Hsent & Hsl & Hfc).
  rewrite Hrun. clear Hrun.
  set (wk := mkWorld (DEBUG w) (requests w + k) (trace w ++ evs)).
  destruct (terminal_attempt P exportId Hsigns wk task s Ha Hp Hs)
    as (evs' & Hrun & Q1 & Q2 & Q3).
  rewrite makeAttempt_step. unfold tryCatch. unfold pollFunc at 1.
  rewrite Hrun. cbn [DEBUG requests trace wk].
  exists (evs ++ evs')%list. splits.
  - rewrite app_assoc. do 2 f_equal. lia.
  - rewrite sentPaths_app, length_app, Hsent, Q2. lia.
  - rewrite sleepsOf_app, Hsl, Q1. now rewrite app_nil_r.
  - now rewrite filesCreated_app, Hfc, Q3.
Qed.

Lemma getProp_defined (v x : value) (k k' : string) :
  getProp v k = Some x -> exists y, getProp v k' = Some y.
Proof.
  destruct v; simpl; intros Hx; try discriminate; eauto.
Qed.

Lemma dispatch_without_download (ps : parameters) (zipFilePath : string)
      (exportJobId task filenames : value) (s : string) (w : world) :
  getProp task "status" = Some (VStr s) ->
  toUpperCase s <> "EXPORT_SUCCEEDED" ->
  exists evs,
    dispatch P ps zipFilePath exportJobId task filenames s w
    = (Resolved tt, addEvents w evs)
    /\ onlyConsole evs = true.
Proof.
  intros Hp Hne. unfold dispatch.
  apply String.eqb_neq in Hne. rewrite Hne.
  destruct (String.eqb (toUpperCase s) "EXPORT_FAILED").
  - destruct (getProp_defined task _ "status" "error" Hp) as (e & He).
    unfold propOrThrow. rewrite He. unfold Js.bind, ret, emit.
    exists [Log e]. auto.
  - destruct (String.eqb (toUpperCase s) "NO_DATA").
    + unfold Js.bind, emit, ret, addEvents. cbn [DEBUG requests trace].
      destruct (p_begindate ps), (p_enddate ps);
        cbn [DEBUG requests trace]; rewrite <- ?app_assoc; eexists;
        (split; [reflexivity | reflexivity]).
    + unfold emit. eexists [_]. split; reflexivity.
Qed.

End EndToEnd.

Section EndToEndExtras.
Import JsString Js OciUtils ExportDaInsights Observe Behaviour Utils ScriptArgs.

(** A run that needs no download.  When the arguments are valid, the start
    request is answered with a job id and, after [k] fetches that show an
    active task ([k] below 20), the task is reported with a status that is
    neither taken for active nor EXPORT_SUCCEEDED, then [run] ends
    normally: it has sent [k + 2] requests, waited the first [k] waits of
    the schedule, and created no file. *)
Theorem run_completes_without_download (P : platform) (ps : parameters)
        (w : world)
        (response exportJobId task : value) (s : string) (k : nat) :
  directoryOk P (p_outpath ps) && dateOk P (p_begindate ps)
  && dateOk P (p_enddate ps) = true ->
  snd (sign P (startRequest P ps) (utilsSignOptions P (startBody P ps)))
  = Returned ->
  answered P (server P (requests w)) = Resolved response ->
  getProp response "jobId" = Some exportJobId ->
  snd (sign P (statusRequest P exportJobId) (utilsSignOptions P None))
  = Returned ->
  k < 20 ->
  (forall i, i < k ->
             observesActive P (server P (S (requests w) + i)) = true) ->
  answered P (server P (S (requests w) + k)) = Resolved task ->
  getProp task "status" = Some (VStr s) ->
  isActiveStatus s = false ->
  toUpperCase s <> "EXPORT_SUCCEEDED" ->
  let '(result, w') := run P ps w in
  result = Resolved tt
  /\ requests w' = requests w + k + 2
  /\ exists evs,
       trace w' = (trace w ++ evs)%list
       /\ List.length (sentPaths evs) = k + 2
       /\ sleepsOf evs = firstWaits P exportJobId k
       /\ filesCreated evs = [].
Proof.
  intros Hvalid Hs1 Ha1 Hjob Hs2 Hk Hact Ha2 Hst Hna Hne.
  destruct (run_validation P ps w) as (evs0 & _ & Hrun).
  rewrite Hvalid in Hrun. rewrite Hrun. clear Hrun evs0.
  set (w0 := mkWorld (debugFlag ps) (requests w) (trace w)).
  destruct (startExportTask_run P ps w0 Hs1) as (evs1 & Hrun1 & Q1 & R1 & F1).
  cbn [requests w0] in Hrun1. rewrite Ha1 in Hrun1.
  unfold exportAndDispatch, tryCatch.
  unfold Js.bind at 1. rewrite Hrun1. clear Hrun1.
  unfold propOrThrow at 1. rewrite Hjob.
  unfold Js.bind at 1. unfold ret at 1.
  unfold Js.bind at 1. rewrite debug_run.
  unfold Js.bind at 1. unfold emit at 1.
  unfold addEvents. cbn [DEBUG requests trace w0].
  unfold Js.bind at 1.
  match goal with
  | |- context [waitForTaskCompletion P exportJobId ?x] =>
      set (w1 := x)
  end.
  destruct (waitForTaskCompletion_resolves_run P exportJobId k w1 task s
              Hs2 Hk Hact Ha2 Hst Hna) as (evs2 & Hrun2 & R2 & Q2 & F2).
  rewrite Hrun2. clear Hrun2.
  unfold propOrThrow at 1. rewrite Hst.
  unfold Js.bind at 1. unfold ret at 1.
  destruct (getProp_defined task _ "status" "filenames" Hst) as (fn & Hfn).
  unfold propOrThrow at 1. rewrite Hfn.
  unfold Js.bind at 1. unfold ret at 1.
  unfold Js.bind at 1. rewrite debug_run.
  unfold Js.bind at 1. unfold emit at 1.
  unfold addEvents. cbn [DEBUG requests trace w1].
  match goal with
  | |- context [dispatch P ps ?z exportJobId task fn s ?w2] =>
      destruct (dispatch_without_download P ps z exportJobId task fn s w2 Hst Hne)
        as (evs3 & Hrun3 & Q3)
  end.
  rewrite Hrun3. clear Hrun3.
  unfold addEvents. cbn [DEBUG requests trace].
  destruct (onlyConsole_quiet evs3 Q3) as (S3 & P3 & F3).
  splits.
  - reflexivity.
  - lia.
  - eexists. splits.
    + rewrite <- !app_assoc. reflexivity.
    + rewrite !sentPaths_app, !length_app. cbn [sentPaths List.length].
      rewrite R1, R2, P3. destruct (debugFlag ps); simpl; lia.
    + rewrite !sleepsOf_app. cbn [sleepsOf]. rewrite Q1, Q2, S3.
      destruct (debugFlag ps); simpl; now rewrite app_nil_r.
    + rewrite !filesCreated_app. cbn [filesCreated]. rewrite F1, F2, F3.
      now destruct (debugFlag ps).
Qed.

Lemma run_completes_without_download_witness :
  let P := Demo.demoPlatform noDataServer in
  fst (run P Demo.demoParameters Demo.freshWorld) = Resolved tt
  /\ requests (snd (run P Demo.demoParameters Demo.freshWorld)) = 3.
Proof.
  cbv zeta.
  assert (Hact : forall i, i < 1 ->
            observesActive (Demo.demoPlatform noDataServer)
              (server (Demo.demoPlatform noDataServer)
                      (S (requests Demo.freshWorld) + i)) = true).
  { intros i Hi. destruct i as [|i]; [reflexivity | lia]. }
  assert (Hk : 1 < 20) by lia.
  assert (Hne : toUpperCase "NO_DATA" <> "EXPORT_SUCCEEDED") by discriminate.
  pose proof (run_completes_without_download
                (Demo.demoPlatform noDataServer) Demo.demoParameters
                Demo.freshWorld (VObj [("jobId", VStr "job1")]) (VStr "job1")
                (VObj [("status", VStr "NO_DATA")]) "NO_DATA" 1
                eq_refl eq_refl eq_refl eq_refl eq_refl Hk Hact eq_refl
                eq_refl eq_refl Hne) as H.
  destruct (run _ _ _) as [result w'].
  exact (conj (proj1 H) (proj1 (proj2 H))).
Defined.

End EndToEndExtras.

Section DownloadBehaviour.
Import JsString Js OciUtils ExportDaInsights Observe Behaviour Utils ScriptArgs.
Context (P : platform).

Lemma sentPaths_writes (file : string) (cs : list string) :
  sentPaths (map (FileWrite file) cs) = [].
Proof. induction cs; simpl; auto. Qed.

Lemma filesCreated_writes (file : string) (cs : list string) :
  filesCreated (map (FileWrite file) cs) = [].
Proof. induction cs; simpl; auto. Qed.

Lemma fileContent_console (file : string) (evs : list event) : forall acc,
  onlyConsole evs = true -> fileContent file evs acc = acc.
Proof.
  induction evs as [|e evs IH]; intros acc Hq; [reflexivity|].
  destruct e; try discriminate; simpl in *; auto.
Qed.

(** The first iteration of the loop of [writeExportedData], which is the
    only one. *)
Lemma writeExportedData_first (exportId : value) (outDir : string)
      (name : value) (others : list value) (w : world) :
  writeExportedData P exportId outDir (VArr (name :: others)) w
  = (Js.bind
       (debug ("writeExportedData: GET http://" ++ DOMAIN P
               ++ basePath ++ "/bots/insights/dataExports/"
               ++ encodeURIComponent P (ToString P exportId)
               ++ "/files/" ++ encodeURIComponent P (ToString P name)))
       (fun _ =>
          Js.bind
            (emit (Log (VStr ("Downloading " ++ trim outDir ++ "/"
                              ++ ToString P name))))
            (fun _ =>
               promisifiedWriteZipResponse P
                 (mkOptions (DOMAIN P)
                    (basePath ++ "/bots/insights/dataExports/"
                     ++ encodeURIComponent P (ToString P exportId)
                     ++ "/files/" ++ encodeURIComponent P (ToString P name))
                    None [])
                 (trim outDir ++ "/" ++ ToString P name)))) w.
Proof.
  unfold writeExportedData. cbn [elementsOf List.length forLoop nth].
  cbn [opt_host opt_path].
  unfold Js.bind.
  repeat match goal with
         | |- context [match ?x with _ => _ end] =>
             match x with
             | debug _ _ => destruct x as [[[] | |] ?]
             | emit _ _ => destruct x as [[[] | |] ?]
             | promisifiedWriteZipResponse _ _ _ _ => destruct x as [[? | |] ?]
             end
         end; reflexivity.
Qed.

Lemma logged_app a b : logged (a ++ b) = (logged a ++ logged b)%list.
Proof.
  induction a as [|e a IH]; simpl; [reflexivity|].
  destruct e; simpl; now rewrite IH.
Qed.

Lemma logged_writes (file : string) (cs : list string) :
  logged (map (FileWrite file) cs) = [].
Proof. induction cs; simpl; auto. Qed.

Lemma trace_tail (l p evs : list event) (a b : event) :
  p = (l ++ evs)%list -> ((p ++ [a]) ++ [b] = l ++ evs ++ [a; b])%list.
Proof. intros ->. now rewrite <- !app_assoc. Qed.

Lemma trace_tail1 (l p evs : list event) (a : event) :
  p = (l ++ evs)%list -> (p ++ [a] = l ++ evs ++ [a])%list.
Proof. intros ->. now rewrite <- !app_assoc. Qed.

End DownloadBehaviour.

Section DownloadExtras.
Import JsString Js OciUtils ExportDaInsights Observe Behaviour Utils ScriptArgs.

(** When the destination of the first listed file can be opened and its
    download is rejected, the switch of [run] asks for no other file: after that one request it prints the
    failure and the error, and leaves with status 1.  Before the request
    it printed the [Downloading] line (and the debug line when debugging
    is on), and nothing else. *)
Theorem dispatch_download_failure (P : platform) (ps : parameters)
        (zipFilePath : string)
        (exportJobId task name : value) (others : list value) (s : string)
        (w : world) (e : value) :
  toUpperCase s = "EXPORT_SUCCEEDED" ->
  snd (sign P (downloadRequest P exportJobId name) (utilsSignOptions P None))
  = Returned ->
  writeStreamError P (trim zipFilePath ++ "/" ++ ToString P name) = None ->
  answered P (server P (requests w)) = Rejected e ->
  let '(result, w') :=
    dispatch P ps zipFilePath exportJobId task (VArr (name :: others)) s w in
  result = Exited 1
  /\ requests w' = S (requests w)
  /\ exists evs,
       trace w' = (trace w ++ evs
                   ++ [Log (VStr downloadFailed); LogError e])%list
       /\ List.length (sentPaths evs) = 1
       /\ logged evs
          = ((if DEBUG w
              then [VStr ("writeExportedData: GET http://" ++ DOMAIN P
                          ++ path (downloadRequest P exportJobId name))]
              else [])
             ++ [VStr ("Downloading " ++ trim zipFilePath ++ "/"
                       ++ ToString P name)])%list.
Proof.
  intros Hsel Hsigns Hopens Ha.
  unfold dispatch. rewrite Hsel.
  change (String.eqb "EXPORT_SUCCEEDED" "EXPORT_SUCCEEDED") with true.
  cbv iota.
  unfold Js.bind at 1. unfold tryCatch at 1. unfold Js.bind at 1.
  rewrite writeExportedData_first.
  unfold Js.bind at 1. rewrite debug_run.
  unfold Js.bind at 1. unfold emit at 1.
  unfold addEvents. cbn [DEBUG requests trace].
  fold (downloadRequest P exportJobId name) in Hsigns.
  destruct (sign P (downloadRequest P exportJobId name) (utilsSignOptions P None))
    as [[request' options'] c] eqn:Hs.
  cbn [snd] in Hsigns. subst c.
  match goal with
  | |- context [promisifiedWriteZipResponse P ?o ?f ?w0] =>
      pose proof (writeZip_run P o f w0 request' options' Hs Hopens) as Hrun;
      set (w0' := w0) in *
  end.
  cbn [requests w0'] in Hrun. unfold answered in Ha.
  assert (Hpath : path (downloadRequest P exportJobId name)
                  = basePath ++ "/bots/insights/dataExports/"
                    ++ encodeURIComponent P (ToString P exportJobId)
                    ++ "/files/" ++ encodeURIComponent P (ToString P name)).
  { unfold downloadRequest, httpsRequest. cbn [opt_host opt_path opt_method opt_headers fold_left].
    destruct (negb _ && _); reflexivity. }
  rewrite Hpath. clear Hpath.
  assert (Hcount : forall evs',
             Datatypes.length
               (sentPaths ((if DEBUG w
                            then [Log (VStr ("writeExportedData: GET http://"
                                             ++ DOMAIN P ++ basePath
                                             ++ "/bots/insights/dataExports/"
                                             ++ encodeURIComponent P (ToString P exportJobId)
                                             ++ "/files/"
                                             ++ encodeURIComponent P (ToString P name)))]
                            else [])
                           ++ [Log (VStr ("Downloading " ++ trim zipFilePath
                                          ++ "/" ++ ToString P name))]
                           ++ evs')%list)
             = Datatypes.length (sentPaths evs')).
  { intros evs'. destruct (DEBUG w); reflexivity. }
  assert (Hlogged : forall evs',
             logged ((if DEBUG w
                      then [Log (VStr ("writeExportedData: GET http://"
                                       ++ DOMAIN P ++ basePath
                                       ++ "/bots/insights/dataExports/"
                                       ++ encodeURIComponent P (ToString P exportJobId)
                                       ++ "/files/"
                                       ++ encodeURIComponent P (ToString P name)))]
                      else [])
                     ++ [Log (VStr ("Downloading " ++ trim zipFilePath
                                    ++ "/" ++ ToString P name))]
                     ++ evs')%list
             = ((if DEBUG w
                 then [VStr ("writeExportedData: GET http://"
                             ++ DOMAIN P ++ basePath
                             ++ "/bots/insights/dataExports/"
                             ++ encodeURIComponent P (ToString P exportJobId)
                             ++ "/files/"
                             ++ encodeURIComponent P (ToString P name))]
                 else [])
                ++ [VStr ("Downloading " ++ trim zipFilePath
                          ++ "/" ++ ToString P name)]
                ++ logged evs')%list).
  { intros evs'. destruct (DEBUG w); reflexivity. }
  destruct (server P (requests w)) as [r|e0].
  - destruct (streamError r) as [e0|] eqn:Hse.
    + rewrite Hrun. inversion Ha; subst e.
      unfold failureCallback, Js.bind, emit, processExit.
      cbn [DEBUG requests trace w0']. splits; [reflexivity | reflexivity |].
      eexists. splits.
      * apply trace_tail. rewrite <- !app_assoc. reflexivity.
      * rewrite Hcount. cbn [sentPaths app]. now rewrite sentPaths_writes.
      * rewrite Hlogged. cbn [logged app]. now rewrite logged_writes.
    + destruct Hrun as (evs & Hrun & Hq & Hnil). rewrite Hrun.
      unfold answered. rewrite Hse, Ha.
      unfold failureCallback, Js.bind, emit, processExit.
      cbn [DEBUG requests trace w0']. splits; [reflexivity | reflexivity |].
      rewrite Hnil by (unfold answered; rewrite Hse, Ha; discriminate).
      eexists. splits.
      * apply trace_tail. rewrite <- !app_assoc. reflexivity.
      * rewrite Hcount. cbn [sentPaths app].
        rewrite sentPaths_app, sentPaths_writes. reflexivity.
      * rewrite Hlogged. cbn [logged app].
        rewrite logged_app, logged_writes. reflexivity.
  - rewrite Hrun. inversion Ha; subst e.
    unfold failureCallback, Js.bind, emit, processExit.
    cbn [DEBUG requests trace w0']. splits; [reflexivity | reflexivity |].
    eexists. splits.
    + apply trace_tail. rewrite <- !app_assoc. reflexivity.
    + rewrite Hcount. reflexivity.
    + rewrite Hlogged. reflexivity.
Qed.

Lemma dispatch_download_failure_witness :
  fst (dispatch (Demo.demoPlatform brokenServer) Demo.demoParameters
                "/tmp/out" (VStr "job1") VUndefined
                (VArr [VStr "a.zip"; VStr "b.zip"]) "export_succeeded"
                Demo.freshWorld)
  = Exited 1.
Proof.
  pose proof (dispatch_download_failure
                (Demo.demoPlatform brokenServer) Demo.demoParameters
                "/tmp/out" (VStr "job1") VUndefined (VStr "a.zip")
                [VStr "b.zip"] "export_succeeded" Demo.freshWorld
                (VError (VStr "ECONNRESET")) eq_refl eq_refl eq_refl eq_refl)
    as H.
  destruct (dispatch _ _ _ _ _ _ _ _) as [result w'].
  exact (proj1 H).
Defined.

(** When the destination of the first listed file can be opened and the
    file downloads, the switch of [run] is done with it: whatever else is listed, exactly one request is sent, exactly one
    file is created, [outDir.trim()/name] for the first name, it holds the
    body of the response, and the run reports the export as done. *)
Theorem dispatch_downloads_first_file (P : platform) (ps : parameters)
        (zipFilePath : string)
        (exportJobId task name : value) (others : list value) (s : string)
        (w : world) (r : response) (v : value) :
  toUpperCase s = "EXPORT_SUCCEEDED" ->
  snd (sign P (downloadRequest P exportJobId name) (utilsSignOptions P None))
  = Returned ->
  writeStreamError P (trim zipFilePath ++ "/" ++ ToString P name) = None ->
  server P (requests w) = Responds r ->
  answered P (Responds r) = Resolved v ->
  let file := trim zipFilePath ++ "/" ++ ToString P name in
  let '(result, w') :=
    dispatch P ps zipFilePath exportJobId task (VArr (name :: others)) s w in
  result = Resolved tt
  /\ requests w' = S (requests w)
  /\ exists evs,
       trace w' = (trace w ++ evs ++ [Log (VStr (exportDone zipFilePath))])%list
       /\ sentPaths evs = [path (downloadRequest P exportJobId name)]
       /\ filesCreated evs = [file]
       /\ fileContent file evs EmptyString
          = String.concat EmptyString (chunks r).
Proof.
  intros Hsel Hsigns Hopens Hx Ha. cbv zeta.
  unfold dispatch. rewrite Hsel.
  change (String.eqb "EXPORT_SUCCEEDED" "EXPORT_SUCCEEDED") with true.
  cbv iota.
  unfold Js.bind at 1. unfold tryCatch at 1. unfold Js.bind at 1.
  rewrite writeExportedData_first.
  unfold Js.bind at 1. rewrite debug_run.
  unfold Js.bind at 1. unfold emit at 1.
  unfold addEvents. cbn [DEBUG requests trace].
  fold (downloadRequest P exportJobId name) in Hsigns.
  pose proof (sign_effect P (downloadRequest P exportJobId name)
                (utilsSignOptions P None)) as Heff.
  destruct (sign P (downloadRequest P exportJobId name) (utilsSignOptions P None))
    as [[request' options'] c] eqn:Hs.
  cbn [snd] in Hsigns. subst c.
  destruct Heff as (_ & _ & _ & Hpath & _).
  match goal with
  | |- context [promisifiedWriteZipResponse P ?o ?f ?w0] =>
      pose proof (writeZip_run P o f w0 request' options' Hs Hopens) as Hrun;
      set (w0' := w0) in *
  end.
  cbn [requests w0'] in Hrun. rewrite Hx in Hrun.
  assert (He : streamError r = None).
  { unfold answered in Ha. destruct (streamError r); [discriminate | reflexivity]. }
  rewrite He in Hrun. destruct Hrun as (evs & Hrun & Hq & Hnil).
  rewrite Hrun, Ha.
  rewrite Hnil by (rewrite Ha; discriminate).
  unfold ret at 1. unfold emit.
  cbn [DEBUG requests trace w0']. splits; [reflexivity | reflexivity |].
  eexists. splits.
  - apply trace_tail1. rewrite <- !app_assoc. reflexivity.
  - rewrite !sentPaths_app, sentPaths_writes. cbn [sentPaths app].
    rewrite Hpath. destruct (DEBUG w); reflexivity.
  - rewrite !filesCreated_app, filesCreated_writes. cbn [filesCreated app].
    destruct (DEBUG w); reflexivity.
  - rewrite !fileContent_app, fileContent_writes.
    destruct (DEBUG w); cbn [fileContent]; rewrite ?String.eqb_refl;
      reflexivity.
Qed.

Lemma dispatch_downloads_first_file_witness :
  let out := dispatch (Demo.demoPlatform Demo.succeedingServer)
                      Demo.demoParameters "/tmp/out " (VStr "job1") VUndefined
                      (VArr [VStr "a.zip"; VStr "b.zip"]) "Export_Succeeded"
                      Demo.worldBeforeDownload in
  fst out = Resolved tt /\ requests (snd out) = 5.
Proof.
  cbv zeta.
  pose proof (dispatch_downloads_first_file
                (Demo.demoPlatform Demo.succeedingServer) Demo.demoParameters
                "/tmp/out " (VStr "job1") VUndefined (VStr "a.zip")
                [VStr "b.zip"] "Export_Succeeded" Demo.worldBeforeDownload
                _ _ eq_refl eq_refl eq_refl eq_refl eq_refl) as H.
  cbv zeta in H.
  destruct (dispatch _ _ _ _ _ _ _ _) as [result w'].
  exact (conj (proj1 H) (proj1 (proj2 H))).
Defined.

(** The switch of [run] on EXPORT_SUCCEEDED when no file can be asked for:
    with an empty list nothing is requested and the export is reported as
    done; when the task resource has no [filenames] the run prints the
    failure and leaves with status 1. *)
Theorem dispatch_nothing_to_download (P : platform) (ps : parameters)
        (zipFilePath : string)
        (exportJobId task : value) (s : string) (w : world) :
  toUpperCase s = "EXPORT_SUCCEEDED" ->
  dispatch P ps zipFilePath exportJobId task (VArr []) s w
  = (Resolved tt, addEvents w [Log (VStr (exportDone zipFilePath))])
  /\ dispatch P ps zipFilePath exportJobId task VUndefined s w
     = (Exited 1,
        addEvents w [Log (VStr downloadFailed);
                     LogError (typeError "cannot read property length")]).
Proof.
  intros Hsel. unfold dispatch. rewrite Hsel.
  change (String.eqb "EXPORT_SUCCEEDED" "EXPORT_SUCCEEDED") with true.
  cbv iota. split.
  - reflexivity.
  - unfold Js.bind, tryCatch, writeExportedData, failureCallback, Js.bind,
      emit, throw, processExit, addEvents.
    cbn [elementsOf DEBUG requests trace]. rewrite <- app_assoc. reflexivity.
Qed.

Lemma dispatch_nothing_to_download_witness :
  fst (dispatch (Demo.demoPlatform Demo.succeedingServer) Demo.demoParameters
                "/tmp/out" (VStr "job1") VUndefined VUndefined
                "EXPORT_SUCCEEDED" Demo.freshWorld)
  = Exited 1.
Proof.
  rewrite (proj2 (dispatch_nothing_to_download
                    (Demo.demoPlatform Demo.succeedingServer)
                    Demo.demoParameters "/tmp/out" (VStr "job1") VUndefined
                    "EXPORT_SUCCEEDED" Demo.freshWorld eq_refl)).
  reflexivity.
Defined.

End DownloadExtras.

Section RunExtras.
Import JsString Js OciUtils ExportDaInsights Observe Behaviour Utils ScriptArgs.

(** [run] makes no network call when an argument is invalid: if the output
    path is not an existing directory or a date does not pass
    [isDateValid], it prints its messages and leaves with status 1 without
    sending a request, waiting or creating a file. *)
Theorem run_refuses_invalid_arguments (P : platform) (ps : parameters)
        (w : world) :
  directoryOk P (p_outpath ps) && dateOk P (p_begindate ps)
  && dateOk P (p_enddate ps) = false ->
  let '(result, w') := run P ps w in
  result = Exited 1
  /\ requests w' = requests w
  /\ exists evs,
       trace w' = (trace w ++ evs ++ [LogError (VStr invalidArguments)])%list
       /\ onlyConsole evs = true.
Proof.
  intros Hbad.
  destruct (run_validation P ps w) as (evs & Hq & Hrun).
  rewrite Hbad in Hrun. rewrite Hrun. cbn [requests trace].
  splits; auto. now exists evs.
Qed.

Lemma run_refuses_invalid_arguments_witness :
  fst (run (Demo.demoPlatform Demo.succeedingServer)
           (mkParameters "bot1" None (Some "2024-13-01") None "/tmp/out" None)
           Demo.freshWorld)
  = Exited 1.
Proof.
  pose proof (run_refuses_invalid_arguments
                (Demo.demoPlatform Demo.succeedingServer)
                (mkParameters "bot1" None (Some "2024-13-01") None "/tmp/out" None)
                Demo.freshWorld eq_refl) as H.
  destruct (run _ _ _) as [result w'].
  exact (proj1 H).
Defined.

End RunExtras.

Section DateFacts.
Import JsString Js OciUtils ExportDaInsights Observe Behaviour Utils ScriptArgs.
Context (P : platform).

Lemma length_list_ascii (s : string) :
  List.length (list_ascii_of_string s) = String.length s.
Proof. induction s; simpl; auto. Qed.

Lemma daysInMonth_le (y m : nat) : daysInMonth y m <= 31.
Proof.
  unfold daysInMonth.
  do 12 (destruct m as [|m]; [try destruct (isLeapYear y); lia|]). lia.
Qed.

Lemma pattern_shape (d : string) :
  matchesDatePattern d = true ->
  exists y1 y2 y3 y4 s1 m1 m2 s2 d1 d2,
    list_ascii_of_string d = [y1; y2; y3; y4; s1; m1; m2; s2; d1; d2]
    /\ charIn "0" "3" d1 = true /\ isDigit d2 = true.
Proof.
  unfold matchesDatePattern.
  destruct (list_ascii_of_string d)
    as [|y1 [|y2 [|y3 [|y4 [|s1 [|m1 [|m2 [|s2 [|d1 [|d2 [|x l]]]]]]]]]]];
    try discriminate.
  intros H. repeat (apply andb_prop in H; destruct H as [H ?]).
  do 10 eexists. eauto.
Qed.

Lemma charIn_digit (hi c : ascii) :
  (nat_of_ascii hi <= 57)%nat -> charIn "0" hi c = true -> isDigit c = true.
Proof.
  unfold charIn, isDigit. intros Hhi H.
  apply andb_prop in H. destruct H as [Hlo Hup].
  apply Nat.leb_le in Hlo. apply Nat.leb_le in Hup.
  change (nat_of_ascii "0") with 48 in Hlo.
  apply andb_true_intro. split; apply Nat.leb_le; lia.
Qed.

(** A text that matches the pattern of [isDateValid] is four digits, a
    hyphen, two digits, a hyphen and two digits. *)
Lemma pattern_digits (d : string) :
  matchesDatePattern d = true ->
  exists y1 y2 y3 y4 m1 m2 d1 d2,
    list_ascii_of_string d
    = [y1; y2; y3; y4; "-"; m1; m2; "-"; d1; d2]%char
    /\ forallb isDigit [y1; y2; y3; y4; m1; m2; d1; d2] = true.
Proof.
  unfold matchesDatePattern.
  destruct (list_ascii_of_string d)
    as [|y1 [|y2 [|y3 [|y4 [|s1 [|m1 [|m2 [|s2 [|d1 [|d2 [|x l]]]]]]]]]]];
    try discriminate.
  intros H. rewrite !Bool.andb_true_iff in H.
  destruct H as [[[[[[[[[Y1 Y2] Y3] Y4] S1] M1] M2] S2] D1] D2].
  apply Ascii.eqb_eq in S1, S2. subst s1 s2.
  apply charIn_digit in M1; [|vm_compute; lia].
  apply charIn_digit in D1; [|vm_compute; lia].
  exists y1, y2, y3, y4, m1, m2, d1, d2. split; [reflexivity|].
  cbn [forallb]. now rewrite Y1, Y2, Y3, Y4, M1, M2, D1, D2.
Qed.

Lemma dateOk_sound (d : string) :
  dateOk P (Some d) = true -> d <> EmptyString ->
  String.length d = 10
  /\ 1 <= monthOf d <= 12
  /\ 1 <= dayOf d <= 31.
Proof.
  unfold dateOk. intros H Hne.
  destruct (String.length d =? 0)%nat eqn:Hl.
  - apply Nat.eqb_eq in Hl. destruct d; [now elim Hne | discriminate].
  - cbn [orb] in H. apply andb_prop in H. destruct H as [Hm Hn].
    destruct (pattern_shape d Hm)
      as (y1 & y2 & y3 & y4 & s1 & m1 & m2 & s2 & d1 & d2 & Hd & _).
    unfold dateIsNaN, monthOf, dayOf in *. rewrite Hd in *.
    rewrite <- length_list_ascii, Hd.
    apply negb_true_iff, negb_false_iff in Hn.
    repeat (apply andb_prop in Hn; destruct Hn as [Hn ?]).
    repeat match goal with
           | X : (_ <=? _)%nat = true |- _ => apply Nat.leb_le in X
           end.
    splits; try reflexivity; try assumption.
    destruct (dateRollsOver P); [assumption|].
    match goal with
    | X : _ <= daysInMonth ?y ?m |- _ =>
        pose proof (daysInMonth_le y m); lia
    end.
Qed.

End DateFacts.

Section PromptExtras.
Import JsString Js OciUtils ExportDaInsights Observe Behaviour Utils ScriptArgs.

Lemma isDateValid_outcome (P : platform) (type : string) (date : option string)
      (w : world) :
  fst (isDateValid P type date w) = Resolved (dateOk P date).
Proof.
  destruct (isDateValid_run P type date w) as (evs & Hrun & _).
  now rewrite Hrun.
Qed.

(** A date that [isDateValid] accepts is empty or has the shape
    YYYY-MM-DD: ten characters, namely four digits, a hyphen, two digits, a
    hyphen and two digits, where the month the digits name is from 1 to 12
    and the day from 1 to 31; accepting prints nothing. *)
Theorem isDateValid_accepts_calendar_dates (P : platform) (type d : string)
        (w : world) :
  d <> EmptyString ->
  fst (isDateValid P type (Some d) w) = Resolved true ->
  String.length d = 10
  /\ (exists y1 y2 y3 y4 m1 m2 d1 d2,
        list_ascii_of_string d
        = [y1; y2; y3; y4; "-"; m1; m2; "-"; d1; d2]%char
        /\ forallb isDigit [y1; y2; y3; y4; m1; m2; d1; d2] = true
        /\ monthOf d = 10 * digitValue m1 + digitValue m2
        /\ dayOf d = 10 * digitValue d1 + digitValue d2)
  /\ 1 <= monthOf d <= 12
  /\ 1 <= dayOf d <= 31
  /\ snd (isDateValid P type (Some d) w) = w.
Proof.
  intros Hne Hacc.
  rewrite isDateValid_outcome in Hacc.
  assert (Hok : dateOk P (Some d) = true) by congruence.
  destruct (dateOk_sound P d Hok Hne) as (Hl & Hm & Hd).
  destruct (isDateValid_run P type (Some d) w) as (evs & Hrun & _ & Hnil).
  rewrite Hrun, (Hnil Hok). cbn [snd]. rewrite addEvents_nil.
  splits; try lia; auto.
  unfold dateOk in Hok.
  destruct (String.length d =? 0)%nat eqn:Hz.
  - apply Nat.eqb_eq in Hz. rewrite Hz in Hl. discriminate.
  - cbn [orb] in Hok. apply andb_prop in Hok. destruct Hok as [Hp _].
    destruct (pattern_digits d Hp)
      as (y1 & y2 & y3 & y4 & m1 & m2 & d1 & d2 & Hshape & Hdigits).
    exists y1, y2, y3, y4, m1, m2, d1, d2.
    unfold monthOf, dayOf. rewrite Hshape. auto.
Qed.

Lemma isDateValid_accepts_calendar_dates_witness :
  String.length "2024-01-31" = 10
  /\ (exists y1 y2 y3 y4 m1 m2 d1 d2,
        list_ascii_of_string "2024-01-31"
        = [y1; y2; y3; y4; "-"; m1; m2; "-"; d1; d2]%char
        /\ forallb isDigit [y1; y2; y3; y4; m1; m2; d1; d2] = true
        /\ monthOf "2024-01-31" = 10 * digitValue m1 + digitValue m2
        /\ dayOf "2024-01-31" = 10 * digitValue d1 + digitValue d2)
  /\ 1 <= monthOf "2024-01-31" <= 12
  /\ 1 <= dayOf "2024-01-31" <= 31
  /\ snd (isDateValid (Demo.demoPlatform Demo.succeedingServer) "begin"
                      (Some "2024-01-31") Demo.freshWorld)
     = Demo.freshWorld.
Proof.
  apply (isDateValid_accepts_calendar_dates
           (Demo.demoPlatform Demo.succeedingServer) "begin" "2024-01-31"
           Demo.freshWorld).
  - discriminate.
  - reflexivity.
Defined.

Lemma validateBegindate_dateOk (P : platform) (v : string) :
  validateBegindate P v = Accepted <-> dateOk P (Some v) = true.
Proof.
  unfold validateBegindate, dateOk.
  destruct (String.length v =? 0)%nat; cbn [negb orb].
  - tauto.
  - destruct (matchesDatePattern v); cbn [negb andb].
    + destruct (dateIsNaN P v); cbn [negb]; split; intros; congruence.
    + split; intros; congruence.
Qed.

(** The prompt for the begin date and [run] judge a date alike: the
    [validate] of the [begindate] question accepts a text exactly when
    [isDateValid] accepts it. *)
Theorem validateBegindate_agrees_with_isDateValid (P : platform)
        (type v : string) (w : world) :
  validateBegindate P v = Accepted
  <-> fst (isDateValid P type (Some v) w) = Resolved true.
Proof.
  rewrite isDateValid_outcome, validateBegindate_dateOk.
  split; intros H; congruence.
Qed.

Lemma endPattern_split (v : string) :
  matchesEndDatePattern v = true
  <-> matchesDatePattern v = true /\ 10 <= dayOf v.
Proof.
  unfold matchesEndDatePattern, matchesDatePattern, dayOf.
  destruct (list_ascii_of_string v)
    as [|y1 [|y2 [|y3 [|y4 [|s1 [|m1 [|m2 [|s2 [|d1 [|d2 [|x l]]]]]]]]]]];
    try (split; [discriminate | intros [H _]; discriminate]).
  unfold charIn, isDigit, digitValue.
  change (nat_of_ascii "0") with 48. change (nat_of_ascii "1") with 49.
  change (nat_of_ascii "3") with 51.
  rewrite !andb_true_iff, !Nat.leb_le.
  split.
  - intros H. splits; try tauto; lia.
  - intros (H & Hday). splits; try tauto; lia.
Qed.

Lemma validateEnddate_dateOk (P : platform) (v : string) :
  validateEnddate P v = Accepted -> dateOk P (Some v) = true.
Proof.
  unfold validateEnddate, dateOk.
  destruct (String.length v =? 0)%nat; cbn [negb orb]; [reflexivity|].
  destruct (matchesEndDatePattern v) eqn:He; cbn [negb]; [|discriminate].
  apply endPattern_split in He. destruct He as (Hm & _). rewrite Hm.
  destruct (dateIsNaN P v); [discriminate | reflexivity].
Qed.

(** The prompt for the end date is stricter than [run]: its [validate]
    accepts a text exactly when [isDateValid] accepts it and the text is
    empty or names a day from 10 on.  A valid end date on one of the first
    nine days of a month, which [run] takes when it is passed as an
    argument, is refused at the prompt. *)
Theorem validateEnddate_refuses_early_days (P : platform) (type v : string)
        (w : world) :
  validateEnddate P v = Accepted
  <-> fst (isDateValid P type (Some v) w) = Resolved true
      /\ (v = EmptyString \/ 10 <= dayOf v).
Proof.
  rewrite isDateValid_outcome.
  unfold validateEnddate, dateOk.
  destruct (String.length v =? 0)%nat eqn:Hl; cbn [negb orb].
  - apply Nat.eqb_eq in Hl. destruct v; [|discriminate]. tauto.
  - assert (Hne : v <> EmptyString) by (intros ->; discriminate).
    destruct (matchesEndDatePattern v) eqn:He; cbn [negb].
    + apply endPattern_split in He. destruct He as (Hm & Hd). rewrite Hm.
      cbn [andb].
      destruct (dateIsNaN P v); cbn [negb].
      * split; [discriminate | intros (H & _); discriminate].
      * tauto.
    + split; [discriminate|].
      intros (H & [Hv | Hd]); [contradiction|].
      assert (Hr : Resolved (A:=bool)
                     (matchesDatePattern v && negb (dateIsNaN P v)) = Resolved true)
        by exact H.
      assert (Hb : matchesDatePattern v && negb (dateIsNaN P v) = true)
        by congruence.
      apply andb_prop in Hb. destruct Hb as (Hm & _).
      assert (matchesEndDatePattern v = true) by (apply endPattern_split; auto).
      congruence.
Qed.

(** Arguments that the prompts accepted pass the validation of [run]: an
    output path, a begin date and an end date accepted by their [validate]
    functions satisfy the directory check and both date checks. *)
Theorem prompted_arguments_pass_validation (P : platform)
        (outpath begindate enddate : string) :
  validateOutpath P outpath = Accepted ->
  validateBegindate P begindate = Accepted ->
  validateEnddate P enddate = Accepted ->
  directoryOk P outpath && dateOk P (Some begindate) && dateOk P (Some enddate)
  = true.
Proof.
  intros Ho Hb He.
  apply validateBegindate_dateOk in Hb.
  apply validateEnddate_dateOk in He.
  rewrite Hb, He.
  unfold validateOutpath, directoryOk in *.
  destruct (String.length outpath =? 0)%nat; cbn [negb] in Ho; [discriminate|].
  destruct (statIsDirectory P (trim (expandHome (homedir P) outpath)))
    as [[]|]; try discriminate. reflexivity.
Qed.

Lemma prompted_arguments_pass_validation_witness :
  let P := Demo.demoPlatform Demo.succeedingServer in
  directoryOk P "/tmp/out" && dateOk P (Some "2024-01-01")
  && dateOk P (Some "2024-01-31")
  = true.
Proof.
  exact (prompted_arguments_pass_validation
           (Demo.demoPlatform Demo.succeedingServer)
           "/tmp/out" "2024-01-01" "2024-01-31" eq_refl eq_refl eq_refl).
Defined.

End PromptExtras.

Section PromptQuestions.
Import JsString Js OciUtils ExportDaInsights Observe Behaviour Utils ScriptArgs.
Context (P : platform) (H : host).

Lemma questionFor_name (n : string) (q : question) :
  questionFor P H n = Some q -> q_name q = n /\ In n promptable.
Proof.
  unfold questionFor, promptable. intros Hq.
  repeat match type of Hq with
         | context [String.eqb n ?c] =>
             let E := fresh "E" in
             destruct (String.eqb n c) eqn:E;
             [apply String.eqb_eq in E; subst n; inversion Hq;
              simpl; auto 10 |]
         end.
  discriminate.
Qed.

Lemma questionFor_promptable (n : string) :
  In n promptable -> exists q, questionFor P H n = Some q.
Proof.
  unfold promptable. simpl.
  intros [<- | [<- | [<- | [<- | [<- | [<- | []]]]]]]; eexists; reflexivity.
Qed.

End PromptQuestions.

Section PromptQuestionsExtras.
Import JsString Js OciUtils ExportDaInsights Observe Behaviour Utils ScriptArgs.

(** [getPromptQuestions] asks once for every listed option that is
    undefined in the input and is one of [id], [taskname], [outpath],
    [configpath], [begindate], [enddate], in the order of the options, and
    asks for nothing else: an option that was given, [debug], or any other
    name gets no question. *)
Theorem getPromptQuestions_asks_for_missing (P : platform) (H : host)
        (options : list argvOption)
        (inputArgs : list (string * value)) :
  map q_name (getPromptQuestions P H options inputArgs)
  = filter (fun n => isUndefined (lookupField n inputArgs)
                     && memberOf n promptable)
           (map a_name options).
Proof.
  induction options as [|o options IH]; [reflexivity|].
  cbn [getPromptQuestions map filter].
  destruct (isUndefined (lookupField (a_name o) inputArgs)); cbn [andb].
  - destruct (questionFor P H (a_name o)) as [q|] eqn:Hq.
    + destruct (questionFor_name P H _ _ Hq) as (Hn & Hin).
      assert (Hm : memberOf (a_name o) promptable = true).
      { unfold memberOf. apply existsb_exists. exists (a_name o).
        split; [exact Hin | apply String.eqb_refl]. }
      rewrite Hm. cbn [map]. now rewrite Hn, IH.
    + assert (Hm : memberOf (a_name o) promptable = false).
      { destruct (memberOf (a_name o) promptable) eqn:Hm; [|reflexivity].
        unfold memberOf in Hm. apply existsb_exists in Hm.
        destruct Hm as (x & Hin & Hx). apply String.eqb_eq in Hx. subst x.
        destruct (questionFor_promptable P H _ Hin) as (q & Hq'). congruence. }
      rewrite Hm. exact IH.
  - exact IH.
Qed.

End PromptQuestionsExtras.

Section ConfigExtras.
Import JsString Js OciUtils ExportDaInsights Observe Behaviour Utils ScriptArgs.

Lemma loadPrivateKey_loaded (P : platform) (H : host) (configFile : string)
      (pk k : value) :
  loadPrivateKey P H configFile pk = inr (Some k) ->
  exists p text,
    pk = VStr p
    /\ readFileSync H (expandHome (homedir P) p) = Some text
    /\ k = VStr text.
Proof.
  unfold loadPrivateKey.
  destruct pk as [| |[]|n|s|[|[] ?]|?|?]; try discriminate.
  - destruct (n =? 0)%Z; discriminate.
  - destruct (String.eqb s EmptyString); [discriminate|].
    destruct (readFileSync H (expandHome (homedir P) s)) as [text|] eqn:Hr;
      [|discriminate].
    intros Hk. inversion Hk. now exists s, text.
  - match goal with |- context [String.eqb ?a ?b] => destruct (String.eqb a b) end;
      discriminate.
Qed.

(** When [getConfigData] returns, the configuration is complete: the file
    path is absolute, the file was loaded, nothing was printed, all five
    exports count as true, [DOMAIN], [TENANCY_ID], [AUTH_USER_ID] and
    [KEY_FINGERPRINT] are the file's [domain], [tenancyId], [userId] and
    [fingerprint], and [PRIVATE_KEY] is the text of the key file named by
    [privateKeyPath] or, when the file names none, the key the module
    already held. *)
Theorem getConfigData_complete (P : platform) (H : host) (configFile : string)
        (exports exports' : utilsExports) (logs : list (list value)) :
  getConfigData P H configFile exports = (exports', logs, Returned) ->
  isAbsolute H (trim (expandHome (homedir P) configFile)) = true
  /\ logs = []
  /\ (truthy (x_DOMAIN exports') = true
      /\ truthy (x_TENANCY_ID exports') = true
      /\ truthy (x_AUTH_USER_ID exports') = true
      /\ truthy (x_KEY_FINGERPRINT exports') = true
      /\ truthy (x_PRIVATE_KEY exports') = true)
  /\ exists configData,
       requireModule H (expandHome (homedir P) configFile) = inr configData
       /\ getProp configData "domain" = Some (x_DOMAIN exports')
       /\ getProp configData "tenancyId" = Some (x_TENANCY_ID exports')
       /\ getProp configData "userId" = Some (x_AUTH_USER_ID exports')
       /\ getProp configData "fingerprint" = Some (x_KEY_FINGERPRINT exports')
       /\ (x_PRIVATE_KEY exports' = x_PRIVATE_KEY exports
           \/ exists p text,
                getProp configData "privateKeyPath" = Some (VStr p)
                /\ readFileSync H (expandHome (homedir P) p) = Some text
                /\ x_PRIVATE_KEY exports' = VStr text).
Proof.
  unfold getConfigData.
  destruct (isAbsolute H (trim (expandHome (homedir P) configFile)));
    cbn [negb]; [|discriminate].
  destruct (requireModule H (expandHome (homedir P) configFile))
    as [message|configData]; [discriminate|].
  destruct (getProp configData "privateKeyPath") as [pk|] eqn:Hpk;
    [|discriminate].
  destruct (loadPrivateKey P H configFile pk) as [e|key] eqn:Hkey;
    [discriminate|].
  cbn [x_DOMAIN x_TENANCY_ID x_AUTH_USER_ID x_KEY_FINGERPRINT x_PRIVATE_KEY].
  match goal with
  | |- context [if ?c then _ else _] => destruct c eqn:Hc
  end; [discriminate|].
  intros Heq. inversion Heq. subst exports' logs. clear Heq.
  cbn [x_DOMAIN x_TENANCY_ID x_AUTH_USER_ID x_KEY_FINGERPRINT x_PRIVATE_KEY].
  repeat (apply orb_false_elim in Hc; destruct Hc as [Hc ?]).
  repeat match goal with
         | X : negb _ = false |- _ => apply negb_false_iff in X
         end.
  splits; auto.
  exists configData.
  assert (Hobj : forall k, getProp configData k
                           = Some (lookupField k match configData with
                                                 | VObj fields => fields
                                                 | _ => []
                                                 end)).
  { intros k. destruct configData; try discriminate; reflexivity. }
  splits; auto.
  destruct key as [k|]; [right|left; reflexivity].
  destruct (loadPrivateKey_loaded P H configFile pk k Hkey)
    as (p & text & -> & Hr & ->).
  now exists p, text.
Qed.

Lemma getConfigData_complete_witness :
  let P := Demo.demoPlatform Demo.succeedingServer in
  getConfigData P (posixHost fullConfig) "/etc/oda/config.json" noExports
  = (mkExports (VStr "PEM") (VStr "oda.example.com") (VStr "ocid1.tenancy")
               (VStr "ocid1.user") (VStr "aa:bb"),
     [], Returned)
  /\ isAbsolute (posixHost fullConfig)
                (trim (expandHome (homedir P) "/etc/oda/config.json"))
     = true.
Proof.
  cbv zeta. split; [reflexivity|].
  exact (proj1 (getConfigData_complete
                  (Demo.demoPlatform Demo.succeedingServer)
                  (posixHost fullConfig) "/etc/oda/config.json" noExports
                  _ _ eq_refl)).
Defined.

Lemma loadPrivateKey_result (P : platform) (H : host) (configFile : string)
      (pk : value) (key : option value) :
  loadPrivateKey P H configFile pk = inr key ->
  if truthy pk
  then exists p text,
         pk = VStr p
         /\ readFileSync H (expandHome (homedir P) p) = Some text
         /\ key = Some (VStr text)
  else key = None.
Proof.
  unfold loadPrivateKey.
  destruct pk as [| |[]|n|s|[|[] ?]|?|?]; cbn [truthy]; try discriminate;
    try (intros Hk; inversion Hk; reflexivity).
  - destruct (n =? 0)%Z; cbn [negb]; [|discriminate].
    intros Hk. inversion Hk. reflexivity.
  - destruct (String.eqb s EmptyString); cbn [negb].
    + intros Hk. inversion Hk. reflexivity.
    + destruct (readFileSync H (expandHome (homedir P) s)) as [text|] eqn:Hr;
        [|discriminate].
      intros Hk. inversion Hk. now exists s, text.
  - match goal with |- context [String.eqb ?a ?b] => destruct (String.eqb a b) end;
      discriminate.
Qed.

(** A call of [getConfigData] that throws leaves the exports as they were,
    with one exception: when it throws for missing configuration data the
    exports have already been overwritten with what the file holds, and
    [PRIVATE_KEY] with the text of the key file when the file's
    [privateKeyPath] counts as true (it is as before when it does not).
    Only a file that cannot be loaded prints a line. *)
Theorem getConfigData_failure (P : platform) (H : host) (configFile : string)
        (exports exports' : utilsExports) (logs : list (list value))
        (e : value) :
  getConfigData P H configFile exports = (exports', logs, Threw e) ->
  (exports' = exports
   /\ (logs = []
       \/ exists message,
            requireModule H (expandHome (homedir P) configFile) = inl message
            /\ e = VError (VStr message)
            /\ logs = [[VStr ("There's a problem with the config file "
                              ++ configFile ++ ": ");
                        VStr message]]))
  \/ (e = missingData configFile
      /\ logs = []
      /\ exists configData,
           requireModule H (expandHome (homedir P) configFile) = inr configData
           /\ getProp configData "domain" = Some (x_DOMAIN exports')
           /\ getProp configData "tenancyId" = Some (x_TENANCY_ID exports')
           /\ getProp configData "userId" = Some (x_AUTH_USER_ID exports')
           /\ getProp configData "fingerprint" = Some (x_KEY_FINGERPRINT exports')
           /\ (exists privateKeyPath,
                 getProp configData "privateKeyPath" = Some privateKeyPath
                 /\ if truthy privateKeyPath
                    then exists p text,
                           privateKeyPath = VStr p
                           /\ readFileSync H (expandHome (homedir P) p)
                              = Some text
                           /\ x_PRIVATE_KEY exports' = VStr text
                    else x_PRIVATE_KEY exports' = x_PRIVATE_KEY exports)
           /\ truthy (x_DOMAIN exports') && truthy (x_TENANCY_ID exports')
              && truthy (x_AUTH_USER_ID exports')
              && truthy (x_KEY_FINGERPRINT exports')
              && truthy (x_PRIVATE_KEY exports') = false).
Proof.
  unfold getConfigData.
  destruct (isAbsolute H (trim (expandHome (homedir P) configFile)));
    cbn [negb].
  2: { intros Heq. inversion Heq. left. auto. }
  destruct (requireModule H (expandHome (homedir P) configFile))
    as [message|configData] eqn:Hreq.
  { intros Heq. inversion Heq. left. split; [reflexivity|].
    right. now exists message. }
  destruct (getProp configData "privateKeyPath") as [pk|] eqn:Hpk.
  2: { intros Heq. inversion Heq. left. auto. }
  destruct (loadPrivateKey P H configFile pk) as [e0|key] eqn:Hkey.
  { intros Heq. inversion Heq. left. auto. }
  cbn [x_DOMAIN x_TENANCY_ID x_AUTH_USER_ID x_KEY_FINGERPRINT x_PRIVATE_KEY].
  match goal with
  | |- context [if ?c then _ else _] => destruct c eqn:Hc
  end; [|discriminate].
  intros Heq. inversion Heq. subst exports' logs e. clear Heq.
  right. splits; auto.
  exists configData.
  assert (Hobj : forall k, getProp configData k
                           = Some (lookupField k match configData with
                                                 | VObj fields => fields
                                                 | _ => []
                                                 end)).
  { intros k. destruct configData; try discriminate; reflexivity. }
  cbn [x_DOMAIN x_TENANCY_ID x_AUTH_USER_ID x_KEY_FINGERPRINT x_PRIVATE_KEY].
  splits; auto.
  - exists pk. split; [exact Hpk|].
    pose proof (loadPrivateKey_result P H configFile pk key Hkey) as Hres.
    destruct (truthy pk).
    + destruct Hres as (p & text & Hp & Hr & Hk). subst key.
      now exists p, text.
    + now subst key.
  - revert Hc.
    repeat match goal with
           | |- context [truthy ?v] => destruct (truthy v)
           end; cbn; intros Hc; try reflexivity; discriminate.
Qed.

Lemma getConfigData_failure_witness :
  let out := getConfigData (Demo.demoPlatform Demo.succeedingServer)
                           (posixHost domainlessConfig)
                           "/etc/oda/config.json" noExports in
  snd out = Threw (missingData "/etc/oda/config.json")
  /\ x_PRIVATE_KEY (fst (fst out)) = VStr "PEM".
Proof.
  cbv zeta.
  pose proof (getConfigData_failure
                (Demo.demoPlatform Demo.succeedingServer)
                (posixHost domainlessConfig) "/etc/oda/config.json" noExports
                _ _ _ eq_refl) as Hf.
  destruct Hf as [(Hx & _)
                 | (He & _ & configData & Hreq & _ & _ & _ & _ & Hk & _)].
  - discriminate Hx.
  - split; [exact (f_equal Threw He)|].
    inversion Hreq. subst configData.
    destruct Hk as (pk & Hpk & Hk). inversion Hpk. subst pk.
    cbn [truthy String.eqb Ascii.eqb Bool.eqb negb] in Hk.
    destruct Hk as (p & text & Hp & Hr & Hk). inversion Hp. subst p.
    inversion Hr. subst text.
    exact Hk.
Defined.

(** A configuration file whose [privateKeyPath] is missing or counts as
    false never changes [PRIVATE_KEY] and prints nothing: the call goes by
    the key the module already holds.  When the module holds none it
    throws for missing configuration data whatever the file holds; when it
    holds one, the call returns exactly when the file's four other fields
    count as true. *)
Theorem getConfigData_goes_by_held_key (P : platform) (H : host)
        (configFile : string) (exports : utilsExports)
        (configData pk : value) :
  isAbsolute H (trim (expandHome (homedir P) configFile)) = true ->
  requireModule H (expandHome (homedir P) configFile) = inr configData ->
  getProp configData "privateKeyPath" = Some pk ->
  truthy pk = false ->
  let '(exports', logs, c) := getConfigData P H configFile exports in
  x_PRIVATE_KEY exports' = x_PRIVATE_KEY exports
  /\ logs = []
  /\ (truthy (x_PRIVATE_KEY exports) = false ->
      c = Threw (missingData configFile))
  /\ (truthy (x_PRIVATE_KEY exports) = true ->
      c = if truthy (x_DOMAIN exports') && truthy (x_TENANCY_ID exports')
             && truthy (x_AUTH_USER_ID exports')
             && truthy (x_KEY_FINGERPRINT exports')
          then Returned
          else Threw (missingData configFile)).
Proof.
  intros Habs Hreq Hpk Hfalsy.
  unfold getConfigData. rewrite Habs, Hreq, Hpk. cbn [negb].
  assert (Hkey : loadPrivateKey P H configFile pk = inr None).
  { unfold loadPrivateKey.
    destruct pk as [| |[]|n|s| | |]; try discriminate; try reflexivity.
    - cbn [truthy] in Hfalsy. apply negb_false_iff in Hfalsy. now rewrite Hfalsy.
    - cbn [truthy] in Hfalsy. apply negb_false_iff in Hfalsy. now rewrite Hfalsy. }
  rewrite Hkey.
  cbn [x_DOMAIN x_TENANCY_ID x_AUTH_USER_ID x_KEY_FINGERPRINT x_PRIVATE_KEY].
  set (fields := match configData with VObj fields => fields | _ => [] end).
  generalize (lookupField "domain" fields) (lookupField "tenancyId" fields)
             (lookupField "userId" fields) (lookupField "fingerprint" fields).
  intros d t u f.
  destruct (truthy (x_PRIVATE_KEY exports)) eqn:Hk,
           (truthy d) eqn:Hd, (truthy t) eqn:Ht, (truthy u) eqn:Hu,
           (truthy f) eqn:Hf;
    cbn [negb orb andb x_PRIVATE_KEY x_DOMAIN x_TENANCY_ID x_AUTH_USER_ID
         x_KEY_FINGERPRINT];
    rewrite ?Hd, ?Ht, ?Hu, ?Hf;
    splits; try reflexivity; intros; try reflexivity; discriminate.
Qed.

Lemma getConfigData_goes_by_held_key_witness :
  let P := Demo.demoPlatform Demo.succeedingServer in
  snd (getConfigData P (posixHost keylessConfig) "/etc/oda/config.json" noExports)
  = Threw (missingData "/etc/oda/config.json").
Proof.
  cbv zeta.
  pose proof (getConfigData_goes_by_held_key
                (Demo.demoPlatform Demo.succeedingServer)
                (posixHost keylessConfig) "/etc/oda/config.json" noExports
                keylessConfig VUndefined eq_refl eq_refl eq_refl eq_refl) as Hh.
  destruct (getConfigData _ _ _ _) as [[exports' logs] c].
  destruct Hh as (_ & _ & Hh & _).
  exact (Hh eq_refl).
Defined.

End ConfigExtras.

Section FurtherExtras.
Import JsString Js OciUtils ExportDaInsights Observe Behaviour Utils ScriptArgs.

(** An empty date is no date: [startExportTask] called with an empty begin
    or end date, which [isDateValid] lets through, sends the same request
    and prints the same lines as a call without that date, so no [since]
    or [until] parameter is sent for it. *)
Theorem startExportTask_empty_date_is_no_date (P : platform)
        (id type : string) (taskName beginDate endDate : option string)
        (w : world) :
  startExportTask P id taskName (Some EmptyString) endDate w
  = startExportTask P id taskName None endDate w
  /\ startExportTask P id taskName beginDate (Some EmptyString) w
     = startExportTask P id taskName beginDate None w
  /\ isDateValid P type (Some EmptyString) w = (Resolved true, w).
Proof.
  splits; reflexivity.
Qed.

(** A path that the [configpath] prompt accepted passes the absolute-path
    test of [getConfigData], which therefore goes on to load the file:
    when [require] throws, the call prints the problem and throws the same
    error with the exports untouched; otherwise it prints nothing and does
    not throw the error about a path that is not absolute. *)
Theorem prompted_configpath_is_loaded (P : platform) (H : host)
        (configFile : string) (exports : utilsExports) :
  validateConfigpath P H configFile = Accepted ->
  let '(exports', logs, c) := getConfigData P H configFile exports in
  match requireModule H (expandHome (homedir P) configFile) with
  | inl message =>
      exports' = exports
      /\ logs = [[VStr ("There's a problem with the config file "
                        ++ configFile ++ ": ");
                  VStr message]]
      /\ c = Threw (VError (VStr message))
  | inr configData =>
      logs = []
      /\ c <> Threw (VError (VStr ("Can't access config file " ++ configFile
                                   ++ " because the path isn't an absolute path.")))
  end.
Proof.
  intros Hv. unfold validateConfigpath in Hv.
  destruct (String.length configFile =? 0)%nat; cbn [negb] in Hv;
    [discriminate|].
  destruct (isAbsolute H (trim (expandHome (homedir P) configFile))) eqn:Habs;
    cbn [negb] in Hv; [|discriminate].
  unfold getConfigData. rewrite Habs. cbn [negb].
  destruct (requireModule H (expandHome (homedir P) configFile))
    as [message|configData]; [splits; reflexivity|].
  destruct (getProp configData "privateKeyPath") as [pk|];
    [|split; [reflexivity | discriminate]].
  destruct (loadPrivateKey P H configFile pk) as [e|key] eqn:Hk.
  - split; [reflexivity|]. unfold loadPrivateKey in Hk.
    intros He. inversion He; subst e. clear He.
    destruct pk as [| |[]|n|s|[|[] ?]| |]; try discriminate.
    + destruct (n =? 0)%Z; discriminate.
    + destruct (String.eqb s EmptyString); [discriminate|].
      destruct (readFileSync H _); discriminate.
    + destruct (String.eqb _ _); discriminate.
  - match goal with
    | |- context [if ?c then _ else _] => destruct c
    end; (split; [reflexivity | discriminate]).
Qed.

Lemma prompted_configpath_is_loaded_witness :
  snd (getConfigData diskPlatform (posixHost fullConfig)
                     "/etc/oda/config.json" noExports)
  <> Threw (VError (VStr ("Can't access config file /etc/oda/config.json"
                          ++ " because the path isn't an absolute path."))).
Proof.
  pose proof (prompted_configpath_is_loaded
                diskPlatform (posixHost fullConfig) "/etc/oda/config.json"
                noExports eq_refl) as Hh.
  destruct (getConfigData _ _ _ _) as [[exports' logs] c].
  exact (proj2 Hh).
Defined.

End FurtherExtras.

Section UnwritableDestination.
Import JsString Js OciUtils ExportDaInsights Observe Behaviour Utils ScriptArgs.

Lemma writeZip_unopenable (P : platform) (options : requestOptions)
      (outFile : string) (w : world) request' options' (r : response)
      (e : value) :
  sign P (httpsRequest options) (utilsSignOptions P None)
  = (request', options', Returned) ->
  writeStreamError P outFile = Some e ->
  server P (requests w) = Responds r ->
  promisifiedWriteZipResponse P options outFile w
  = (Exited 1,
     mkWorld (DEBUG w) (S (requests w))
             (trace w ++ [Sent request' None; LogError e])).
Proof.
  intros Hs Hfails Hx.
  unfold promisifiedWriteZipResponse. rewrite Hs.
  unfold Js.bind at 1. unfold emit at 1.
  unfold Js.bind at 1. unfold nextExchange at 1. cbn [requests DEBUG trace].
  rewrite Hx, Hfails.
  unfold uncaught, Js.bind, emit, processExit. cbn [requests DEBUG trace].
  now rewrite <- app_assoc.
Qed.

(** A destination that cannot be opened is fatal.  On EXPORT_SUCCEEDED with
    a non-empty file list, when the request for the first file is answered
    but its destination cannot be opened, the switch of [run] ends the
    process with status 1 after that one request; no file is created and
    nothing is written. *)
Theorem dispatch_unwritable_destination (P : platform) (ps : parameters)
        (zipFilePath : string)
        (exportJobId task name : value) (others : list value) (s : string)
        (w : world) (r : response) (e : value) :
  toUpperCase s = "EXPORT_SUCCEEDED" ->
  snd (sign P (downloadRequest P exportJobId name) (utilsSignOptions P None))
  = Returned ->
  writeStreamError P (trim zipFilePath ++ "/" ++ ToString P name) = Some e ->
  server P (requests w) = Responds r ->
  let '(result, w') :=
    dispatch P ps zipFilePath exportJobId task (VArr (name :: others)) s w in
  result = Exited 1
  /\ requests w' = S (requests w)
  /\ exists evs,
       trace w' = (trace w ++ evs)%list
       /\ List.length (sentPaths evs) = 1
       /\ filesCreated evs = []
       /\ fileContent (trim zipFilePath ++ "/" ++ ToString P name) evs
                      EmptyString
          = EmptyString.
Proof.
  intros Hsel Hsigns Hfails Hx.
  unfold dispatch. rewrite Hsel.
  change (String.eqb "EXPORT_SUCCEEDED" "EXPORT_SUCCEEDED") with true.
  cbv iota.
  unfold Js.bind at 1. unfold tryCatch at 1. unfold Js.bind at 1.
  rewrite writeExportedData_first.
  unfold Js.bind at 1. rewrite debug_run.
  unfold Js.bind at 1. unfold emit at 1.
  unfold addEvents. cbn [DEBUG requests trace].
  fold (downloadRequest P exportJobId name) in Hsigns.
  destruct (sign P (downloadRequest P exportJobId name) (utilsSignOptions P None))
    as [[request' options'] c] eqn:Hs.
  cbn [snd] in Hsigns. subst c.
  match goal with
  | |- context [promisifiedWriteZipResponse P ?o ?f ?w0] =>
      rewrite (writeZip_unopenable P o f w0 request' options' r e Hs Hfails Hx)
  end.
  cbn [DEBUG requests trace]. splits; [reflexivity | reflexivity |].
  eexists. splits.
  - rewrite <- !app_assoc. reflexivity.
  - destruct (DEBUG w); reflexivity.
  - destruct (DEBUG w); reflexivity.
  - destruct (DEBUG w); reflexivity.
Qed.

Lemma dispatch_unwritable_destination_witness :
  fst (dispatch readOnlyPlatform Demo.demoParameters "/tmp/out" (VStr "job1")
                VUndefined (VArr [VStr "a.zip"; VStr "b.zip"])
                "EXPORT_SUCCEEDED" Demo.worldBeforeDownload)
  = Exited 1.
Proof.
  pose proof (dispatch_unwritable_destination
                readOnlyPlatform Demo.demoParameters "/tmp/out" (VStr "job1")
                VUndefined (VStr "a.zip") [VStr "b.zip"] "EXPORT_SUCCEEDED"
                Demo.worldBeforeDownload _ _ eq_refl eq_refl eq_refl eq_refl)
    as H.
  destruct (dispatch _ _ _ _ _ _ _ _) as [result w'].
  exact (proj1 H).
Defined.

End UnwritableDestination.
